(** * PGx clinical-trial prototype: population engine and PBPK model

    A shallow embedding of [prototype/engine.py], [prototype/models/pbpk_model.py]
    and the ethnicity normalisation of [prototype/app.py], with the properties
    the specification states about them.

    Modelling conventions.
    - Python [float] and numpy [float64] values are real numbers ([R]):
      rounding, infinities and NaN are outside the model.  Python [int] is [Z].
    - A Python exception is a value of [PyExc]; code that may raise returns a
      [result].
    - The process-wide tables [_ALLELE_FREQ_DATA] and [_ACTIVITY_SCORE_DATA]
      are fields of an explicit [ModuleState]; numpy's global random generator
      is an explicit state threaded through the sampling code.
    - [dict]s looked up by key are [gmap]s; a [dict] whose key order the code
      observes (through [list(d.keys())]) is an association list in insertion
      order, with distinct keys. *)

From Stdlib Require Import Reals Lra Lia ZArith String List Sorted Permutation.
From stdpp Require Import gmap strings list fin_maps.

Open Scope R_scope.

(** ** Python values and exceptions *)

Module Py.

Inductive PyExc : Type :=
| FileNotFoundError (msg : string)
| ValueError
| IndexError
| ZeroDivisionError.

Inductive result (A : Type) : Type :=
| Ok (a : A)
| Raise (e : PyExc).
Arguments Ok {A} a.
Arguments Raise {A} e.

Definition bind {A B : Type} (m : result A) (k : A -> result B) : result B :=
  match m with
  | Ok a => k a
  | Raise e => Raise e
  end.

Definition is_ok {A : Type} (m : result A) : bool :=
  match m with Ok _ => true | Raise _ => false end.

(** [a <= b], [a < b] and [a == b] on floats, as booleans. *)
Definition Rleb (a b : R) : bool := if Rle_dec a b then true else false.
Definition Rltb (a b : R) : bool := if Rlt_dec a b then true else false.
Definition Reqb (a b : R) : bool := if Req_dec_T a b then true else false.

#[global] Instance Rlt_decision (a b : R) : Decision (a < b) := Rlt_dec a b.
#[global] Instance Rle_decision (a b : R) : Decision (a <= b) := Rle_dec a b.
#[global] Instance Req_decision : EqDecision R := Req_dec_T.

(** The builtins [min(a, b)] and [max(a, b)]: the first argument is kept
    unless the second is strictly smaller (resp. larger). *)
Definition min (a b : R) : R := if Rltb b a then b else a.
Definition max (a b : R) : R := if Rltb a b then b else a.

(** [sorted([a, b])] on strings, as a pair: the sort is stable, so the
    order changes only when [b < a]. *)
Definition sorted2 (a b : string) : string * string :=
  if String.ltb b a then (b, a) else (a, b).

(** [a / b] on Python floats: [ZeroDivisionError] on a zero divisor.
    (Division of numpy scalars does not raise and is written [a / b].) *)
Definition div (a b : R) : result R :=
  if Reqb b 0 then Raise ZeroDivisionError else Ok (a / b).

(** A [for] loop whose body may raise, over the list of its iterations. *)
Fixpoint for_each {S X : Type} (body : S -> X -> result S) (s : S)
    (xs : list X) : result S :=
  match xs with
  | [] => Ok s
  | x :: xs' =>
      match body s x with
      | Ok s' => for_each body s' xs'
      | Raise e => Raise e
      end
  end.

(** [enumerate(xs)] *)
Definition enumerate {X : Type} (xs : list X) : list (nat * X) :=
  zip (seq 0 (length xs)) xs.

(** [sum(...)] over floats. *)
Definition sum (l : list R) : R := fold_right Rplus 0 l.

(** The builtins [min(l)] and [max(l)] on a list: [ValueError] on an empty
    list; otherwise the running best is replaced by an item strictly
    smaller (resp. larger). *)
Definition min_list (l : list R) : result R :=
  match l with
  | [] => Raise ValueError
  | x :: l' => Ok (fold_left min l' x)
  end.

Definition max_list (l : list R) : result R :=
  match l with
  | [] => Raise ValueError
  | x :: l' => Ok (fold_left max l' x)
  end.

Definition min_list_int (l : list Z) : result Z :=
  match l with
  | [] => Raise ValueError
  | x :: l' => Ok (fold_left Z.min l' x)
  end.

Definition max_list_int (l : list Z) : result Z :=
  match l with
  | [] => Raise ValueError
  | x :: l' => Ok (fold_left Z.max l' x)
  end.

End Py.

Export Py.

Notation "x <- m ;; k" := (Py.bind m (fun x => k))
  (at level 100, m at next level, right associativity).

(** ** The numpy and scipy functions the code calls

    These are library functions, not code of the repository; each is
    modelled from its documented behaviour on one-dimensional arrays. *)

Module Np.

(** [np.linspace(start, stop, num)] with the default [endpoint=True]:
    [num] samples [start + i * (stop - start) / (num - 1)]. *)
Definition linspace (start stop : R) (num : Z) : result (list R) :=
  if (num <? 0)%Z then Raise ValueError
  else
    let n := Z.to_nat num in
    let step := (stop - start) / INR (n - 1) in
    Ok (map (fun i => start + INR i * step) (seq 0 n)).

(** [np.argmax]: the index of the first occurrence of the maximum;
    [ValueError] on an empty array. *)
Fixpoint argmax_from (best_i : nat) (best : R) (i : nat) (l : list R) : nat :=
  match l with
  | [] => best_i
  | x :: l' =>
      if Rltb best x then argmax_from i x (S i) l'
      else argmax_from best_i best (S i) l'
  end.

Definition argmax (l : list R) : result nat :=
  match l with
  | [] => Raise ValueError
  | x :: l' => Ok (argmax_from 0%nat x 1%nat l')
  end.

(** [np.max]; [ValueError] on an empty array. *)
Definition amax (l : list R) : result R :=
  match l with
  | [] => Raise ValueError
  | x :: l' => Ok (fold_left Rmax l' x)
  end.

(** [scipy.integrate.trapezoid(y, x)]. *)
Fixpoint trapezoid (y x : list R) : R :=
  match y, x with
  | y0 :: ((y1 :: _) as y'), x0 :: ((x1 :: _) as x') =>
      (x1 - x0) * (y1 + y0) / 2 + trapezoid y' x'
  | _, _ => 0
  end.

(** [np.mean] and [np.std] (population standard deviation, [ddof=0]). *)
Definition mean (l : list R) : R := Py.sum l / INR (length l).

Definition std (l : list R) : R :=
  let m := mean l in
  sqrt (mean (map (fun x => (x - m) * (x - m)) l)).

(** [np.sort]. *)
Fixpoint insert_sorted (x : R) (l : list R) : list R :=
  match l with
  | [] => [x]
  | y :: l' => if Rleb x y then x :: y :: l' else y :: insert_sorted x l'
  end.

Definition sort (l : list R) : list R := fold_right insert_sorted [] l.

(** [np.percentile(a, q)] with the default linear interpolation: the
    value at the virtual index [q / 100 * (n - 1)] of the sorted array. *)
Definition percentile (a : list R) (q : R) : R :=
  let s := sort a in
  let n := length a in
  let pos := q / 100 * INR (n - 1) in
  let lo := Z.to_nat (Int_part pos) in
  let hi := Nat.min (lo + 1) (n - 1) in
  let g := pos - INR lo in
  nth lo s 0 + g * (nth hi s 0 - nth lo s 0).

(** [np.polyfit(x, y, 1)]: the least-squares line, as the pair
    (slope, intercept) that numpy returns highest degree first.  The
    closed form below is the least-squares solution whenever the
    abscissae are not all equal ([polyfit1_least_squares]). *)
Definition polyfit1 (x y : list R) : R * R :=
  let n := INR (length x) in
  let sx := Py.sum x in
  let sy := Py.sum y in
  let sxx := Py.sum (map (fun a => a * a) x) in
  let sxy := Py.sum (zip_with Rmult x y) in
  let slope := (n * sxy - sx * sy) / (n * sxx - sx * sx) in
  (slope, (sy - slope * sx) / n).

(** numpy's global random generator.  [G] is the generator state; a draw
    returns the value and the next state, or raises (for instance
    [np.random.choice] on an empty population or on probabilities that do
    not sum to one). *)
Class Random (G : Type) : Type := {
  seed : Z -> G;
  random : G -> result (R * G);
  randint : Z -> Z -> G -> result (Z * G);
  normal : R -> R -> G -> result (R * G);
  lognormal : R -> R -> G -> result (R * G);
  choice : forall {A : Type}, list A -> list R -> G -> result (A * G)
}.

(** What the sampling code relies on: [np.random.choice(a, p=p)] returns
    an element of [a]. *)
Class RandomLaws (G : Type) `{Random G} : Prop := {
  choice_elem :
    forall (A : Type) (a : list A) (p : list R) (g g' : G) (x : A),
      choice a p g = Ok (x, g') -> In x a
}.

(** The ranges numpy documents for three of the draws:
    [np.random.random()] lies in [[0, 1)], [np.random.randint(low, high)]
    in [[low, high)], and a lognormal draw is positive. *)
Class RandomRangeLaws (G : Type) `{Random G} : Prop := {
  random_range :
    forall (g g' : G) (u : R), random g = Ok (u, g') -> 0 <= u < 1;
  randint_range :
    forall (low high : Z) (g g' : G) (x : Z),
      randint low high g = Ok (x, g') -> (low <= x < high)%Z;
  lognormal_pos :
    forall (mu sigma : R) (g g' : G) (v : R),
      lognormal mu sigma g = Ok (v, g') -> 0 < v
}.

(** The check [np.random.choice(a, p=p)] makes on its probabilities before
    it draws: when they do not sum to one within its tolerance (the square
    root of the machine epsilon, about 1.5e-8) it raises [ValueError]. *)
Class RandomChoiceLaws (G : Type) `{Random G} : Prop := {
  choice_sum :
    forall (A : Type) (a : list A) (p : list R) (g : G),
      1e-7 < Rabs (Py.sum p - 1) -> choice a p g = Raise ValueError
}.

(** Code that draws from the generator: a state-and-exception monad. *)
Definition Rand (G A : Type) : Type := G -> result (A * G).

Definition rret {G A : Type} (a : A) : Rand G A := fun g => Ok (a, g).

Definition rbind {G A B : Type} (m : Rand G A) (k : A -> Rand G B)
    : Rand G B :=
  fun g =>
    match m g with
    | Ok (a, g') => k a g'
    | Raise e => Raise e
    end.

Fixpoint rfor_each {G S X : Type} (body : S -> X -> Rand G S) (s : S)
    (xs : list X) : Rand G S :=
  match xs with
  | [] => rret s
  | x :: xs' => rbind (body s x) (fun s' => rfor_each body s' xs')
  end.

(** [scipy.integrate.odeint(func, y0, t, args)] for a three-component
    state: one row per time sample. *)
Definition State3 : Type := R * R * R.

Class OdeSolver : Type := {
  odeint :
    (State3 -> R -> result State3) -> State3 -> list R -> result (list State3)
}.

(** What [solve] relies on: an exception can only come from the callback,
    and the solution has one row per time sample. *)
Class OdeSolverLaws `{OdeSolver} : Prop := {
  odeint_total :
    forall func y0 t,
      (forall y s, is_ok (func y s) = true) ->
      exists sol, odeint func y0 t = Ok sol /\ length sol = length t
}.

End Np.

Notation "x <~ m ;; k" := (Np.rbind m (fun x => k))
  (at level 100, m at next level, right associativity).

(** ** prototype/models/pbpk_model.py *)

Module Pbpk.

Record DrugParameters : Type := {
  name : string;
  log_p : R;
  f_u : R;
  v_d : R;
  k_a : R;
  f : R;
  mw : R
}.

Record PhysiologicalParameters : Type := {
  body_weight : R;
  v_plasma : R;
  v_liver : R;
  q_liver : R;
  cl_int : R;
  cl_renal : R;
  activity_score : R
}.

Record SimulationConfig : Type := {
  dose : R;
  route : string;
  t_max : R;
  n_points : Z
}.

(** The dataclass defaults, used when [PBPKModel] is built from [None]. *)
Definition DrugParameters_default : DrugParameters :=
  {| name := "Generic Drug"; log_p := 2; f_u := 0.1; v_d := 1; k_a := 1;
     f := 0.8; mw := 300 |}.

Definition PhysiologicalParameters_default : PhysiologicalParameters :=
  {| body_weight := 70; v_plasma := 3; v_liver := 1.5; q_liver := 90;
     cl_int := 10; cl_renal := 0; activity_score := 1 |}.

Definition SimulationConfig_default : SimulationConfig :=
  {| dose := 100; route := "oral"; t_max := 24; n_points := 241 |}.

(** The [params] dictionary handed to the ODE system. *)
Record OdeParams : Type := {
  P_k_a : R;
  P_F : R;
  P_V_c : R;
  P_V_liver : R;
  P_Q_liver : R;
  P_CL_int : R;
  P_CL_renal : R;
  P_f_u : R;
  P_K_p : R
}.

Record PKMetrics : Type := {
  cmax : R;
  tmax : R;
  auc : R;
  t_half : option R
}.

Record SolveResult : Type := {
  time : list R;
  c_plasma : list R;
  c_liver : list R;
  pk_metrics : PKMetrics;
  parameters : OdeParams
}.

Record PBPKModel : Type := {
  drug : DrugParameters;
  phys : PhysiologicalParameters;
  config : SimulationConfig;
  k_p_liver : R
}.

(** [PBPKModel._estimate_kp_liver] *)
Definition _estimate_kp_liver (drug : DrugParameters) : R :=
  let kp := 0.5 + 0.5 * Rpower 10 (0.7 * log_p drug - 0.3) * f_u drug in
  Py.max 1 (Py.min kp 50).

(** [PBPKModel.__init__] *)
Definition PBPKModel_init
    (drug_params : option DrugParameters)
    (phys_params : option PhysiologicalParameters)
    (sim_config : option SimulationConfig) : PBPKModel :=
  let d := default DrugParameters_default drug_params in
  {| drug := d;
     phys := default PhysiologicalParameters_default phys_params;
     config := default SimulationConfig_default sim_config;
     k_p_liver := _estimate_kp_liver d |}.

(** [PBPKModel._ode_system].  The state [y] holds numpy scalars, the
    parameters are Python floats: a quotient of two parameters raises on a
    zero divisor, a quotient with a state component on the left does not. *)
Definition _ode_system (y : Np.State3) (t : R) (params : OdeParams)
    : result Np.State3 :=
  let '(A_gut, C_plasma, C_liver) := y in
  let dA_gut_dt := - P_k_a params * A_gut in
  let absorption := (P_k_a params * A_gut * P_F params) / P_V_c params in
  q_c <- Py.div (P_Q_liver params) (P_V_c params) ;;
  let liver_uptake := q_c * C_plasma in
  let liver_return := q_c * (C_liver / P_K_p params) in
  r_c <- Py.div (P_CL_renal params) (P_V_c params) ;;
  let renal_clearance := r_c * C_plasma in
  let dC_plasma_dt :=
    absorption - liver_uptake + liver_return - renal_clearance in
  q_l <- Py.div (P_Q_liver params) (P_V_liver params) ;;
  let hepatic_uptake := q_l * C_plasma in
  let hepatic_return := q_l * (C_liver / P_K_p params) in
  m_l <- Py.div (P_CL_int params * P_f_u params) (P_V_liver params) ;;
  let metabolism := m_l * C_liver in
  let dC_liver_dt := hepatic_uptake - hepatic_return - metabolism in
  Ok (dA_gut_dt, dC_plasma_dt, dC_liver_dt).

(** Boolean-mask indexing [a[mask]]. *)
Fixpoint mask_select (mask : list bool) (a : list R) : list R :=
  match mask, a with
  | b :: mask', x :: a' =>
      if b then x :: mask_select mask' a' else mask_select mask' a'
  | _, _ => []
  end.

(** [np.sum(mask)] *)
Definition count_true (mask : list bool) : nat :=
  length (filter (fun b => b = true) mask).

(** [PBPKModel._calculate_pk_metrics].  An undefined half-life ([np.nan]
    in the source, turned into [None] on return) is [None] throughout.
    [solve] calls it on two arrays of the same length; what numpy's
    broadcasting makes of arrays of different lengths is not modelled. *)
Definition _calculate_pk_metrics (t c_plasma : list R) : result PKMetrics :=
  cmax_idx <- Np.argmax c_plasma ;;
  let cmax := nth cmax_idx c_plasma 0 in
  tmax <- match t !! cmax_idx with
          | Some v => Ok v
          | None => Raise IndexError
          end ;;
  let auc := Np.trapezoid c_plasma t in
  let terminal_mask :=
    zip_with (fun ti ci => Rltb tmax ti && Rltb (0.1 * cmax) ci) t c_plasma in
  let t_half :=
    if (2 <? count_true terminal_mask)%nat then
      let t_terminal := mask_select terminal_mask t in
      let c_terminal := mask_select terminal_mask c_plasma in
      let log_c := map (fun c => ln (c + 1e-10)) c_terminal in
      let slope := fst (Np.polyfit1 t_terminal log_c) in
      if Rltb slope 0 then Some (- ln 2 / slope) else None
    else None in
  Ok {| cmax := cmax; tmax := tmax; auc := auc; t_half := t_half |}.

Section Solve.
Context `{Np.OdeSolver}.

(** The initial state [y0] chosen in [solve]. *)
Definition solve_y0 (config : SimulationConfig) (v_central : R)
    : result Np.State3 :=
  if String.eqb (route config) "oral" then
    Ok (dose config, 0, 0)
  else
    c0 <- Py.div (dose config) v_central ;;
    Ok (0, c0, 0).

(** The [params] dictionary assembled in [solve]. *)
Definition solve_params (self : PBPKModel) : OdeParams :=
  let effective_cl_int :=
    cl_int (phys self) * activity_score (phys self) in
  let v_central := v_d (drug self) * body_weight (phys self) in
  {| P_k_a := k_a (drug self);
     P_F := f (drug self);
     P_V_c := v_central;
     P_V_liver := v_liver (phys self);
     P_Q_liver := q_liver (phys self);
     P_CL_int := effective_cl_int;
     P_CL_renal := cl_renal (phys self);
     P_f_u := f_u (drug self);
     P_K_p := k_p_liver self |}.

(** [PBPKModel.solve] *)
Definition solve (self : PBPKModel) : result SolveResult :=
  t <- Np.linspace 0 (t_max (config self)) (n_points (config self)) ;;
  let params := solve_params self in
  y0 <- solve_y0 (config self) (P_V_c params) ;;
  solution <- Np.odeint (fun y s => _ode_system y s params) y0 t ;;
  let c_plasma := map (fun y => snd (fst y) * 1000) solution in
  let c_liver := map (fun y => snd y * 1000) solution in
  pk_metrics <- _calculate_pk_metrics t c_plasma ;;
  Ok {| time := t; c_plasma := c_plasma; c_liver := c_liver;
        pk_metrics := pk_metrics; parameters := params |}.

(** The dictionary [run_population_simulation] returns.  [sim_time] is
    the entry ['time'], [None] until the first individual is solved. *)
Record SimulationResult : Type := {
  sim_time : option (list R);
  individual_curves : list (list R);
  mean_concentration : list R;
  std_concentration : list R;
  ci_lower : list R;
  ci_upper : list R;
  cmax_distribution : list R;
  auc_distribution : list R;
  pk_metrics_list : list PKMetrics
}.

(** [np.zeros((rows, cols))]; a negative dimension is a [ValueError]. *)
Definition zeros (rows : nat) (cols : Z) : result (list (list R)) :=
  if (cols <? 0)%Z then Raise ValueError
  else Ok (replicate rows (replicate (Z.to_nat cols) 0)).

(** The row assignment [m[i, :] = row]: [row] must have the matrix
    width, or length one (it is then broadcast). *)
Definition assign_row (m : list (list R)) (i : nat) (cols : nat)
    (row : list R) : result (list (list R)) :=
  if (length row =? cols)%nat then Ok (<[i := row]> m)
  else if (length row =? 1)%nat then
    Ok (<[i := replicate cols (nth 0%nat row 0)]> m)
  else Raise ValueError.

(** Column [j] of a matrix, and a reduction along [axis=0]. *)
Definition column (j : nat) (m : list (list R)) : list R :=
  map (fun row => nth j row 0) m.

Definition along_axis0 (red : list R -> R) (m : list (list R))
    (cols : nat) : list R :=
  map (fun j => red (column j m)) (seq 0 cols).

(** [np.percentile(m, q, axis=0)]: [IndexError] on a matrix without
    rows. *)
Definition percentile_axis0 (m : list (list R)) (q : R) (cols : nat)
    : result (list R) :=
  match m with
  | [] => Raise IndexError
  | _ :: _ => Ok (along_axis0 (fun a => Np.percentile a q) m cols)
  end.

(** The loop state: [time], [all_c_plasma], [all_pk_metrics]. *)
Definition LoopState : Type :=
  option (list R) * list (list R) * list PKMetrics.

Definition simulation_body (drug_params : DrugParameters)
    (sim_config : SimulationConfig) (st : LoopState)
    (ip : nat * PhysiologicalParameters) : result LoopState :=
  let '(time, all_c_plasma, all_pk_metrics) := st in
  let '(i, phys_params) := ip in
  let model :=
    PBPKModel_init (Some drug_params) (Some phys_params) (Some sim_config) in
  result <- solve model ;;
  let time' :=
    match time with
    | None => Some (Pbpk.time result)
    | Some _ => time
    end in
  all_c_plasma' <-
    assign_row all_c_plasma i (Z.to_nat (n_points sim_config))
      (c_plasma result) ;;
  Ok (time', all_c_plasma', all_pk_metrics ++ [pk_metrics result]).

(** [run_population_simulation] *)
Definition run_population_simulation (drug_params : DrugParameters)
    (population_phys_params : list PhysiologicalParameters)
    (sim_config : SimulationConfig) : result SimulationResult :=
  let n_subjects := length population_phys_params in
  let n_points := n_points sim_config in
  all_c_plasma <- zeros n_subjects n_points ;;
  st <- for_each (simulation_body drug_params sim_config)
          (None, all_c_plasma, [])
          (enumerate population_phys_params) ;;
  let '(time, all_c_plasma, all_pk_metrics) := st in
  let cols := Z.to_nat n_points in
  let mean_c := along_axis0 Np.mean all_c_plasma cols in
  let std_c := along_axis0 Np.std all_c_plasma cols in
  percentile_5 <- percentile_axis0 all_c_plasma 5 cols ;;
  percentile_95 <- percentile_axis0 all_c_plasma 95 cols ;;
  Ok {| sim_time := time;
        individual_curves := all_c_plasma;
        mean_concentration := mean_c;
        std_concentration := std_c;
        ci_lower := percentile_5;
        ci_upper := percentile_95;
        cmax_distribution := map cmax all_pk_metrics;
        auc_distribution := map auc all_pk_metrics;
        pk_metrics_list := all_pk_metrics |}.

End Solve.

End Pbpk.

(** ** prototype/engine.py *)

Module Engine.

(** *** Data loading *)

Abbreviation AlleleFreqTable :=
  (gmap string (gmap string (list (string * R)))).
Abbreviation ActivityScoreTable := (gmap string (gmap string R)).

(** The data directory as the loaders see it.  A file is [None] when its
    path does not exist; otherwise it holds a JSON object, given by the
    entry the loader reads from it ([None] when the object lacks the
    key).  A file that exists but does not hold a JSON object is not
    represented: on such a file [json.load] or [data.get] raise errors
    other than [FileNotFoundError], which the import does not catch. *)
Record DataDir : Type := {
  get_data_dir : string;
  allele_frequencies_json : option (option AlleleFreqTable);
  activity_scores_json : option (option ActivityScoreTable)
}.

Definition newline : string := String (Ascii.ascii_of_nat 10) EmptyString.

(** [load_allele_frequencies] *)
Definition load_allele_frequencies (fs : DataDir) : result AlleleFreqTable :=
  let data_path := (get_data_dir fs ++ "/allele_frequencies.json")%string in
  match allele_frequencies_json fs with
  | None =>
      Raise (FileNotFoundError
               ("Allele frequency data file not found: " ++ data_path
                ++ newline ++ "Please run the data fetch script first."))
  | Some data => Ok (default ∅ data)
  end.

(** [load_activity_scores] *)
Definition load_activity_scores (fs : DataDir) : result ActivityScoreTable :=
  let data_path := (get_data_dir fs ++ "/activity_scores.json")%string in
  match activity_scores_json fs with
  | None =>
      Raise (FileNotFoundError
               ("Activity score data file not found: " ++ data_path
                ++ newline ++ "Please run the data fetch script first."))
  | Some data => Ok (default ∅ data)
  end.

(** The two module-level tables. *)
Record ModuleState : Type := {
  _ALLELE_FREQ_DATA : AlleleFreqTable;
  _ACTIVITY_SCORE_DATA : ActivityScoreTable
}.

(** The state the [except] branch binds: two empty dictionaries. *)
Definition no_tables : ModuleState :=
  {| _ALLELE_FREQ_DATA := ∅; _ACTIVITY_SCORE_DATA := ∅ |}.

(** The module-level [try]/[except FileNotFoundError] that runs when
    [engine] is imported: the tables it binds, and the lines it prints. *)
Definition module_import (fs : DataDir) : result (ModuleState * list string) :=
  match
    (a <- load_allele_frequencies fs ;;
     b <- load_activity_scores fs ;;
     Ok (a, b))
  with
  | Ok (a, b) =>
      Ok ({| _ALLELE_FREQ_DATA := a; _ACTIVITY_SCORE_DATA := b |}, [])
  | Raise (FileNotFoundError e) =>
      Ok ({| _ALLELE_FREQ_DATA := ∅; _ACTIVITY_SCORE_DATA := ∅ |},
          [("Warning: " ++ e)%string])
  | Raise e => Raise e
  end.

(** *** Enums and data classes *)

Inductive Ethnicity : Type :=
| EAST_ASIAN
| EUROPEAN
| AFRICAN
| LATINO
| CENTRAL_SOUTH_ASIAN.

Definition Ethnicity_value (e : Ethnicity) : string :=
  match e with
  | EAST_ASIAN => "East Asian"
  | EUROPEAN => "European"
  | AFRICAN => "African"
  | LATINO => "Latino"
  | CENTRAL_SOUTH_ASIAN => "Central/South Asian"
  end.

Inductive MetabolizerStatus : Type :=
| POOR
| INTERMEDIATE
| NORMAL
| ULTRA_RAPID.

Definition MetabolizerStatus_value (s : MetabolizerStatus) : string :=
  match s with
  | POOR => "Poor Metabolizer (PM)"
  | INTERMEDIATE => "Intermediate Metabolizer (IM)"
  | NORMAL => "Normal Metabolizer (NM)"
  | ULTRA_RAPID => "Ultra-rapid Metabolizer (UM)"
  end.

Record IndividualCharacteristics : Type := {
  subject_id : Z;
  age : Z;
  gender : string;
  ethnicity : Ethnicity;
  weight : R;
  height : R;
  bmi : R;
  cyp2c19_genotype : string * string;
  cyp3a4_genotype : string * string;
  cyp2c19_activity_score : R;
  cyp3a4_activity_score : R;
  combined_activity_score : R;
  metabolizer_status : MetabolizerStatus;
  phys_params : option Pbpk.PhysiologicalParameters
}.

(** The attributes of a [PopulationGenerator]. *)
Record PopulationGenerator : Type := {
  n_subjects : Z;
  age_range : Z * Z;
  gender_ratio : R;
  weight_mean : R;
  weight_sd : R;
  base_cl_int : R;
  ethnicity_distribution : list (Ethnicity * R)
}.

(** *** Table lookups *)

Section Lookups.
Variable st : ModuleState.

(** [get_allele_frequencies] *)
Definition get_allele_frequencies (ethnicity : Ethnicity) (gene : string)
    : list (string * R) :=
  let eth_name := Ethnicity_value ethnicity in
  let eth_name :=
    if decide (is_Some (_ALLELE_FREQ_DATA st !! eth_name)) then eth_name
    else "East Asian" in
  match default ∅ (_ALLELE_FREQ_DATA st !! eth_name) !! gene with
  | None => [("*1"%string, 1)]
  | Some freqs => freqs
  end.

(** [get_activity_score] *)
Definition get_activity_score (gene allele : string) : R :=
  match _ACTIVITY_SCORE_DATA st !! gene with
  | None => 1
  | Some scores => default 1 (scores !! allele)
  end.

End Lookups.

(** *** PopulationGenerator *)

(** [PopulationGenerator.__init__]: the default distribution, and the
    seeding of the global generator when a seed is given. *)
Definition PopulationGenerator_init {G : Type} `{Np.Random G}
    (n_subjects : Z)
    (ethnicity_distribution : option (list (Ethnicity * R)))
    (age_range : Z * Z)
    (gender_ratio weight_mean weight_sd base_cl_int : R)
    (random_seed : option Z) (g : G) : PopulationGenerator * G :=
  ({| n_subjects := n_subjects;
      age_range := age_range;
      gender_ratio := gender_ratio;
      weight_mean := weight_mean;
      weight_sd := weight_sd;
      base_cl_int := base_cl_int;
      ethnicity_distribution :=
        match ethnicity_distribution with
        | None => [(EAST_ASIAN, 0.34); (EUROPEAN, 0.33); (AFRICAN, 0.33)]
        | Some d => d
        end |},
   match random_seed with
   | None => g
   | Some n => Np.seed n
   end).

Section Generator.
Context {G : Type} `{Np.Random G}.
Variable st : ModuleState.
Variable self : PopulationGenerator.

(** [_sample_ethnicity] *)
Definition _sample_ethnicity : Np.Rand G Ethnicity :=
  let ethnicities := map fst (ethnicity_distribution self) in
  let probs := map snd (ethnicity_distribution self) in
  Np.choice ethnicities probs.

(** [_sample_anthropometrics] *)
Definition _sample_anthropometrics (gender : string) (age : Z)
    : Np.Rand G (R * R * R) :=
  let '(weight_adj, height_mean, height_sd) :=
    if String.eqb gender "M" then (1.1, 175, 7) else (0.9, 162, 6) in
  let age_factor := 1 + 0.005 * IZR (Z.max 0 (age - 40)) in
  weight <~ Np.normal (weight_mean self * weight_adj * age_factor)
              (weight_sd self) ;;
  let weight := Py.max 40 (Py.min weight 150) in
  height <~ Np.normal height_mean height_sd ;;
  let height := Py.max 140 (Py.min height 200) in
  let bmi := weight / ((height / 100) * (height / 100)) in
  Np.rret (weight, height, bmi).

(** [_sample_genotype] *)
Definition _sample_genotype (gene : string) (ethnicity : Ethnicity)
    : Np.Rand G (string * string) :=
  let allele_freqs := get_allele_frequencies st ethnicity gene in
  let alleles := map fst allele_freqs in
  let probs := map snd allele_freqs in
  allele1 <~ Np.choice alleles probs ;;
  allele2 <~ Np.choice alleles probs ;;
  Np.rret (Py.sorted2 allele1 allele2).

(** [_calculate_activity_score] *)
Definition _calculate_activity_score (gene : string)
    (genotype : string * string) : R :=
  let score1 := get_activity_score st gene (fst genotype) in
  let score2 := get_activity_score st gene (snd genotype) in
  score1 + score2.

(** [_classify_metabolizer] *)
Definition _classify_metabolizer (activity_score : R) : MetabolizerStatus :=
  if Rleb activity_score 0.25 then POOR
  else if Rleb activity_score 1 then INTERMEDIATE
  else if Rleb activity_score 2 then NORMAL
  else ULTRA_RAPID.

(** [_generate_physiological_params] *)
Definition _generate_physiological_params (weight : R) (age : Z)
    (gender : string) (activity_score : R)
    : Np.Rand G Pbpk.PhysiologicalParameters :=
  let weight_ratio := weight / 70 in
  let v_plasma := 0.047 * weight in
  let v_liver := 0.025 * weight in
  let age_factor := 1 - 0.1 * Py.max 0 (IZR (age - 60) / 20) in
  let q_liver := 90 * Rpower weight_ratio 0.75 * age_factor in
  individual_variability <~ Np.lognormal 0 0.3 ;;
  let cl_int := base_cl_int self * activity_score * individual_variability in
  let cl_renal := 0 in
  Np.rret {| Pbpk.body_weight := weight;
             Pbpk.v_plasma := v_plasma;
             Pbpk.v_liver := v_liver;
             Pbpk.q_liver := q_liver;
             Pbpk.cl_int := cl_int;
             Pbpk.cl_renal := cl_renal;
             Pbpk.activity_score := activity_score |}.

(** One iteration of the loop of [generate], for the index [i].
    ([np.sqrt] of a negative product is NaN, which is outside the model.) *)
Definition generate_body (population : list IndividualCharacteristics)
    (i : Z) : Np.Rand G (list IndividualCharacteristics) :=
  ethnicity <~ _sample_ethnicity ;;
  u <~ Np.random ;;
  let gender := if Rltb u (gender_ratio self) then "M"%string
                else "F"%string in
  age <~ Np.randint (fst (age_range self)) (snd (age_range self) + 1) ;;
  whb <~ _sample_anthropometrics gender age ;;
  let '(weight, height, bmi) := whb in
  cyp2c19_genotype <~ _sample_genotype "CYP2C19" ethnicity ;;
  cyp3a4_genotype <~ _sample_genotype "CYP3A4" ethnicity ;;
  let cyp2c19_as := _calculate_activity_score "CYP2C19" cyp2c19_genotype in
  let cyp3a4_as := _calculate_activity_score "CYP3A4" cyp3a4_genotype in
  let combined_as := sqrt (cyp2c19_as * cyp3a4_as) in
  let metabolizer_status := _classify_metabolizer combined_as in
  phys_params <~
    _generate_physiological_params weight age gender combined_as ;;
  let individual :=
    {| subject_id := i + 1;
       age := age;
       gender := gender;
       ethnicity := ethnicity;
       weight := weight;
       height := height;
       bmi := bmi;
       cyp2c19_genotype := cyp2c19_genotype;
       cyp3a4_genotype := cyp3a4_genotype;
       cyp2c19_activity_score := cyp2c19_as;
       cyp3a4_activity_score := cyp3a4_as;
       combined_activity_score := combined_as;
       metabolizer_status := metabolizer_status;
       phys_params := Some phys_params |} in
  Np.rret (population ++ [individual]).

(** [range(n)] *)
Definition range (n : Z) : list Z :=
  map Z.of_nat (seq 0 (Z.to_nat n)).

(** [generate] *)
Definition generate : Np.Rand G (list IndividualCharacteristics) :=
  Np.rfor_each generate_body [] (range (n_subjects self)).

End Generator.

(** What one iteration of [generate] builds: the draws an individual was
    made from and how its fields derive from them. *)
Record generated {G : Type} `{Np.Random G} (st : ModuleState)
    (self : PopulationGenerator) (ind : IndividualCharacteristics) : Prop := {
  gen_ethnicity :
    In (ethnicity ind) (map fst (ethnicity_distribution self));
  gen_weight : exists w, weight ind = Py.max 40 (Py.min w 150);
  gen_height : exists h, height ind = Py.max 140 (Py.min h 200);
  gen_bmi :
    bmi ind = weight ind / ((height ind / 100) * (height ind / 100));
  gen_cyp2c19 :
    exists a1 a2, cyp2c19_genotype ind = Py.sorted2 a1 a2 /\
      In a1 (map fst (get_allele_frequencies st (ethnicity ind) "CYP2C19")) /\
      In a2 (map fst (get_allele_frequencies st (ethnicity ind) "CYP2C19"));
  gen_cyp3a4 :
    exists a1 a2, cyp3a4_genotype ind = Py.sorted2 a1 a2 /\
      In a1 (map fst (get_allele_frequencies st (ethnicity ind) "CYP3A4")) /\
      In a2 (map fst (get_allele_frequencies st (ethnicity ind) "CYP3A4"));
  gen_cyp2c19_as :
    cyp2c19_activity_score ind =
      _calculate_activity_score st "CYP2C19" (cyp2c19_genotype ind);
  gen_cyp3a4_as :
    cyp3a4_activity_score ind =
      _calculate_activity_score st "CYP3A4" (cyp3a4_genotype ind);
  gen_combined :
    combined_activity_score ind =
      sqrt (cyp2c19_activity_score ind * cyp3a4_activity_score ind);
  gen_status :
    metabolizer_status ind =
      _classify_metabolizer (combined_activity_score ind);
  gen_phys :
    exists (v : R) (g1 g2 : G) (phys : Pbpk.PhysiologicalParameters),
      Np.lognormal 0 0.3 g1 = Ok (v, g2) /\
      phys_params ind = Some phys /\
      Pbpk.body_weight phys = weight ind /\
      Pbpk.cl_int phys =
        base_cl_int self * combined_activity_score ind * v /\
      Pbpk.activity_score phys = combined_activity_score ind
}.

(** *** Population summary *)

#[global] Instance Ethnicity_eq_dec : EqDecision Ethnicity.
Proof. solve_decision. Defined.

#[global] Instance MetabolizerStatus_eq_dec : EqDecision MetabolizerStatus.
Proof. solve_decision. Defined.

(** The members of the two enums, in the order [for x in Enum] visits. *)
Definition Ethnicity_members : list Ethnicity :=
  [EAST_ASIAN; EUROPEAN; AFRICAN; LATINO; CENTRAL_SOUTH_ASIAN].

Definition MetabolizerStatus_members : list MetabolizerStatus :=
  [POOR; INTERMEDIATE; NORMAL; ULTRA_RAPID].

(** The nested dictionaries [get_population_summary] returns. *)
Module Summary.

Record Stats (A : Type) : Type := {
  mean : R;
  sd : R;
  min : A;
  max : A
}.
Arguments mean {A} _.
Arguments sd {A} _.
Arguments min {A} _.
Arguments max {A} _.

Record Gender : Type := {
  male : Z;
  female : Z;
  male_ratio : R
}.

Record Demographics : Type := {
  age : Stats Z;
  weight : Stats R;
  gender : Gender
}.

Record PopulationSummary : Type := {
  n_subjects : Z;
  demographics : Demographics;
  ethnicity_distribution : list (string * Z);
  metabolizer_distribution : list (string * Z);
  activity_score : Stats R
}.

End Summary.

(** [sum(1 for ind in population if test(ind))] *)
Definition count_if (test : IndividualCharacteristics -> bool)
    (population : list IndividualCharacteristics) : Z :=
  Z.of_nat (length (List.filter test population)).

(** [PopulationGenerator.get_population_summary].  The entries of the
    returned dictionary are evaluated in order, so on an empty cohort it is
    [min(ages)] that raises. *)
Definition get_population_summary
    (population : list IndividualCharacteristics)
    : result Summary.PopulationSummary :=
  let weights := map weight population in
  let ages := map age population in
  let activity_scores := map combined_activity_score population in
  let n_male := count_if (fun ind => String.eqb (gender ind) "M") population in
  let n_female := (Z.of_nat (length population) - n_male)%Z in
  let ethnicity_counts :=
    map (fun eth =>
           (Ethnicity_value eth,
            count_if (fun ind => bool_decide (ethnicity ind = eth)) population))
      Ethnicity_members in
  let metabolizer_counts :=
    map (fun status =>
           (MetabolizerStatus_value status,
            count_if (fun ind => bool_decide (metabolizer_status ind = status))
              population))
      MetabolizerStatus_members in
  age_min <- Py.min_list_int ages ;;
  age_max <- Py.max_list_int ages ;;
  weight_min <- Py.min_list weights ;;
  weight_max <- Py.max_list weights ;;
  male_ratio <- Py.div (IZR n_male) (IZR (Z.of_nat (length population))) ;;
  score_min <- Py.min_list activity_scores ;;
  score_max <- Py.max_list activity_scores ;;
  Ok {| Summary.n_subjects := Z.of_nat (length population);
        Summary.demographics :=
          {| Summary.age :=
               {| Summary.mean := Np.mean (map IZR ages);
                  Summary.sd := Np.std (map IZR ages);
                  Summary.min := age_min;
                  Summary.max := age_max |};
             Summary.weight :=
               {| Summary.mean := Np.mean weights;
                  Summary.sd := Np.std weights;
                  Summary.min := weight_min;
                  Summary.max := weight_max |};
             Summary.gender :=
               {| Summary.male := n_male;
                  Summary.female := n_female;
                  Summary.male_ratio := male_ratio |} |};
        Summary.ethnicity_distribution := ethnicity_counts;
        Summary.metabolizer_distribution := metabolizer_counts;
        Summary.activity_score :=
          {| Summary.mean := Np.mean activity_scores;
             Summary.sd := Np.std activity_scores;
             Summary.min := score_min;
             Summary.max := score_max |} |}.

(** *** Safety margin *)

Record SafetyMargin : Type := {
  toxic_threshold : R;
  n_total : Z;
  n_exceeding_threshold : Z;
  percentage_exceeding : R;
  percentage_safe : R;
  cmax_max : R;
  cmax_95th_percentile : R;
  safety_ratio : R
}.

(** [calculate_safety_margin].  The only call that raises is [np.max], on
    an empty distribution. *)
Definition calculate_safety_margin (cmax_distribution : list R)
    (toxic_threshold : R) : result SafetyMargin :=
  let n_total := Z.of_nat (length cmax_distribution) in
  let n_exceeding :=
    Z.of_nat (Pbpk.count_true
                (map (fun c => Rltb toxic_threshold c) cmax_distribution)) in
  let percentage_exceeding := IZR n_exceeding / IZR n_total * 100 in
  let percentage_safe := IZR (n_total - n_exceeding) / IZR n_total * 100 in
  cmax_max <- Np.amax cmax_distribution ;;
  let p95 := Np.percentile cmax_distribution 95 in
  Ok {| toxic_threshold := toxic_threshold;
        n_total := n_total;
        n_exceeding_threshold := n_exceeding;
        percentage_exceeding := percentage_exceeding;
        percentage_safe := percentage_safe;
        cmax_max := cmax_max;
        cmax_95th_percentile := p95;
        safety_ratio := toxic_threshold / p95 |}.

End Engine.

(** ** prototype/app.py: the ethnicity proportions of [generate_population] *)

Module App.

(** The normalisation at the head of [generate_population]: the mapping
    handed to [PopulationGenerator] as [ethnicity_distribution]. *)
Definition ethnicity_dist (eth_asian eth_european eth_african : R)
    : result (list (Engine.Ethnicity * R)) :=
  let total_eth := eth_asian + eth_european + eth_african in
  let total_eth := if Reqb total_eth 0 then 100 else total_eth in
  a <- Py.div eth_asian total_eth ;;
  e <- Py.div eth_european total_eth ;;
  f <- Py.div eth_african total_eth ;;
  Ok [(Engine.EAST_ASIAN, a); (Engine.EUROPEAN, e); (Engine.AFRICAN, f)].

(** [generate_population], up to the cohort and its summary, from which
    the stored data and the status line are built: the proportions are
    normalised, the generator is built without a seed, and the cohort is
    drawn and summarised. *)
Definition generate_population {G : Type} `{Np.Random G}
    (st : Engine.ModuleState) (n_subjects : Z)
    (eth_asian eth_european eth_african : R) (age_range : Z * Z)
    (gender_ratio weight_mean weight_sd base_clint : R)
    : Np.Rand G (list Engine.IndividualCharacteristics *
                 Engine.Summary.PopulationSummary) :=
  fun g =>
    match ethnicity_dist eth_asian eth_european eth_african with
    | Raise e => Raise e
    | Ok dist =>
        let '(generator, g0) :=
          Engine.PopulationGenerator_init n_subjects (Some dist) age_range
            (gender_ratio / 100) weight_mean weight_sd base_clint None g in
        match Engine.generate st generator g0 with
        | Raise e => Raise e
        | Ok (population, g1) =>
            pop_summary <- Engine.get_population_summary population ;;
            Ok (population, pop_summary, g1)
        end
    end.

(** The seven entries of ['phys_params'] that [generate_population] stores
    for an individual. *)
Definition phys_params_dict (p : Pbpk.PhysiologicalParameters)
    : gmap string R :=
  {[ "body_weight"%string := Pbpk.body_weight p;
     "v_plasma"%string := Pbpk.v_plasma p;
     "v_liver"%string := Pbpk.v_liver p;
     "q_liver"%string := Pbpk.q_liver p;
     "cl_int"%string := Pbpk.cl_int p;
     "cl_renal"%string := Pbpk.cl_renal p;
     "activity_score"%string := Pbpk.activity_score p ]}.

(** The [PhysiologicalParameters] that [run_drug_simulation] rebuilds from
    a stored individual: [ind.get('phys_params', {})], then one
    [phys.get(key, default)] per field. *)
Definition restore_phys_params (stored : option (gmap string R))
    : Pbpk.PhysiologicalParameters :=
  let phys := default ∅ stored in
  {| Pbpk.body_weight := default 70 (phys !! "body_weight"%string);
     Pbpk.v_plasma := default 3 (phys !! "v_plasma"%string);
     Pbpk.v_liver := default 1.5 (phys !! "v_liver"%string);
     Pbpk.q_liver := default 90 (phys !! "q_liver"%string);
     Pbpk.cl_int := default 10 (phys !! "cl_int"%string);
     Pbpk.cl_renal := default 0 (phys !! "cl_renal"%string);
     Pbpk.activity_score := default 1 (phys !! "activity_score"%string) |}.

(** The colour of the report in [update_safety_analysis]. *)
Definition alert_color (safety : Engine.SafetyMargin) : string :=
  if Rltb 10 (Engine.percentage_exceeding safety) then "danger"
  else if Rltb 5 (Engine.percentage_exceeding safety) then "warning"
  else "success".

(** [update_safety_analysis], as far as the colour of its report goes:
    [None] while there are no results. *)
Definition update_safety_analysis (cmax_distribution : option (list R))
    (toxic_threshold : R) : result (option string) :=
  match cmax_distribution with
  | None => Ok None
  | Some cmax_dist =>
      safety <- Engine.calculate_safety_margin cmax_dist toxic_threshold ;;
      Ok (Some (alert_color safety))
  end.

(** The abbreviation of a phenotype that [generate_population] stores for
    an individual: [metabolizer_map.get(status.value, 'NM')]. *)
Definition metabolizer_map : gmap string string :=
  {[ "Poor Metabolizer (PM)"%string := "PM"%string;
     "Intermediate Metabolizer (IM)"%string := "IM"%string;
     "Normal Metabolizer (NM)"%string := "NM"%string;
     "Ultra-rapid Metabolizer (UM)"%string := "UM"%string ]}.

Definition stored_metabolizer (status : Engine.MetabolizerStatus) : string :=
  default "NM"%string
    (metabolizer_map !! Engine.MetabolizerStatus_value status).

(** The colour of an individual's icon in [update_digital_twin_grid] and
    [create_person_icon]: [ind.get('metabolizer', 'NM')], then
    [color_map.get(metabolizer, '#2ECC71')]. *)
Definition color_map : gmap string string :=
  {[ "PM"%string := "#E74C3C"%string;
     "IM"%string := "#F39C12"%string;
     "NM"%string := "#2ECC71"%string;
     "UM"%string := "#3498DB"%string ]}.

Definition icon_color (stored : option string) : string :=
  let metabolizer := default "NM"%string stored in
  default "#2ECC71"%string (color_map !! metabolizer).

End App.

(** ** Concrete instances

    A generator and an ODE solver that can be run, and a small data
    directory; they instantiate the interfaces above in the examples that
    accompany the theorems. *)

Module Concrete.

(** A generator whose state counts the draws made so far: [random] yields
    one half, [normal] its mean, [lognormal] one, [randint] its lower
    bound, and [choice] walks through the population in turn. *)
#[global] Instance counting_random : Np.Random nat := {|
  Np.seed := fun _ => 0%nat;
  Np.random := fun g => Ok (0.5, S g);
  Np.randint := fun low high g =>
    if (low <? high)%Z then Ok (low, S g) else Raise ValueError;
  Np.normal := fun loc scale g => Ok (loc, S g);
  Np.lognormal := fun mu sigma g => Ok (1, S g);
  Np.choice := fun A a p g =>
    match a with
    | [] => Raise ValueError
    | x :: _ => Ok (nth (g mod length a) a x, S g)
    end
|}.

(** The same generator with the check of [np.random.choice] on its
    probabilities. *)
Definition checking_random : Np.Random nat := {|
  Np.seed := fun _ => 0%nat;
  Np.random := fun g => Ok (0.5, S g);
  Np.randint := fun low high g =>
    if (low <? high)%Z then Ok (low, S g) else Raise ValueError;
  Np.normal := fun loc scale g => Ok (loc, S g);
  Np.lognormal := fun mu sigma g => Ok (1, S g);
  Np.choice := fun A a p g =>
    if Rltb 1e-7 (Rabs (Py.sum p - 1)) then Raise ValueError
    else
      match a with
      | [] => Raise ValueError
      | x :: _ => Ok (nth (g mod length a) a x, S g)
      end
|}.

(** The explicit Euler scheme over the requested time samples. *)
Definition axpy (h : R) (d y : Np.State3) : Np.State3 :=
  let '(d1, d2, d3) := d in
  let '(y1, y2, y3) := y in
  (y1 + h * d1, y2 + h * d2, y3 + h * d3).

Fixpoint euler_from (func : Np.State3 -> R -> result Np.State3)
    (y : Np.State3) (s : R) (ts : list R) : result (list Np.State3) :=
  match ts with
  | [] => Ok []
  | s' :: ts' =>
      d <- func y s ;;
      let y' := axpy (s' - s) d y in
      rest <- euler_from func y' s' ts' ;;
      Ok (y' :: rest)
  end.

#[global] Instance euler : Np.OdeSolver := {|
  Np.odeint := fun func y0 t =>
    match t with
    | [] => Ok []
    | s :: ts => rest <- euler_from func y0 s ts ;; Ok (y0 :: rest)
    end
|}.

(** A data directory with both files, two ethnicities and two genes. *)
Definition cyp2c19_freqs : list (string * R) :=
  [("*1"%string, 0.6); ("*2"%string, 0.3); ("*17"%string, 0.1)].

Definition allele_table : Engine.AlleleFreqTable :=
  {[ "East Asian"%string :=
       {[ "CYP2C19"%string := cyp2c19_freqs;
          "CYP3A4"%string := [("*1"%string, 0.9); ("*22"%string, 0.1)] ]};
     "European"%string :=
       {[ "CYP2C19"%string := cyp2c19_freqs ]} ]}.

Definition score_table : Engine.ActivityScoreTable :=
  {[ "CYP2C19"%string :=
       {[ "*1"%string := 1; "*2"%string := 0; "*17"%string := 1.5 ]};
     "CYP3A4"%string :=
       {[ "*1"%string := 1; "*22"%string := 0.5 ]} ]}.

Definition data_dir : Engine.DataDir :=
  {| Engine.get_data_dir := "prototype/data";
     Engine.allele_frequencies_json := Some (Some allele_table);
     Engine.activity_scores_json := Some (Some score_table) |}.

(** The same directory without its files. *)
Definition empty_dir : Engine.DataDir :=
  {| Engine.get_data_dir := "prototype/data";
     Engine.allele_frequencies_json := None;
     Engine.activity_scores_json := None |}.

Definition tables : Engine.ModuleState :=
  {| Engine._ALLELE_FREQ_DATA := allele_table;
     Engine._ACTIVITY_SCORE_DATA := score_table |}.

(** A generator of two subjects with the default settings. *)
Definition two_subjects : Engine.PopulationGenerator :=
  fst (Engine.PopulationGenerator_init 2 None (18, 65)%Z 0.5 70 15 10
         (Some 42%Z) 0%nat).

(** The drug, individual and configuration of the module's self-test. *)
Definition test_drug : Pbpk.DrugParameters :=
  {| Pbpk.name := "Test Drug"; Pbpk.log_p := 2.5; Pbpk.f_u := 0.15;
     Pbpk.v_d := 1.2; Pbpk.k_a := 0.8; Pbpk.f := 0.75; Pbpk.mw := 300 |}.

Definition test_phys : Pbpk.PhysiologicalParameters :=
  {| Pbpk.body_weight := 70; Pbpk.v_plasma := 3; Pbpk.v_liver := 1.5;
     Pbpk.q_liver := 90; Pbpk.cl_int := 10; Pbpk.cl_renal := 0;
     Pbpk.activity_score := 1 |}.

Definition test_config : Pbpk.SimulationConfig :=
  {| Pbpk.dose := 100; Pbpk.route := "oral"; Pbpk.t_max := 24;
     Pbpk.n_points := 241 |}.

Definition iv_config : Pbpk.SimulationConfig :=
  {| Pbpk.dose := 100; Pbpk.route := "intravenous"; Pbpk.t_max := 24;
     Pbpk.n_points := 241 |}.

(** A hand-made cohort of two: a man of 30 and a woman of 50. *)
Definition subject (id age : Z) (gender : string) (weight : R)
    (ethnicity : Engine.Ethnicity) (score : R)
    : Engine.IndividualCharacteristics :=
  {| Engine.subject_id := id;
     Engine.age := age;
     Engine.gender := gender;
     Engine.ethnicity := ethnicity;
     Engine.weight := weight;
     Engine.height := 170;
     Engine.bmi := weight / ((170 / 100) * (170 / 100));
     Engine.cyp2c19_genotype := ("*1", "*1")%string;
     Engine.cyp3a4_genotype := ("*1", "*1")%string;
     Engine.cyp2c19_activity_score := score;
     Engine.cyp3a4_activity_score := score;
     Engine.combined_activity_score := score;
     Engine.metabolizer_status := Engine._classify_metabolizer score;
     Engine.phys_params := None |}.

Definition cohort : list Engine.IndividualCharacteristics :=
  [subject 1 30 "M" 80 Engine.EAST_ASIAN 2;
   subject 2 50 "F" 60 Engine.EUROPEAN 1].

(** The self-test individual with its body weight set to zero. *)
Definition zero_weight_phys : Pbpk.PhysiologicalParameters :=
  {| Pbpk.body_weight := 0; Pbpk.v_plasma := 3; Pbpk.v_liver := 1.5;
     Pbpk.q_liver := 90; Pbpk.cl_int := 10; Pbpk.cl_renal := 0;
     Pbpk.activity_score := 1 |}.

End Concrete.

(** ** The specification's vocabulary

    Definitions that follow the words of the specification, to compare the
    code against. *)

Module Spec.

(** An even split: every category gets the same share. *)
Definition even_split {K : Type} (d : list (K * R)) : Prop :=
  Forall (fun kp => snd kp = 1 / INR (length d)) d.

(** A probability distribution over the categories. *)
Definition probability_distribution {K : Type} (d : list (K * R)) : Prop :=
  Forall (fun kp => 0 <= snd kp) d /\ Py.sum (map snd d) = 1.

(** The activity score of an allele: its table entry, 1.0 when the gene
    or the allele is absent from the table. *)
Definition allele_score (table : Engine.ActivityScoreTable)
    (gene allele : string) : R :=
  default 1 (table !! gene ≫= fun scores => scores !! allele).

(** The terminal phase of a plasma series: the samples after [tmax] whose
    concentration exceeds 10% of [cmax]. *)
Definition terminal_phase (tmax cmax : R) (t c : list R) : list (R * R) :=
  filter (fun tc => tmax < fst tc /\ 0.1 * cmax < snd tc) (zip t c).

(** The half-life read off the terminal phase, [transform] being what is
    applied to a concentration before the line is fitted: undefined on
    fewer than three samples or on a slope that is not negative. *)
Definition half_life (transform : R -> R) (tmax cmax : R) (t c : list R)
    : option R :=
  let terminal := terminal_phase tmax cmax t c in
  if (length terminal <? 3)%nat then None
  else
    let slope :=
      fst (Np.polyfit1 (map fst terminal)
             (map (fun tc => transform (snd tc)) terminal)) in
    if Rlt_dec slope 0 then Some (- ln 2 / slope) else None.

(** The sum of squared residuals of the line [slope * x + intercept] on the
    points [(x, y)]: what an ordinary-least-squares fit minimises. *)
Definition squared_residuals (x y : list R) (slope intercept : R) : R :=
  Py.sum (zip_with (fun a b => (b - (slope * a + intercept)) *
                               (b - (slope * a + intercept))) x y).

(** A genotype in canonical form: the two labels in ascending order. *)
Definition canonical (genotype : string * string) : Prop :=
  String.leb (fst genotype) (snd genotype) = true.

End Spec.

(** * Properties *)

(** ** Evaluating comparisons *)

Lemma Rleb_true (a b : R) : a <= b -> Rleb a b = true.
Proof. intros Hab. unfold Rleb. destruct (Rle_dec a b); [reflexivity | contradiction]. Qed.

Lemma Rleb_false (a b : R) : b < a -> Rleb a b = false.
Proof. intros Hab. unfold Rleb. destruct (Rle_dec a b); [lra | reflexivity]. Qed.

Lemma Rltb_true (a b : R) : a < b -> Rltb a b = true.
Proof. intros Hab. unfold Rltb. destruct (Rlt_dec a b); [reflexivity | contradiction]. Qed.

Lemma Rltb_false (a b : R) : b <= a -> Rltb a b = false.
Proof. intros Hab. unfold Rltb. destruct (Rlt_dec a b); [lra | reflexivity]. Qed.

Lemma Reqb_true (a b : R) : a = b -> Reqb a b = true.
Proof. intros Hab. unfold Reqb. destruct (Req_dec_T a b); [reflexivity | contradiction]. Qed.

Lemma Reqb_false (a b : R) : a <> b -> Reqb a b = false.
Proof. intros Hab. unfold Reqb. destruct (Req_dec_T a b); [contradiction | reflexivity]. Qed.

Lemma Rltb_spec (a b : R) : Rltb a b = true <-> a < b.
Proof. unfold Rltb. destruct (Rlt_dec a b); split; intros; try easy. Qed.

Lemma Rleb_spec (a b : R) : Rleb a b = true <-> a <= b.
Proof. unfold Rleb. destruct (Rle_dec a b); split; intros; try easy. Qed.

(** Decide every comparison of the goal whose operands [lra] can order. *)
Ltac rdecide :=
  repeat match goal with
    | |- context [Rltb ?a ?b] =>
        first [ rewrite (Rltb_true a b) by lra | rewrite (Rltb_false a b) by lra ]
    | |- context [Rleb ?a ?b] =>
        first [ rewrite (Rleb_true a b) by lra | rewrite (Rleb_false a b) by lra ]
    | |- context [Reqb ?a ?b] =>
        first [ rewrite (Reqb_true a b) by lra | rewrite (Reqb_false a b) by lra ]
    end.

Lemma py_max_ge (a b : R) : a <= Py.max a b /\ b <= Py.max a b.
Proof.
  unfold Py.max, Rltb. destruct (Rlt_dec a b); lra.
Qed.

Lemma py_min_le (a b : R) : Py.min a b <= a /\ Py.min a b <= b.
Proof.
  unfold Py.min, Rltb. destruct (Rlt_dec b a); lra.
Qed.

(** The clamp [max(lo, min(x, hi))] lands in [[lo, hi]]. *)
Lemma clamp_range (lo hi x : R) :
  lo <= hi -> lo <= Py.max lo (Py.min x hi) <= hi.
Proof.
  intros Hlh. unfold Py.max, Py.min, Rltb.
  destruct (Rlt_dec hi x); destruct (Rlt_dec lo _); lra.
Qed.

Lemma div_ok (a b : R) : b <> 0 -> Py.div a b = Ok (a / b).
Proof. intros Hb. unfold Py.div. now rewrite Reqb_false. Qed.

(** ** The result monad *)

Lemma bind_Ok {A B : Type} (m : result A) (k : A -> result B) (b : B) :
  Py.bind m k = Ok b -> exists a, m = Ok a /\ k a = Ok b.
Proof. destruct m as [a | e]; simpl; [eauto | discriminate]. Qed.

Lemma rbind_Ok {G A B : Type} (m : Np.Rand G A) (k : A -> Np.Rand G B)
    (g : G) (r : B * G) :
  Np.rbind m k g = Ok r -> exists a g1, m g = Ok (a, g1) /\ k a g1 = Ok r.
Proof.
  unfold Np.rbind. destruct (m g) as [[a g1] | e]; [eauto | discriminate].
Qed.

(** ** Metabolizer classification *)

(** C4: the metabolizer class is a function of the combined activity score
    alone, with the boundaries 0.25, 1.0 and 2.0 each belonging to the lower
    class: score <= 0.25 is Poor, 0.25 < score <= 1.0 is Intermediate (1.0
    itself included), 1.0 < score <= 2.0 is Normal, score > 2.0 is
    Ultra-rapid. *)
Theorem classify_metabolizer_boundaries :
  forall score : R,
    (score <= 0.25 -> Engine._classify_metabolizer score = Engine.POOR) /\
    (0.25 < score <= 1 ->
     Engine._classify_metabolizer score = Engine.INTERMEDIATE) /\
    (1 < score <= 2 -> Engine._classify_metabolizer score = Engine.NORMAL) /\
    (2 < score -> Engine._classify_metabolizer score = Engine.ULTRA_RAPID) /\
    Engine._classify_metabolizer 0.25 = Engine.POOR /\
    Engine._classify_metabolizer 1 = Engine.INTERMEDIATE /\
    Engine._classify_metabolizer 2 = Engine.NORMAL.
Proof.
  intros score. unfold Engine._classify_metabolizer.
  repeat split; intros; rdecide; reflexivity.
Qed.

(** ** Ethnicity proportions *)

Lemma ethnicity_dist_total (a e f : R) :
  exists d, App.ethnicity_dist a e f = Ok d.
Proof.
  unfold App.ethnicity_dist, Reqb.
  destruct (Req_dec_T (a + e + f) 0) as [Hz | Hnz].
  - rewrite !div_ok by lra. simpl. eauto.
  - rewrite !div_ok by exact Hnz. simpl. eauto.
Qed.

Lemma ethnicity_dist_zero_sum_value (a e f : R) :
  a + e + f = 0 ->
  App.ethnicity_dist a e f =
    Ok [(Engine.EAST_ASIAN, a / 100); (Engine.EUROPEAN, e / 100);
        (Engine.AFRICAN, f / 100)].
Proof.
  intros Hz. unfold App.ethnicity_dist. rewrite (Reqb_true _ _ Hz).
  rewrite !div_ok by lra. reflexivity.
Qed.

(** With all three inputs at zero the mapping handed to the generator is
    neither an even split nor a probability distribution. *)
Lemma ethnicity_dist_zero_not_even :
  0 + 0 + 0 = 0 /\
  exists d,
    App.ethnicity_dist 0 0 0 = Ok d /\
    ~ Spec.even_split d /\ ~ Spec.probability_distribution d.
Proof.
  split; [lra |].
  eexists. split; [apply ethnicity_dist_zero_sum_value; lra |]. split.
  - intros Heven. inversion Heven as [| x l Hx Hl]; subst.
    simpl in Hx. lra.
  - intros [_ Hsum]. simpl in Hsum. lra.
Qed.

(** A generator of at least one subject whose ethnicity proportions do
    not sum to one fails at its first draw. *)
Lemma generate_rejects_distribution
    {G : Type} `{Np.Random G} `{!Np.RandomChoiceLaws G}
    (st : Engine.ModuleState) (self : Engine.PopulationGenerator) (g : G) :
  (1 <= Engine.n_subjects self)%Z ->
  1e-7 < Rabs (Py.sum (map snd (Engine.ethnicity_distribution self)) - 1) ->
  Engine.generate st self g = Raise ValueError.
Proof.
  intros Hn Hsum. unfold Engine.generate, Engine.range.
  destruct (Z.to_nat (Engine.n_subjects self)) as [| k] eqn:Hk; [lia |].
  cbn [seq map Np.rfor_each]. unfold Np.rbind at 1.
  unfold Engine.generate_body. unfold Np.rbind at 1.
  unfold Engine._sample_ethnicity.
  now rewrite (Np.choice_sum _ _ _ _ Hsum).
Qed.

Lemma checking_random_choice_laws :
  @Np.RandomChoiceLaws nat Concrete.checking_random.
Proof.
  constructor. intros A a p g Hsum.
  cbn [Np.choice Concrete.checking_random].
  now rewrite (Rltb_true _ _ Hsum).
Qed.

(** C3: the zero-sum guard does not give the generator a distribution it
    can use.  When the three inputs sum to zero the divisor becomes 100, so
    nothing is divided by zero, but each proportion is its input over 100
    and the proportions sum to zero; the generator built from them raises
    [ValueError] at the first [np.random.choice], for any cohort of at
    least one subject. *)
Theorem zero_sum_ethnicity_breaks_generation
    {G : Type} `{Np.Random G} `{!Np.RandomChoiceLaws G} :
  forall (st : Engine.ModuleState) (n_subjects : Z) (a e f : R)
         (age_range : Z * Z)
         (gender_ratio weight_mean weight_sd base_clint : R) (g : G),
    a + e + f = 0 ->
    (1 <= n_subjects)%Z ->
    App.ethnicity_dist a e f =
      Ok [(Engine.EAST_ASIAN, a / 100); (Engine.EUROPEAN, e / 100);
          (Engine.AFRICAN, f / 100)] /\
    Py.sum [a / 100; e / 100; f / 100] = 0 /\
    App.generate_population st n_subjects a e f age_range gender_ratio
      weight_mean weight_sd base_clint g = Raise ValueError.
Proof.
  intros st n a e f age_range gender_ratio weight_mean weight_sd base_clint g
    Hz Hn.
  assert (Hsum : Py.sum [a / 100; e / 100; f / 100] = 0)
    by (unfold Py.sum; simpl; lra).
  split; [now apply ethnicity_dist_zero_sum_value |]. split; [exact Hsum |].
  unfold App.generate_population.
  rewrite (ethnicity_dist_zero_sum_value a e f Hz).
  cbn [Engine.PopulationGenerator_init].
  rewrite generate_rejects_distribution; [reflexivity | exact Hn |].
  cbn [Engine.ethnicity_distribution map snd]. rewrite Hsum.
  replace (0 - 1) with (- (1)) by ring. rewrite Rabs_Ropp, Rabs_R1. lra.
Qed.

Lemma zero_sum_ethnicity_breaks_generation_example :
  App.ethnicity_dist 0 0 0 =
    Ok [(Engine.EAST_ASIAN, 0 / 100); (Engine.EUROPEAN, 0 / 100);
        (Engine.AFRICAN, 0 / 100)] /\
  Py.sum [0 / 100; 0 / 100; 0 / 100] = 0 /\
  @App.generate_population nat Concrete.checking_random Concrete.tables
    100 0 0 0 (18, 65)%Z 50 70 15 10 0%nat = Raise ValueError.
Proof.
  apply (@zero_sum_ethnicity_breaks_generation nat Concrete.checking_random
           checking_random_choice_laws);
    [lra | lia].
Defined.

(** ** Loading the data files *)

Lemma get_allele_frequencies_no_tables (eth : Engine.Ethnicity) (gene : string) :
  Engine.get_allele_frequencies Engine.no_tables eth gene = [("*1"%string, 1)].
Proof.
  unfold Engine.get_allele_frequencies, Engine.no_tables. simpl.
  destruct (decide _) as [[x Hx] | _].
  - rewrite lookup_empty in Hx. discriminate.
  - rewrite lookup_empty. simpl. rewrite lookup_empty. reflexivity.
Qed.

Lemma get_activity_score_no_tables (gene allele : string) :
  Engine.get_activity_score Engine.no_tables gene allele = 1.
Proof.
  unfold Engine.get_activity_score, Engine.no_tables. simpl.
  rewrite lookup_empty. reflexivity.
Qed.

(** C1, as the code has it: when a data file is missing its loader raises
    [FileNotFoundError] at once, before anything is read; the import of the
    module catches it, prints one warning and binds both tables to empty
    dictionaries, so the process starts, and every lookup then answers with
    its per-call default.  Nothing is loaded a second time. *)
Theorem missing_data_file_warns :
  forall fs : Engine.DataDir,
    Engine.allele_frequencies_json fs = None \/
    Engine.activity_scores_json fs = None ->
    exists msg : string,
      (Engine.load_allele_frequencies fs = Raise (FileNotFoundError msg) \/
       Engine.load_activity_scores fs = Raise (FileNotFoundError msg)) /\
      Engine.module_import fs = Ok (Engine.no_tables, [("Warning: " ++ msg)%string]) /\
      (forall eth gene,
         Engine.get_allele_frequencies Engine.no_tables eth gene =
           [("*1"%string, 1)]) /\
      (forall gene allele,
         Engine.get_activity_score Engine.no_tables gene allele = 1).
Proof.
  intros fs Hmissing.
  unfold Engine.module_import.
  destruct (Engine.allele_frequencies_json fs) as [af |] eqn:Haf.
  - destruct Hmissing as [Hm | Hm]; [discriminate |].
    eexists. split; [right; unfold Engine.load_activity_scores; rewrite Hm; reflexivity |].
    split.
    + unfold Engine.load_allele_frequencies, Engine.load_activity_scores.
      rewrite Haf, Hm. reflexivity.
    + split; [apply get_allele_frequencies_no_tables
             | apply get_activity_score_no_tables].
  - eexists. split; [left; unfold Engine.load_allele_frequencies; rewrite Haf; reflexivity |].
    split.
    + unfold Engine.load_allele_frequencies. rewrite Haf. reflexivity.
    + split; [apply get_allele_frequencies_no_tables
             | apply get_activity_score_no_tables].
Qed.

Lemma missing_data_file_warns_example :
  exists msg : string,
    (Engine.load_allele_frequencies Concrete.empty_dir =
       Raise (FileNotFoundError msg) \/
     Engine.load_activity_scores Concrete.empty_dir =
       Raise (FileNotFoundError msg)) /\
    Engine.module_import Concrete.empty_dir =
      Ok (Engine.no_tables, [("Warning: " ++ msg)%string]) /\
    (forall eth gene,
       Engine.get_allele_frequencies Engine.no_tables eth gene = [("*1"%string, 1)]) /\
    (forall gene allele, Engine.get_activity_score Engine.no_tables gene allele = 1).
Proof.
  apply (missing_data_file_warns Concrete.empty_dir). left. reflexivity.
Defined.

(** C1, as the specification has it, fails: with both files missing the
    import raises nothing and returns a module state, in which the score of
    CYP2C19 *2 is the default 1.0, where the table that could not be loaded
    has 0. *)
Lemma missing_data_file_not_fatal :
  Engine.allele_frequencies_json Concrete.empty_dir = None /\
  Engine.activity_scores_json Concrete.empty_dir = None /\
  (forall e, Engine.module_import Concrete.empty_dir <> Raise e) /\
  exists st out,
    Engine.module_import Concrete.empty_dir = Ok (st, out) /\
    Engine.get_activity_score st "CYP2C19" "*2" = 1 /\
    Engine.get_activity_score Concrete.tables "CYP2C19" "*2" = 0.
Proof.
  split; [reflexivity |]. split; [reflexivity |]. split.
  - intros e. discriminate.
  - eexists. eexists. split; [reflexivity |]. split.
    + apply get_activity_score_no_tables.
    + reflexivity.
Qed.

(** ** The time grid *)

Lemma linspace_ok (start stop : R) (num : Z) :
  (0 <= num)%Z ->
  Np.linspace start stop num =
    Ok (map (fun i => start + INR i * ((stop - start) / INR (Z.to_nat num - 1)))
          (seq 0 (Z.to_nat num))).
Proof.
  intros Hn. unfold Np.linspace.
  destruct (num <? 0)%Z eqn:Hlt; [apply Z.ltb_lt in Hlt; lia | reflexivity].
Qed.

Lemma linspace_length (start stop : R) (num : Z) (t : list R) :
  Np.linspace start stop num = Ok t -> length t = Z.to_nat num.
Proof.
  unfold Np.linspace. destruct (num <? 0)%Z; [discriminate |].
  intros Ht. injection Ht as <-. now rewrite length_map, length_seq.
Qed.

Lemma nth_map_seq {A : Type} (f : nat -> A) (n i : nat) (d : A) :
  (i < n)%nat -> nth i (map f (seq 0 n)) d = f i.
Proof.
  intros Hi.
  rewrite (nth_indep _ d (f 0%nat)) by (now rewrite length_map, length_seq).
  rewrite (map_nth f (seq 0 n) 0%nat i), seq_nth by exact Hi. reflexivity.
Qed.

Lemma linspace_nth (start stop : R) (num : Z) (t : list R) (i : nat) :
  Np.linspace start stop num = Ok t ->
  (i < Z.to_nat num)%nat ->
  nth i t 0 = start + INR i * ((stop - start) / INR (Z.to_nat num - 1)).
Proof.
  unfold Np.linspace. destruct (num <? 0)%Z; [discriminate |].
  intros Ht Hi. injection Ht as <-.
  now rewrite nth_map_seq.
Qed.

(** ** Peak and terminal phase *)

Lemma argmax_from_spec (l pre : list R) (best_i : nat) (best : R) :
  (best_i < length pre)%nat ->
  nth best_i pre 0 = best ->
  (forall x, In x pre -> x <= best) ->
  let r := Np.argmax_from best_i best (length pre) l in
  (r < length (pre ++ l))%nat /\
  (forall x, In x (pre ++ l) -> x <= nth r (pre ++ l) 0).
Proof.
  revert pre best_i best.
  induction l as [| x l IH]; intros pre best_i best Hlt Hnth Hmax; simpl.
  - rewrite app_nil_r. split; [exact Hlt |].
    intros y Hy. rewrite Hnth. now apply Hmax.
  - assert (Hlen : length (pre ++ [x]) = S (length pre))
      by (rewrite length_app; simpl; lia).
    replace (pre ++ x :: l) with ((pre ++ [x]) ++ l)
      by (now rewrite <- app_assoc).
    unfold Rltb. destruct (Rlt_dec best x) as [Hbx | Hbx].
    + rewrite <- Hlen. apply IH.
      * rewrite Hlen. lia.
      * rewrite app_nth2 by lia. now rewrite Nat.sub_diag.
      * intros y Hy. apply in_app_or in Hy as [Hy | [<- | []]].
        -- apply Hmax in Hy. lra.
        -- lra.
    + rewrite <- Hlen. apply IH.
      * rewrite Hlen. lia.
      * rewrite app_nth1 by exact Hlt. exact Hnth.
      * intros y Hy. apply in_app_or in Hy as [Hy | [<- | []]].
        -- now apply Hmax.
        -- lra.
Qed.

Lemma argmax_spec (c : list R) :
  c <> [] ->
  exists idx,
    Np.argmax c = Ok idx /\ (idx < length c)%nat /\
    (forall x, In x c -> x <= nth idx c 0).
Proof.
  destruct c as [| x l]; [congruence | intros _].
  exists (Np.argmax_from 0%nat x 1%nat l). split; [reflexivity |].
  apply (argmax_from_spec l [x] 0%nat x); simpl.
  - lia.
  - reflexivity.
  - intros y [<- | []]. lra.
Qed.

Lemma mask_select_fst (P : R -> R -> bool) (t c : list R) :
  Pbpk.mask_select (zip_with P t c) t =
    map fst (List.filter (fun tc => P (fst tc) (snd tc)) (zip t c)).
Proof.
  revert c. induction t as [| x t IH]; intros [| y c]; simpl; try reflexivity.
  destruct (P x y); simpl; now rewrite IH.
Qed.

Lemma mask_select_snd (P : R -> R -> bool) (t c : list R) :
  Pbpk.mask_select (zip_with P t c) c =
    map snd (List.filter (fun tc => P (fst tc) (snd tc)) (zip t c)).
Proof.
  revert c. induction t as [| x t IH]; intros [| y c]; simpl; try reflexivity.
  destruct (P x y); simpl; now rewrite IH.
Qed.

Lemma count_true_filter (P : R -> R -> bool) (t c : list R) :
  Pbpk.count_true (zip_with P t c) =
    length (List.filter (fun tc => P (fst tc) (snd tc)) (zip t c)).
Proof.
  unfold Pbpk.count_true.
  revert c. induction t as [| x t IH]; intros [| y c]; simpl; try reflexivity.
  rewrite filter_cons.
  destruct (P x y); destruct (decide _) as [Hd | Hd];
    try discriminate; try (exfalso; now apply Hd); simpl; now rewrite IH.
Qed.

Lemma terminal_phase_filter (tmax cmax : R) (tc : list (R * R)) :
  List.filter (fun p => Rltb tmax (fst p) && Rltb (0.1 * cmax) (snd p)) tc =
    filter (fun p => tmax < fst p /\ 0.1 * cmax < snd p) tc.
Proof.
  induction tc as [| p tc IH]; [reflexivity |].
  simpl. rewrite filter_cons, IH.
  destruct (decide (tmax < fst p /\ 0.1 * cmax < snd p)) as [[H1 H2] | Hn].
  - now rewrite (Rltb_true _ _ H1), (Rltb_true _ _ H2).
  - unfold Rltb.
    destruct (Rlt_dec tmax (fst p)); destruct (Rlt_dec (0.1 * cmax) (snd p));
      simpl; try reflexivity.
    exfalso. apply Hn. now split.
Qed.

(** The metrics of a non-empty series, the half-life being the one read
    off the terminal phase after the shift by [1e-10]. *)
Lemma calculate_pk_metrics_spec (t c : list R) :
  c <> [] ->
  length t = length c ->
  exists idx,
    Np.argmax c = Ok idx /\ (idx < length c)%nat /\
    (forall x, In x c -> x <= nth idx c 0) /\
    Pbpk._calculate_pk_metrics t c =
      Ok {| Pbpk.cmax := nth idx c 0;
            Pbpk.tmax := nth idx t 0;
            Pbpk.auc := Np.trapezoid c t;
            Pbpk.t_half :=
              Spec.half_life (fun x => ln (x + 1e-10))
                (nth idx t 0) (nth idx c 0) t c |}.
Proof.
  intros Hne Hlen.
  destruct (argmax_spec c Hne) as (idx & Harg & Hidx & Hmax).
  exists idx. repeat split; try assumption.
  unfold Pbpk._calculate_pk_metrics. rewrite Harg. simpl.
  assert (Ht : t !! idx = Some (nth idx t 0)).
  { destruct (nth_lookup_or_length t idx 0) as [Hl | Hl]; [exact Hl | lia]. }
  rewrite Ht. simpl. f_equal. f_equal.
  unfold Spec.half_life, Spec.terminal_phase.
  rewrite count_true_filter, mask_select_fst, mask_select_snd.
  rewrite terminal_phase_filter.
  set (terminal := filter _ (zip t c)).
  rewrite map_map.
  destruct (Nat.ltb_spec 2 (length terminal));
    destruct (Nat.ltb_spec (length terminal) 3); try lia; try reflexivity.
  unfold Rltb. destruct (Rlt_dec _ 0); reflexivity.
Qed.

Lemma nth_zip_In (t c : list R) (i : nat) :
  (i < length t)%nat -> (i < length c)%nat ->
  In (nth i t 0, nth i c 0) (zip t c).
Proof.
  revert c i. induction t as [| x t IH]; intros [| y c] i Ht Hc;
    simpl in *; try lia.
  destruct i as [| i]; [now left | right]. apply IH; lia.
Qed.

(** ** The least-squares line *)

Lemma squared_residuals_expand (x y : list R) (s b : R) :
  length x = length y ->
  Spec.squared_residuals x y s b =
    Py.sum (map (fun a => a * a) y)
    - 2 * s * Py.sum (zip_with Rmult x y)
    - 2 * b * Py.sum y
    + s * s * Py.sum (map (fun a => a * a) x)
    + 2 * s * b * Py.sum x
    + INR (length x) * (b * b).
Proof.
  unfold Spec.squared_residuals. revert y.
  induction x as [| a x IH]; intros [| c y] Hlen; try discriminate.
  - simpl. ring.
  - injection Hlen as Hlen. specialize (IH y Hlen).
    change (length (a :: x)) with (S (length x)). rewrite S_INR.
    simpl. simpl in IH. rewrite IH. ring.
Qed.

Lemma sum_squares_nonneg (x : list R) (m : R) :
  0 <= Py.sum (map (fun a => (a - m) * (a - m)) x).
Proof.
  unfold Py.sum. induction x as [| a x IH]; simpl; [lra |].
  apply Rplus_le_le_0_compat; [| exact IH].
  apply Rle_0_sqr.
Qed.

Lemma sum_squares_expand (x : list R) (m : R) :
  Py.sum (map (fun a => (a - m) * (a - m)) x) =
    Py.sum (map (fun a => a * a) x) - 2 * m * Py.sum x
    + INR (length x) * (m * m).
Proof.
  induction x as [| a x IH].
  - simpl. ring.
  - change (length (a :: x)) with (S (length x)). rewrite S_INR.
    simpl. simpl in IH. rewrite IH. ring.
Qed.

(** The denominator of the slope is never negative (Cauchy-Schwarz). *)
Lemma polyfit1_denominator_nonneg (x : list R) :
  0 <= INR (length x) * Py.sum (map (fun a => a * a) x) - Py.sum x * Py.sum x.
Proof.
  destruct x as [| a0 x0]; [simpl; lra |].
  set (x := a0 :: x0).
  assert (Hn : 0 < INR (length x)) by (apply lt_0_INR; simpl; lia).
  pose proof (sum_squares_nonneg x (Py.sum x / INR (length x))) as Hsq.
  rewrite sum_squares_expand in Hsq.
  set (n := INR (length x)) in *. set (sx := Py.sum x) in *.
  set (sxx := Py.sum (map (fun a => a * a) x)) in *.
  assert (Heq : n * (sxx - 2 * (sx / n) * sx + n * (sx / n * (sx / n))) =
                  n * sxx - sx * sx) by (field; lra).
  rewrite <- Heq. apply Rmult_le_pos; lra.
Qed.

(** Where the abscissae are not all equal, the line of [polyfit1] has the
    least sum of squared residuals of all lines. *)
Lemma polyfit1_least_squares (x y : list R) (s b : R) :
  length x = length y ->
  INR (length x) * Py.sum (map (fun a => a * a) x) - Py.sum x * Py.sum x <> 0 ->
  Spec.squared_residuals x y (fst (Np.polyfit1 x y)) (snd (Np.polyfit1 x y)) <=
    Spec.squared_residuals x y s b.
Proof.
  intros Hlen Hd.
  rewrite !squared_residuals_expand by exact Hlen.
  unfold Np.polyfit1. cbn [fst snd].
  pose proof (polyfit1_denominator_nonneg x) as Hd0.
  set (n := INR (length x)) in *. set (sx := Py.sum x) in *.
  set (sy := Py.sum y) in *.
  set (sxx := Py.sum (map (fun a => a * a) x)) in *.
  set (sxy := Py.sum (zip_with Rmult x y)) in *.
  set (syy := Py.sum (map (fun a => a * a) y)) in *.
  assert (Hn : n <> 0).
  { intros Hz. apply Hd. unfold n in Hz.
    assert (Hx : x = []).
    { destruct x as [| a x']; [reflexivity |].
      change (length (a :: x')) with (S (length x')) in Hz.
      rewrite S_INR in Hz. pose proof (pos_INR (length x')). lra. }
    unfold n, sx, sxx. rewrite Hx. simpl. ring. }
  assert (Hnpos : 0 < n).
  { pose proof (pos_INR (length x)) as Hp. fold n in Hp. lra. }
  set (d := n * sxx - sx * sx) in *.
  set (s0 := (n * sxy - sx * sy) / d).
  set (b0 := (sy - s0 * sx) / n).
  assert (E1 : s0 * d = n * sxy - sx * sy) by (unfold s0; field; exact Hd).
  assert (E2 : n * b0 = sy - s0 * sx) by (unfold b0; field; exact Hn).
  assert (E3 : sxy = s0 * sxx + b0 * sx).
  { apply (Rmult_eq_reg_l n); [| exact Hn].
    replace (n * sxy) with (s0 * d + sx * sy) by lra.
    replace sy with (n * b0 + s0 * sx) by lra.
    unfold d. ring. }
  assert (E4 : sy = n * b0 + s0 * sx) by lra.
  assert (Hdiff :
            n * ((syy - 2 * s * sxy - 2 * b * sy + s * s * sxx
                  + 2 * s * b * sx + n * (b * b))
                 - (syy - 2 * s0 * sxy - 2 * b0 * sy + s0 * s0 * sxx
                    + 2 * s0 * b0 * sx + n * (b0 * b0))) =
              (n * (b - b0) + (s - s0) * sx) * (n * (b - b0) + (s - s0) * sx)
              + (s - s0) * (s - s0) * d).
  { rewrite E3, E4. unfold d. ring. }
  assert (Hsq : 0 <= (n * (b - b0) + (s - s0) * sx) *
                     (n * (b - b0) + (s - s0) * sx)
                     + (s - s0) * (s - s0) * d).
  { apply Rplus_le_le_0_compat; [apply Rle_0_sqr |].
    apply Rmult_le_pos; [apply Rle_0_sqr | exact Hd0]. }
  rewrite <- Hdiff in Hsq.
  assert (Hpos : 0 <= (syy - 2 * s * sxy - 2 * b * sy + s * s * sxx
                       + 2 * s * b * sx + n * (b * b))
                      - (syy - 2 * s0 * sxy - 2 * b0 * sy + s0 * s0 * sxx
                         + 2 * s0 * b0 * sx + n * (b0 * b0))).
  { apply (Rmult_le_reg_l n); [exact Hnpos |]. lra. }
  lra.
Qed.

(** ** Half-life *)

(** C5, as the code has it: for a non-empty plasma series the metrics are
    returned without an exception; Cmax is the largest concentration and
    Tmax its time; the terminal phase keeps the samples with time > Tmax
    and concentration > 10% of Cmax; with fewer than three of them the
    half-life is [None]; otherwise a line is fitted to
    (time, ln (concentration + 1e-10)), which is the least-squares line
    when the terminal times are not all equal, and the half-life is
    -ln 2 / slope when the slope is negative and [None] when it is not. *)
Theorem half_life_extraction :
  forall t c : list R,
    c <> [] ->
    length t = length c ->
    exists m : Pbpk.PKMetrics,
      Pbpk._calculate_pk_metrics t c = Ok m /\
      (forall x, In x c -> x <= Pbpk.cmax m) /\
      In (Pbpk.tmax m, Pbpk.cmax m) (zip t c) /\
      let terminal := Spec.terminal_phase (Pbpk.tmax m) (Pbpk.cmax m) t c in
      let times := map fst terminal in
      let logs := map (fun tc => ln (snd tc + 1e-10)) terminal in
      let slope := fst (Np.polyfit1 times logs) in
      ((length terminal < 3)%nat -> Pbpk.t_half m = None) /\
      ((3 <= length terminal)%nat -> slope < 0 ->
       Pbpk.t_half m = Some (- ln 2 / slope)) /\
      ((3 <= length terminal)%nat -> 0 <= slope -> Pbpk.t_half m = None) /\
      (INR (length times) * Py.sum (map (fun a => a * a) times)
       - Py.sum times * Py.sum times <> 0 ->
       forall s b,
         Spec.squared_residuals times logs slope (snd (Np.polyfit1 times logs))
           <= Spec.squared_residuals times logs s b).
Proof.
  intros t c Hne Hlen.
  destruct (calculate_pk_metrics_spec t c Hne Hlen)
    as (idx & _ & Hidx & Hmax & Hm).
  eexists. split; [exact Hm |].
  cbn [Pbpk.cmax Pbpk.tmax Pbpk.t_half].
  split; [exact Hmax |].
  split; [apply nth_zip_In; lia |].
  unfold Spec.half_life.
  set (terminal := Spec.terminal_phase _ _ t c).
  set (times := map fst terminal).
  set (logs := map (fun tc : R * R => ln (snd tc + 1e-10)) terminal).
  set (slope := fst (Np.polyfit1 times logs)).
  repeat split.
  - intros Hfew. destruct (Nat.ltb_spec (length terminal) 3); [reflexivity | lia].
  - intros Hmany Hneg.
    destruct (Nat.ltb_spec (length terminal) 3); [lia |].
    destruct (Rlt_dec slope 0); [reflexivity | contradiction].
  - intros Hmany Hpos.
    destruct (Nat.ltb_spec (length terminal) 3); [reflexivity |].
    destruct (Rlt_dec slope 0); [lra | reflexivity].
  - intros Hd s b. apply polyfit1_least_squares; [| exact Hd].
    unfold times, logs. now rewrite !length_map.
Qed.

Lemma half_life_extraction_example :
  exists m : Pbpk.PKMetrics,
    Pbpk._calculate_pk_metrics [0; 1; 2; 3] [8; 4; 2; 1] = Ok m /\
    (forall x, In x [8; 4; 2; 1] -> x <= Pbpk.cmax m) /\
    In (Pbpk.tmax m, Pbpk.cmax m) (zip [0; 1; 2; 3] [8; 4; 2; 1]) /\
    let terminal := Spec.terminal_phase (Pbpk.tmax m) (Pbpk.cmax m) [0; 1; 2; 3] [8; 4; 2; 1] in
    let times := map fst terminal in
    let logs := map (fun tc => ln (snd tc + 1e-10)) terminal in
    let slope := fst (Np.polyfit1 times logs) in
    ((length terminal < 3)%nat -> Pbpk.t_half m = None) /\
    ((3 <= length terminal)%nat -> slope < 0 ->
     Pbpk.t_half m = Some (- ln 2 / slope)) /\
    ((3 <= length terminal)%nat -> 0 <= slope -> Pbpk.t_half m = None) /\
    (INR (length times) * Py.sum (map (fun a => a * a) times)
     - Py.sum times * Py.sum times <> 0 ->
     forall s b,
       Spec.squared_residuals times logs slope (snd (Np.polyfit1 times logs))
         <= Spec.squared_residuals times logs s b).
Proof.
  apply (half_life_extraction [0; 1; 2; 3] [8; 4; 2; 1]).
  - discriminate.
  - reflexivity.
Defined.

(** The series 8, 4, 2, 1 sampled at 0, 1, 2, 3: the peak is the first
    sample and the three others form the terminal phase. *)
Lemma example_series_terminal :
  Spec.terminal_phase 0 8 [0; 1; 2; 3] [8; 4; 2; 1] = [(1, 4); (2, 2); (3, 1)].
Proof.
  unfold Spec.terminal_phase. simpl zip.
  rewrite filter_cons, decide_False by (simpl; lra).
  rewrite filter_cons, decide_True by (simpl; lra).
  rewrite filter_cons, decide_True by (simpl; lra).
  rewrite filter_cons, decide_True by (simpl; lra).
  reflexivity.
Qed.

Lemma example_series_slope (f : R -> R) :
  fst (Np.polyfit1 [1; 2; 3] [f 4; f 2; f 1]) = (f 1 - f 4) / 2.
Proof.
  unfold Np.polyfit1, Py.sum. simpl. field.
Qed.

Lemma example_series_half_life (f : R -> R) :
  f 1 < f 4 ->
  Spec.half_life f 0 8 [0; 1; 2; 3] [8; 4; 2; 1] =
    Some (- ln 2 / ((f 1 - f 4) / 2)).
Proof.
  intros Hdec. unfold Spec.half_life.
  rewrite example_series_terminal. simpl length. simpl map.
  rewrite example_series_slope. simpl.
  destruct (Rlt_dec ((f 1 - f 4) / 2) 0); [reflexivity | lra].
Qed.

Lemma example_series_metrics :
  Pbpk._calculate_pk_metrics [0; 1; 2; 3] [8; 4; 2; 1] =
    Ok {| Pbpk.cmax := 8; Pbpk.tmax := 0;
          Pbpk.auc := Np.trapezoid [8; 4; 2; 1] [0; 1; 2; 3];
          Pbpk.t_half :=
            Spec.half_life (fun x => ln (x + 1e-10)) 0 8
              [0; 1; 2; 3] [8; 4; 2; 1] |}.
Proof.
  destruct (calculate_pk_metrics_spec [0; 1; 2; 3] [8; 4; 2; 1])
    as (idx & Harg & _ & _ & Hm); [discriminate | reflexivity |].
  assert (H0 : Np.argmax [8; 4; 2; 1] = Ok 0%nat)
    by (simpl; rdecide; reflexivity).
  rewrite H0 in Harg. injection Harg as <-. exact Hm.
Qed.

Lemma ln_4 : ln 4 = 2 * ln 2.
Proof.
  replace 4 with (2 * 2) by lra. rewrite ln_mult by lra. lra.
Qed.

(** C5, as the specification has it, fails.  On the series 8, 4, 2, 1 the
    line fitted to (time, ln concentration) gives the half-life 1, which is
    not what the code returns: it fits ln (concentration + 1e-10).  And on
    the empty series, whose half-life is undefined, the code raises. *)
Lemma half_life_not_of_log_concentration :
  (exists m : Pbpk.PKMetrics,
     Pbpk._calculate_pk_metrics [0; 1; 2; 3] [8; 4; 2; 1] = Ok m /\
     Spec.half_life ln (Pbpk.tmax m) (Pbpk.cmax m) [0; 1; 2; 3] [8; 4; 2; 1] =
       Some 1 /\
     Pbpk.t_half m <> Some 1) /\
  Pbpk._calculate_pk_metrics [] [] = Raise ValueError.
Proof.
  split; [| reflexivity].
  eexists. split; [apply example_series_metrics |].
  cbn [Pbpk.cmax Pbpk.tmax Pbpk.t_half].
  assert (Hln2 : 0 < ln 2) by (pose proof ln_lt_2; lra).
  split.
  - rewrite example_series_half_life by (rewrite ln_1, ln_4; lra).
    f_equal. rewrite ln_1, ln_4. field. lra.
  - assert (Hinc : ln (1 + 1e-10) < ln (4 + 1e-10))
      by (apply ln_increasing; lra).
    rewrite (example_series_half_life (fun x => ln (x + 1e-10))) by exact Hinc.
    intros Heq. injection Heq as Heq.
    assert (Hs : ln (4 + 1e-10) = ln (4 * (1 + 1e-10))).
    { rewrite ln_mult by lra. rewrite ln_4.
      apply (f_equal (fun x => x * ((ln (1 + 1e-10) - ln (4 + 1e-10)) / 2)))
        in Heq.
      unfold Rdiv at 1 in Heq. rewrite Rmult_assoc, Rinv_l in Heq by lra.
      lra. }
    apply ln_inv in Hs; lra.
Qed.

(** ** Solving for one individual *)

Lemma ode_system_ok (y : Np.State3) (s : R) (params : Pbpk.OdeParams) :
  Pbpk.P_V_c params <> 0 ->
  Pbpk.P_V_liver params <> 0 ->
  is_ok (Pbpk._ode_system y s params) = true.
Proof.
  intros Hc Hl. destruct y as [[a_gut c_plasma] c_liver].
  unfold Pbpk._ode_system. rewrite !div_ok by assumption. reflexivity.
Qed.

Lemma euler_from_total (func : Np.State3 -> R -> result Np.State3)
    (ts : list R) (y : Np.State3) (s : R) :
  (forall y s, is_ok (func y s) = true) ->
  exists sol, Concrete.euler_from func y s ts = Ok sol /\ length sol = length ts.
Proof.
  intros Hf. revert y s.
  induction ts as [| s' ts IH]; intros y s; simpl.
  - exists []. split; reflexivity.
  - specialize (Hf y s) as Hys. destruct (func y s) as [d | e]; [| discriminate].
    simpl. destruct (IH (Concrete.axpy (s' - s) d y) s') as (rest & Hr & Hl).
    rewrite Hr. simpl. eexists. split; [reflexivity |]. simpl. now rewrite Hl.
Qed.

Lemma euler_laws : @Np.OdeSolverLaws Concrete.euler.
Proof.
  constructor. intros func y0 t Hf. simpl.
  destruct t as [| s ts].
  - exists []. split; reflexivity.
  - destruct (euler_from_total func ts y0 s Hf) as (rest & Hr & Hl).
    rewrite Hr. simpl. eexists. split; [reflexivity |]. simpl. now rewrite Hl.
Qed.

Section SolveFacts.
Context `{Np.OdeSolver} `{!Np.OdeSolverLaws}.

(** With at least one time sample and non-zero central and liver
    volumes, [solve] returns, on the grid of [linspace] and from the
    initial state of [solve_y0]. *)
Lemma solve_spec (self : Pbpk.PBPKModel) :
  (1 <= Pbpk.n_points (Pbpk.config self))%Z ->
  Pbpk.P_V_c (Pbpk.solve_params self) <> 0 ->
  Pbpk.v_liver (Pbpk.phys self) <> 0 ->
  exists t y0 sol r,
    Np.linspace 0 (Pbpk.t_max (Pbpk.config self))
      (Pbpk.n_points (Pbpk.config self)) = Ok t /\
    Pbpk.solve_y0 (Pbpk.config self) (Pbpk.P_V_c (Pbpk.solve_params self)) =
      Ok y0 /\
    Np.odeint (fun y s => Pbpk._ode_system y s (Pbpk.solve_params self)) y0 t =
      Ok sol /\
    Pbpk.solve self = Ok r /\
    Pbpk.time r = t /\
    Pbpk.c_plasma r = map (fun y => snd (fst y) * 1000) sol /\
    length (Pbpk.c_plasma r) = Z.to_nat (Pbpk.n_points (Pbpk.config self)) /\
    Pbpk._calculate_pk_metrics t (Pbpk.c_plasma r) = Ok (Pbpk.pk_metrics r) /\
    Pbpk.parameters r = Pbpk.solve_params self.
Proof.
  intros Hn Hc Hl.
  assert (Hlin := linspace_ok 0 (Pbpk.t_max (Pbpk.config self))
                    (Pbpk.n_points (Pbpk.config self)) ltac:(lia)).
  set (t := map _ _) in Hlin.
  assert (Hy0 : exists y0,
             Pbpk.solve_y0 (Pbpk.config self)
               (Pbpk.P_V_c (Pbpk.solve_params self)) = Ok y0).
  { unfold Pbpk.solve_y0. destruct (String.eqb _ _); [eauto |].
    rewrite div_ok by exact Hc. simpl. eauto. }
  destruct Hy0 as [y0 Hy0].
  destruct (Np.odeint_total
              (fun y s => Pbpk._ode_system y s (Pbpk.solve_params self)) y0 t)
    as (sol & Hsol & Hlen).
  { intros y s. now apply ode_system_ok. }
  assert (Hlt : length t = Z.to_nat (Pbpk.n_points (Pbpk.config self)))
    by (eapply linspace_length; exact Hlin).
  set (c := map (fun y : R * R * R => snd (fst y) * 1000) sol).
  assert (Hlc : length c = length t)
    by (unfold c; now rewrite length_map).
  destruct (calculate_pk_metrics_spec t c) as (idx & _ & _ & _ & Hm).
  { intros Hnil. rewrite Hnil in Hlc. simpl in Hlc. lia. }
  { now symmetry. }
  exists t, y0, sol. eexists.
  split; [exact Hlin |]. split; [exact Hy0 |]. split; [exact Hsol |].
  split.
  { unfold Pbpk.solve. rewrite Hlin. cbn [Py.bind]. rewrite Hy0.
    cbn [Py.bind]. rewrite Hsol. cbn [Py.bind]. fold c. rewrite Hm.
    reflexivity. }
  cbn [Pbpk.time Pbpk.c_plasma Pbpk.pk_metrics Pbpk.parameters].
  repeat split; try assumption; try reflexivity. lia.
Qed.

End SolveFacts.

(** ** Route of administration *)

(** C10: [solve] does not reject a route it does not know.  Whatever the
    route string, with at least one time sample and non-zero central and
    liver volumes, [solve] returns, and the state it integrates from is the
    oral one (A_gut = dose, the rest 0) exactly when the string is "oral",
    and the intravenous one (C_plasma = dose / Vc, the rest 0) for every
    other string: all strings other than "oral" give the same result. *)
Theorem solve_route_initial_state
    `{Np.OdeSolver} `{!Np.OdeSolverLaws} :
  forall (drug : Pbpk.DrugParameters) (phys : Pbpk.PhysiologicalParameters)
         (cfg : Pbpk.SimulationConfig),
    let self := Pbpk.PBPKModel_init (Some drug) (Some phys) (Some cfg) in
    let v_central := Pbpk.v_d drug * Pbpk.body_weight phys in
    v_central <> 0 ->
    Pbpk.v_liver phys <> 0 ->
    (1 <= Pbpk.n_points cfg)%Z ->
    exists t y0 sol r,
      (Pbpk.route cfg = "oral"%string -> y0 = (Pbpk.dose cfg, 0, 0)) /\
      (Pbpk.route cfg <> "oral"%string ->
       y0 = (0, Pbpk.dose cfg / v_central, 0)) /\
      Np.linspace 0 (Pbpk.t_max cfg) (Pbpk.n_points cfg) = Ok t /\
      Np.odeint (fun y s => Pbpk._ode_system y s (Pbpk.solve_params self)) y0 t =
        Ok sol /\
      Pbpk.solve self = Ok r /\
      Pbpk.c_plasma r = map (fun y => snd (fst y) * 1000) sol /\
      forall other : string,
        Pbpk.route cfg <> "oral"%string -> other <> "oral"%string ->
        Pbpk.solve
          (Pbpk.PBPKModel_init (Some drug) (Some phys)
             (Some {| Pbpk.dose := Pbpk.dose cfg; Pbpk.route := other;
                      Pbpk.t_max := Pbpk.t_max cfg;
                      Pbpk.n_points := Pbpk.n_points cfg |})) = Ok r.
Proof.
  intros drug phys cfg self v_central Hc Hl Hn.
  destruct (solve_spec self Hn Hc Hl)
    as (t & y0 & sol & r & Ht & Hy0 & Hsol & Hr & _ & Hcp & _).
  exists t, y0, sol, r.
  assert (Hy0' : Pbpk.solve_y0 cfg v_central = Ok y0) by exact Hy0.
  assert (Ht' : Np.linspace 0 (Pbpk.t_max cfg) (Pbpk.n_points cfg) = Ok t)
    by exact Ht.
  clear Hy0 Ht. rename Hy0' into Hy0. unfold Pbpk.solve_y0 in Hy0.
  repeat split; try assumption.
  - intros Horal. rewrite Horal in Hy0. simpl in Hy0. congruence.
  - intros Hother. apply String.eqb_neq in Hother. rewrite Hother in Hy0.
    rewrite div_ok in Hy0 by exact Hc. simpl in Hy0. congruence.
  - intros other Hcfg Hother. rewrite <- Hr.
    apply String.eqb_neq in Hcfg, Hother.
    unfold Pbpk.solve, Pbpk.solve_y0, self. cbn. now rewrite Hcfg, Hother.
Qed.

Lemma solve_route_initial_state_example :
  exists t y0 sol r,
    (Pbpk.route Concrete.iv_config = "oral"%string ->
     y0 = (Pbpk.dose Concrete.iv_config, 0, 0)) /\
    (Pbpk.route Concrete.iv_config <> "oral"%string ->
     y0 = (0, Pbpk.dose Concrete.iv_config /
              (Pbpk.v_d Concrete.test_drug * Pbpk.body_weight Concrete.test_phys),
           0)) /\
    Np.linspace 0 (Pbpk.t_max Concrete.iv_config)
      (Pbpk.n_points Concrete.iv_config) = Ok t /\
    Np.odeint
      (fun y s =>
         Pbpk._ode_system y s
           (Pbpk.solve_params
              (Pbpk.PBPKModel_init (Some Concrete.test_drug)
                 (Some Concrete.test_phys) (Some Concrete.iv_config))))
      y0 t = Ok sol /\
    Pbpk.solve
      (Pbpk.PBPKModel_init (Some Concrete.test_drug) (Some Concrete.test_phys)
         (Some Concrete.iv_config)) = Ok r /\
    Pbpk.c_plasma r = map (fun y => snd (fst y) * 1000) sol /\
    forall other : string,
      Pbpk.route Concrete.iv_config <> "oral"%string ->
      other <> "oral"%string ->
      Pbpk.solve
        (Pbpk.PBPKModel_init (Some Concrete.test_drug)
           (Some Concrete.test_phys)
           (Some {| Pbpk.dose := Pbpk.dose Concrete.iv_config;
                    Pbpk.route := other;
                    Pbpk.t_max := Pbpk.t_max Concrete.iv_config;
                    Pbpk.n_points := Pbpk.n_points Concrete.iv_config |})) =
        Ok r.
Proof.
  apply (@solve_route_initial_state Concrete.euler euler_laws
           Concrete.test_drug Concrete.test_phys Concrete.iv_config).
  - simpl. lra.
  - simpl. lra.
  - simpl. lia.
Defined.

(** ** The generated cohort *)

Lemma rret_Ok {G A : Type} (a : A) (g : G) (r : A * G) :
  Np.rret a g = Ok r -> r = (a, g).
Proof. unfold Np.rret. congruence. Qed.

(** Split a successful run of monadic code into its successful steps. *)
Ltac rinv H :=
  repeat (let a := fresh "a" in
          let g := fresh "g" in
          let Hs := fresh "Hstep" in
          apply rbind_Ok in H as (a & g & Hs & H));
  try (apply rret_Ok in H).

Section GeneratorFacts.
Context {G : Type} `{Np.Random G} `{!Np.RandomLaws G}.
Variable st : Engine.ModuleState.
Variable self : Engine.PopulationGenerator.

Lemma sample_anthropometrics_Ok (gender : string) (age : Z) (g g' : G)
    (w h b : R) :
  Engine._sample_anthropometrics self gender age g = Ok (w, h, b, g') ->
  (exists w0, w = Py.max 40 (Py.min w0 150)) /\
  (exists h0, h = Py.max 140 (Py.min h0 200)) /\
  b = w / ((h / 100) * (h / 100)).
Proof.
  unfold Engine._sample_anthropometrics. intros Hs.
  destruct (String.eqb gender "M"); rinv Hs;
    injection Hs as -> -> -> _; eauto.
Qed.

Lemma sample_genotype_Ok (gene : string) (eth : Engine.Ethnicity)
    (g g' : G) (gt : string * string) :
  Engine._sample_genotype st gene eth g = Ok (gt, g') ->
  exists a1 a2, gt = Py.sorted2 a1 a2 /\
    In a1 (map fst (Engine.get_allele_frequencies st eth gene)) /\
    In a2 (map fst (Engine.get_allele_frequencies st eth gene)).
Proof.
  unfold Engine._sample_genotype. intros Hs.
  apply rbind_Ok in Hs as (a1 & g1 & H1 & Hs).
  apply rbind_Ok in Hs as (a2 & g2 & H2 & Hs).
  apply rret_Ok in Hs. injection Hs as -> _.
  apply Np.choice_elem in H1, H2. eauto.
Qed.

Lemma generate_physiological_params_Ok (weight : R) (age : Z)
    (gender : string) (score : R) (g g' : G)
    (phys : Pbpk.PhysiologicalParameters) :
  Engine._generate_physiological_params self weight age gender score g =
    Ok (phys, g') ->
  exists v,
    Np.lognormal 0 0.3 g = Ok (v, g') /\
    Pbpk.body_weight phys = weight /\
    Pbpk.cl_int phys = Engine.base_cl_int self * score * v /\
    Pbpk.activity_score phys = score.
Proof.
  unfold Engine._generate_physiological_params. intros Hs.
  apply rbind_Ok in Hs as (v & g1 & Hv & Hs).
  apply rret_Ok in Hs. injection Hs as Hp Hg. subst phys g'.
  exists v. repeat split; [exact Hv].
Qed.

Lemma generate_body_Ok (population : list Engine.IndividualCharacteristics)
    (i : Z) (g g' : G) (population' : list Engine.IndividualCharacteristics) :
  Engine.generate_body st self population i g = Ok (population', g') ->
  exists ind,
    population' = population ++ [ind] /\
    Engine.subject_id ind = (i + 1)%Z /\
    Engine.generated st self ind.
Proof.
  unfold Engine.generate_body. intros Hs.
  apply rbind_Ok in Hs as (eth & g1 & Heth & Hs).
  apply rbind_Ok in Hs as (u & g2 & Hu & Hs).
  apply rbind_Ok in Hs as (age & g3 & Hage & Hs).
  apply rbind_Ok in Hs as ([[w h] b] & g4 & Hwhb & Hs).
  apply rbind_Ok in Hs as (gt1 & g5 & Hgt1 & Hs).
  apply rbind_Ok in Hs as (gt2 & g6 & Hgt2 & Hs).
  apply rbind_Ok in Hs as (phys & g7 & Hphys & Hs).
  apply rret_Ok in Hs. injection Hs as -> ->.
  apply sample_anthropometrics_Ok in Hwhb as (Hw & Hh & Hb).
  apply sample_genotype_Ok in Hgt1.
  apply sample_genotype_Ok in Hgt2.
  apply generate_physiological_params_Ok in Hphys as (v & Hv & Hbw & Hcl & Has).
  apply Np.choice_elem in Heth.
  eexists. split; [reflexivity |]. split; [reflexivity |].
  constructor; cbn; try assumption; try reflexivity.
  exists v, g6, g7, phys. auto.
Qed.

Lemma rfor_each_generate_body (idx : list Z)
    (population population' : list Engine.IndividualCharacteristics)
    (g g' : G) :
  Np.rfor_each (Engine.generate_body st self) population idx g =
    Ok (population', g') ->
  exists new,
    population' = population ++ new /\
    map Engine.subject_id new = map (fun i => (i + 1)%Z) idx /\
    Forall (Engine.generated st self) new.
Proof.
  revert population g.
  induction idx as [| i idx IH]; intros population g Hs; simpl in Hs.
  - apply rret_Ok in Hs. injection Hs as <- _.
    exists []. now rewrite app_nil_r.
  - apply rbind_Ok in Hs as (pop1 & g1 & Hbody & Hs).
    apply generate_body_Ok in Hbody as (ind & -> & Hid & Hgen).
    apply IH in Hs as (new & -> & Hids & Hnew).
    exists (ind :: new). rewrite <- app_assoc. simpl.
    split; [reflexivity |]. split; [now rewrite Hid, Hids |].
    now constructor.
Qed.

(** Every individual of a generated cohort was built by one iteration
    of the loop, and the cohort has [n_subjects] members numbered from 1. *)
Lemma generate_Ok (g g' : G)
    (population : list Engine.IndividualCharacteristics) :
  Engine.generate st self g = Ok (population, g') ->
  Forall (Engine.generated st self) population /\
  map Engine.subject_id population =
    map (fun i => (i + 1)%Z) (Engine.range (Engine.n_subjects self)).
Proof.
  unfold Engine.generate. intros Hs.
  apply rfor_each_generate_body in Hs as (new & -> & Hids & Hnew).
  now split.
Qed.

End GeneratorFacts.

(** *** A run of the generator *)

Lemma counting_random_laws : Np.RandomLaws nat.
Proof.
  constructor. intros A a p g g' x Hx.
  cbn [Np.choice Concrete.counting_random] in Hx.
  destruct a as [| y a']; [discriminate |].
  assert (Hin : In (nth (g mod length (y :: a')) (y :: a') y) (y :: a'))
    by (apply nth_In, Nat.mod_upper_bound; discriminate).
  assert (Heq : nth (g mod length (y :: a')) (y :: a') y = x) by congruence.
  now rewrite <- Heq.
Qed.

Lemma counting_choice_Ok {A : Type} (a : list A) (p : list R) (g : nat) :
  a <> [] -> exists x, Np.choice a p g = Ok (x, S g).
Proof.
  destruct a as [| y a']; [congruence | intros _].
  cbn [Np.choice Concrete.counting_random]. eauto.
Qed.

Lemma counting_generate_body_Ok (st : Engine.ModuleState)
    (self : Engine.PopulationGenerator)
    (population : list Engine.IndividualCharacteristics) (i : Z) (g : nat) :
  Engine.ethnicity_distribution self <> [] ->
  (fst (Engine.age_range self) < snd (Engine.age_range self) + 1)%Z ->
  (forall eth gene,
     gene = "CYP2C19"%string \/ gene = "CYP3A4"%string ->
     Engine.get_allele_frequencies st eth gene <> []) ->
  exists population' g',
    Engine.generate_body st self population i g = Ok (population', g').
Proof.
  intros Hdist Hage Hfreq.
  assert (Hch : forall eth gene g0,
             gene = "CYP2C19"%string \/ gene = "CYP3A4"%string ->
             exists gt,
               Engine._sample_genotype st gene eth g0 = Ok (gt, S (S g0))).
  { intros eth gene g0 Hgene. unfold Engine._sample_genotype, Np.rbind.
    assert (Hne : map fst (Engine.get_allele_frequencies st eth gene) <> []).
    { specialize (Hfreq eth gene Hgene).
      destruct (Engine.get_allele_frequencies st eth gene); [congruence | discriminate]. }
    destruct (counting_choice_Ok _
                (map snd (Engine.get_allele_frequencies st eth gene)) g0 Hne)
      as [a1 H1].
    destruct (counting_choice_Ok _
                (map snd (Engine.get_allele_frequencies st eth gene)) (S g0) Hne)
      as [a2 H2].
    rewrite H1, H2. unfold Np.rret. eauto. }
  unfold Engine.generate_body, Np.rbind at 1.
  unfold Engine._sample_ethnicity.
  destruct (counting_choice_Ok (map fst (Engine.ethnicity_distribution self))
              (map snd (Engine.ethnicity_distribution self)) g) as [eth Heth].
  { destruct (Engine.ethnicity_distribution self); [congruence | discriminate]. }
  rewrite Heth.
  unfold Np.rbind at 1. cbn [Np.random Concrete.counting_random].
  unfold Np.rbind at 1. cbn [Np.randint Concrete.counting_random].
  apply Z.ltb_lt in Hage. rewrite Hage.
  unfold Np.rbind at 1.
  set (gender := if Rltb 0.5 (Engine.gender_ratio self) then _ else _).
  unfold Engine._sample_anthropometrics.
  destruct (String.eqb gender "M");
    unfold Np.rbind at 1; cbn [Np.normal Concrete.counting_random];
    unfold Np.rbind at 1; cbn [Np.normal Concrete.counting_random];
    unfold Np.rret at 1;
    unfold Np.rbind at 1;
    (destruct (Hch eth "CYP2C19"%string (S (S (S (S (S g))))))
       as [gt1 Hgt1]; [now left |]);
    rewrite Hgt1;
    unfold Np.rbind at 1;
    (destruct (Hch eth "CYP3A4"%string (S (S (S (S (S (S (S g))))))))
       as [gt2 Hgt2]; [now right |]);
    rewrite Hgt2;
    unfold Np.rbind at 1, Engine._generate_physiological_params;
    unfold Np.rbind at 1; cbn [Np.lognormal Concrete.counting_random];
    unfold Np.rret; eauto.
Qed.

Lemma rfor_each_Ok {G S X : Type} (body : S -> X -> Np.Rand G S) :
  (forall s x g, exists s' g', body s x g = Ok (s', g')) ->
  forall xs s g, exists s' g', Np.rfor_each body s xs g = Ok (s', g').
Proof.
  intros Hbody xs. induction xs as [| x xs IH]; intros s g; simpl.
  - unfold Np.rret. eauto.
  - unfold Np.rbind. destruct (Hbody s x g) as (s1 & g1 & H1).
    rewrite H1. apply IH.
Qed.

Lemma concrete_tables_frequencies (eth : Engine.Ethnicity) (gene : string) :
  gene = "CYP2C19"%string \/ gene = "CYP3A4"%string ->
  Engine.get_allele_frequencies Concrete.tables eth gene <> [].
Proof.
  intros [-> | ->]; destruct eth; vm_compute; discriminate.
Qed.

(** The two-subject generator runs to completion on the concrete tables. *)
Lemma two_subjects_generate_Ok :
  exists population g',
    Engine.generate Concrete.tables Concrete.two_subjects 0%nat =
      Ok (population, g') /\
    length population = 2%nat.
Proof.
  destruct (rfor_each_Ok
              (Engine.generate_body Concrete.tables Concrete.two_subjects)
              (fun s x g =>
                 counting_generate_body_Ok Concrete.tables Concrete.two_subjects
                   s x g ltac:(discriminate) ltac:(simpl; lia)
                   concrete_tables_frequencies)
              (Engine.range (Engine.n_subjects Concrete.two_subjects)) [] 0%nat)
    as (population & g' & Hgen).
  exists population, g'. split; [exact Hgen |].
  apply (@generate_Ok nat _ counting_random_laws) in Hgen as [_ Hids].
  apply (f_equal (@length Z)) in Hids. rewrite !length_map in Hids.
  rewrite Hids. reflexivity.
Qed.

(** ** Genotypes *)

Lemma ltb_false_leb (a b : string) : String.ltb b a = false -> String.leb a b = true.
Proof.
  unfold String.ltb, String.leb. rewrite (String.compare_antisym a b).
  destruct (String.compare b a); simpl; congruence.
Qed.

Lemma ltb_true_leb (a b : string) : String.ltb b a = true -> String.leb b a = true.
Proof.
  unfold String.ltb, String.leb. destruct (String.compare b a); congruence.
Qed.

Lemma sorted2_canonical (a b : string) : Spec.canonical (Py.sorted2 a b).
Proof.
  unfold Spec.canonical, Py.sorted2.
  destruct (String.ltb b a) eqn:Hba; simpl.
  - now apply ltb_true_leb.
  - now apply ltb_false_leb.
Qed.

Lemma sorted2_comm (a b : string) : Py.sorted2 a b = Py.sorted2 b a.
Proof.
  unfold Py.sorted2, String.ltb.
  rewrite (String.compare_antisym a b).
  destruct (String.compare b a) eqn:Hba; simpl; try reflexivity.
  apply String.compare_eq_iff in Hba. now subst.
Qed.

Lemma sorted2_components (a b : string) (l : list string) :
  In a l -> In b l ->
  In (fst (Py.sorted2 a b)) l /\ In (snd (Py.sorted2 a b)) l.
Proof.
  intros Ha Hb. unfold Py.sorted2. destruct (String.ltb b a); now split.
Qed.

(** C9: every individual of a generated cohort has, for each of the two
    genes, a genotype that is the sorted pair of two labels of the frequency
    table of its ethnicity for that gene (the same pair whichever way round
    the two draws came), the ethnicity being one of the configured ones; its
    weight lies in [40, 150] and its height in [140, 200]. *)
Theorem generated_individual_invariants
    {G : Type} `{Np.Random G} `{!Np.RandomLaws G} :
  forall (st : Engine.ModuleState) (self : Engine.PopulationGenerator)
         (g g' : G) (population : list Engine.IndividualCharacteristics),
    Engine.generate st self g = Ok (population, g') ->
    forall ind, In ind population ->
      In (Engine.ethnicity ind) (map fst (Engine.ethnicity_distribution self)) /\
      (forall gene genotype,
         (gene, genotype) = ("CYP2C19"%string, Engine.cyp2c19_genotype ind) \/
         (gene, genotype) = ("CYP3A4"%string, Engine.cyp3a4_genotype ind) ->
         Spec.canonical genotype /\
         In (fst genotype)
            (map fst (Engine.get_allele_frequencies st (Engine.ethnicity ind) gene)) /\
         In (snd genotype)
            (map fst (Engine.get_allele_frequencies st (Engine.ethnicity ind) gene)) /\
         exists a1 a2,
           genotype = Py.sorted2 a1 a2 /\ genotype = Py.sorted2 a2 a1) /\
      40 <= Engine.weight ind <= 150 /\
      140 <= Engine.height ind <= 200.
Proof.
  intros st self g g' population Hgen ind Hin.
  apply generate_Ok in Hgen as [Hall _].
  rewrite Forall_forall in Hall.
  assert (Hind := Hall ind (proj2 (list_elem_of_In _ _) Hin)).
  destruct Hind as [Heth [w Hw] [h Hh] _ Hg1 Hg2 _ _ _ _ _].
  split; [exact Heth |]. split.
  - intros gene genotype [Heq | Heq]; injection Heq as -> ->.
    + destruct Hg1 as (a1 & a2 & -> & H1 & H2).
      split; [apply sorted2_canonical |].
      destruct (sorted2_components a1 a2 _ H1 H2) as [Hf Hs].
      repeat split; try assumption.
      exists a1, a2. split; [reflexivity | apply sorted2_comm].
    + destruct Hg2 as (a1 & a2 & -> & H1 & H2).
      split; [apply sorted2_canonical |].
      destruct (sorted2_components a1 a2 _ H1 H2) as [Hf Hs].
      repeat split; try assumption.
      exists a1, a2. split; [reflexivity | apply sorted2_comm].
  - rewrite Hw, Hh. split; apply clamp_range; lra.
Qed.

Lemma generated_individual_invariants_example :
  exists population g',
    Engine.generate Concrete.tables Concrete.two_subjects 0%nat =
      Ok (population, g') /\
    length population = 2%nat /\
    forall ind, In ind population ->
      In (Engine.ethnicity ind)
         (map fst (Engine.ethnicity_distribution Concrete.two_subjects)) /\
      (forall gene genotype,
         (gene, genotype) = ("CYP2C19"%string, Engine.cyp2c19_genotype ind) \/
         (gene, genotype) = ("CYP3A4"%string, Engine.cyp3a4_genotype ind) ->
         Spec.canonical genotype /\
         In (fst genotype)
            (map fst (Engine.get_allele_frequencies Concrete.tables
                        (Engine.ethnicity ind) gene)) /\
         In (snd genotype)
            (map fst (Engine.get_allele_frequencies Concrete.tables
                        (Engine.ethnicity ind) gene)) /\
         exists a1 a2,
           genotype = Py.sorted2 a1 a2 /\ genotype = Py.sorted2 a2 a1) /\
      40 <= Engine.weight ind <= 150 /\
      140 <= Engine.height ind <= 200.
Proof.
  destruct two_subjects_generate_Ok as (population & g' & Hgen & Hlen).
  exists population, g'. split; [exact Hgen |]. split; [exact Hlen |].
  exact (@generated_individual_invariants nat _ counting_random_laws
           Concrete.tables Concrete.two_subjects 0%nat g' population Hgen).
Defined.

(** ** Activity scores *)

Lemma get_activity_score_spec (st : Engine.ModuleState) (gene allele : string) :
  Engine.get_activity_score st gene allele =
    Spec.allele_score (Engine._ACTIVITY_SCORE_DATA st) gene allele.
Proof.
  unfold Engine.get_activity_score, Spec.allele_score.
  destruct (Engine._ACTIVITY_SCORE_DATA st !! gene) as [scores |]; reflexivity.
Qed.

(** The three cases of the lookup: a known allele of a known gene has its
    table entry; an unknown allele, or any allele of an unknown gene, has
    the default 1.0. *)
Lemma allele_score_cases (table : Engine.ActivityScoreTable)
    (gene allele : string) :
  (forall scores s,
     table !! gene = Some scores -> scores !! allele = Some s ->
     Spec.allele_score table gene allele = s) /\
  (forall scores,
     table !! gene = Some scores -> scores !! allele = None ->
     Spec.allele_score table gene allele = 1) /\
  (table !! gene = None -> Spec.allele_score table gene allele = 1).
Proof.
  unfold Spec.allele_score. repeat split.
  - intros scores s -> Hs. simpl. now rewrite Hs.
  - intros scores -> Hs. simpl. now rewrite Hs.
  - intros ->. reflexivity.
Qed.

(** C8: the activity score of a gene is the sum of the scores of the two
    alleles of the genotype, an allele or gene absent from the table
    counting 1.0; and for every generated individual the two per-gene scores
    are those of its two genotypes and the combined score is the geometric
    mean sqrt (score1 * score2). *)
Theorem activity_score_sum_and_geometric_mean
    {G : Type} `{Np.Random G} `{!Np.RandomLaws G} :
  forall (st : Engine.ModuleState) (self : Engine.PopulationGenerator)
         (g g' : G) (population : list Engine.IndividualCharacteristics),
    Engine.generate st self g = Ok (population, g') ->
    let score := Spec.allele_score (Engine._ACTIVITY_SCORE_DATA st) in
    (forall gene genotype,
       Engine._calculate_activity_score st gene genotype =
         score gene (fst genotype) + score gene (snd genotype)) /\
    forall ind, In ind population ->
      Engine.cyp2c19_activity_score ind =
        score "CYP2C19"%string (fst (Engine.cyp2c19_genotype ind)) +
        score "CYP2C19"%string (snd (Engine.cyp2c19_genotype ind)) /\
      Engine.cyp3a4_activity_score ind =
        score "CYP3A4"%string (fst (Engine.cyp3a4_genotype ind)) +
        score "CYP3A4"%string (snd (Engine.cyp3a4_genotype ind)) /\
      Engine.combined_activity_score ind =
        sqrt (Engine.cyp2c19_activity_score ind *
              Engine.cyp3a4_activity_score ind).
Proof.
  intros st self g g' population Hgen score.
  assert (Hcalc : forall gene genotype,
             Engine._calculate_activity_score st gene genotype =
               score gene (fst genotype) + score gene (snd genotype)).
  { intros gene genotype. unfold Engine._calculate_activity_score.
    now rewrite !get_activity_score_spec. }
  split; [exact Hcalc |].
  intros ind Hin.
  apply generate_Ok in Hgen as [Hall _].
  rewrite Forall_forall in Hall.
  assert (Hind := Hall ind (proj2 (list_elem_of_In _ _) Hin)).
  destruct Hind as [_ _ _ _ _ _ Has1 Has2 Hcomb _ _].
  rewrite Has1, Has2 at 1. rewrite <- !Hcalc, <- Has1, <- Has2.
  repeat split; try reflexivity. exact Hcomb.
Qed.

Lemma activity_score_sum_and_geometric_mean_example :
  exists population g',
    Engine.generate Concrete.tables Concrete.two_subjects 0%nat =
      Ok (population, g') /\
    length population = 2%nat /\
    let score :=
      Spec.allele_score (Engine._ACTIVITY_SCORE_DATA Concrete.tables) in
    (forall gene genotype,
       Engine._calculate_activity_score Concrete.tables gene genotype =
         score gene (fst genotype) + score gene (snd genotype)) /\
    forall ind, In ind population ->
      Engine.cyp2c19_activity_score ind =
        score "CYP2C19"%string (fst (Engine.cyp2c19_genotype ind)) +
        score "CYP2C19"%string (snd (Engine.cyp2c19_genotype ind)) /\
      Engine.cyp3a4_activity_score ind =
        score "CYP3A4"%string (fst (Engine.cyp3a4_genotype ind)) +
        score "CYP3A4"%string (snd (Engine.cyp3a4_genotype ind)) /\
      Engine.combined_activity_score ind =
        sqrt (Engine.cyp2c19_activity_score ind *
              Engine.cyp3a4_activity_score ind).
Proof.
  destruct two_subjects_generate_Ok as (population & g' & Hgen & Hlen).
  exists population, g'. split; [exact Hgen |]. split; [exact Hlen |].
  exact (@activity_score_sum_and_geometric_mean nat _ counting_random_laws
           Concrete.tables Concrete.two_subjects 0%nat g' population Hgen).
Defined.

(** ** Intrinsic clearance *)

Lemma solve_parameters `{Np.OdeSolver} (self : Pbpk.PBPKModel)
    (r : Pbpk.SolveResult) :
  Pbpk.solve self = Ok r -> Pbpk.parameters r = Pbpk.solve_params self.
Proof.
  unfold Pbpk.solve. intros Hs.
  apply bind_Ok in Hs as (t & _ & Hs).
  apply bind_Ok in Hs as (y0 & _ & Hs).
  apply bind_Ok in Hs as (sol & _ & Hs).
  apply bind_Ok in Hs as (m & _ & Hs).
  injection Hs as <-. reflexivity.
Qed.

(** The right-hand side of the ODE system, term by term. *)
Lemma ode_system_value (A_gut C_plasma C_liver s : R)
    (params : Pbpk.OdeParams) :
  Pbpk.P_V_c params <> 0 ->
  Pbpk.P_V_liver params <> 0 ->
  Pbpk._ode_system (A_gut, C_plasma, C_liver) s params =
    Ok (- Pbpk.P_k_a params * A_gut,
        Pbpk.P_k_a params * A_gut * Pbpk.P_F params / Pbpk.P_V_c params
        - Pbpk.P_Q_liver params / Pbpk.P_V_c params * C_plasma
        + Pbpk.P_Q_liver params / Pbpk.P_V_c params
          * (C_liver / Pbpk.P_K_p params)
        - Pbpk.P_CL_renal params / Pbpk.P_V_c params * C_plasma,
        Pbpk.P_Q_liver params / Pbpk.P_V_liver params * C_plasma
        - Pbpk.P_Q_liver params / Pbpk.P_V_liver params
          * (C_liver / Pbpk.P_K_p params)
        - Pbpk.P_CL_int params * Pbpk.P_f_u params / Pbpk.P_V_liver params
          * C_liver).
Proof.
  intros Hc Hl. unfold Pbpk._ode_system.
  rewrite !div_ok by assumption. reflexivity.
Qed.

(** The volumes of a generated individual, whatever the generator draws:
    the body weight is the clamped weight and the liver volume 2.5% of
    it. *)
Lemma generate_body_volumes {G : Type} `{Np.Random G}
    (st : Engine.ModuleState) (self : Engine.PopulationGenerator)
    (population : list Engine.IndividualCharacteristics) (i : Z) (g g' : G)
    (population' : list Engine.IndividualCharacteristics) :
  Engine.generate_body st self population i g = Ok (population', g') ->
  exists ind p,
    population' = population ++ [ind] /\
    Engine.phys_params ind = Some p /\
    40 <= Pbpk.body_weight p <= 150 /\
    Pbpk.v_liver p = 0.025 * Pbpk.body_weight p.
Proof.
  unfold Engine.generate_body. intros Hs.
  apply rbind_Ok in Hs as (eth & g1 & _ & Hs).
  apply rbind_Ok in Hs as (u & g2 & _ & Hs).
  apply rbind_Ok in Hs as (age & g3 & _ & Hs).
  apply rbind_Ok in Hs as ([[w h] b] & g4 & Hwhb & Hs).
  apply rbind_Ok in Hs as (gt1 & g5 & _ & Hs).
  apply rbind_Ok in Hs as (gt2 & g6 & _ & Hs).
  apply rbind_Ok in Hs as (phys & g7 & Hphys & Hs).
  apply rret_Ok in Hs. injection Hs as -> ->.
  apply sample_anthropometrics_Ok in Hwhb as ((w0 & Hw) & _ & _).
  unfold Engine._generate_physiological_params in Hphys.
  apply rbind_Ok in Hphys as (v & g8 & _ & Hphys).
  apply rret_Ok in Hphys. injection Hphys as -> _.
  eexists. eexists. split; [reflexivity |]. split; [reflexivity |].
  cbn [Pbpk.body_weight Pbpk.v_liver].
  split; [rewrite Hw; apply clamp_range; lra | reflexivity].
Qed.

Lemma generate_volumes {G : Type} `{Np.Random G}
    (st : Engine.ModuleState) (self : Engine.PopulationGenerator)
    (g g' : G) (population : list Engine.IndividualCharacteristics) :
  Engine.generate st self g = Ok (population, g') ->
  forall ind, In ind population ->
    exists p,
      Engine.phys_params ind = Some p /\
      40 <= Pbpk.body_weight p <= 150 /\
      Pbpk.v_liver p = 0.025 * Pbpk.body_weight p.
Proof.
  unfold Engine.generate.
  assert (Hloop : forall idx pop0 pop1 (g0 g1 : G),
             Np.rfor_each (Engine.generate_body st self) pop0 idx g0 =
               Ok (pop1, g1) ->
             forall ind, In ind pop1 ->
               In ind pop0 \/
               exists p,
                 Engine.phys_params ind = Some p /\
                 40 <= Pbpk.body_weight p <= 150 /\
                 Pbpk.v_liver p = 0.025 * Pbpk.body_weight p).
  { induction idx as [| i idx IH]; intros pop0 pop1 g0 g1 Hs ind Hin;
      simpl in Hs.
    - apply rret_Ok in Hs. injection Hs as <- _. now left.
    - apply rbind_Ok in Hs as (pop & g2 & Hbody & Hs).
      apply generate_body_volumes in Hbody as (new & p & -> & Hp & Hvol).
      destruct (IH _ _ _ _ Hs ind Hin) as [Hold | Hnew]; [| now right].
      apply in_app_or in Hold as [Hold | [<- | []]]; [now left |].
      right. exists p. now split. }
  intros Hs ind Hin.
  destruct (Hloop _ _ _ _ _ Hs ind Hin) as [[] | Hp]. exact Hp.
Qed.

(** C2: for every generated individual the stored intrinsic clearance is
    base clearance x combined activity score x a lognormal(0, 0.3) draw and
    the stored activity score is the combined one.  At solve time the
    clearance in the parameters is the stored clearance times the stored
    activity score again, base clearance x draw x score squared, and these
    are the parameters of the ODE system that [solve] hands to [odeint]:
    for a drug with a non-zero distribution volume and at least one time
    sample, [solve] returns the plasma curve of that integration, and in
    the right-hand side it integrates the liver concentration is cleared at
    the rate (base clearance x draw x score squared) x fu / V_liver. *)
Theorem clearance_compounds_activity_score
    {G : Type} `{Np.Random G} `{!Np.RandomLaws G}
    `{Np.OdeSolver} `{!Np.OdeSolverLaws} :
  forall (st : Engine.ModuleState) (self : Engine.PopulationGenerator)
         (g g' : G) (population : list Engine.IndividualCharacteristics),
    Engine.generate st self g = Ok (population, g') ->
    forall ind, In ind population ->
      exists (phys : Pbpk.PhysiologicalParameters) (v : R) (g1 g2 : G),
        Engine.phys_params ind = Some phys /\
        Np.lognormal 0 0.3 g1 = Ok (v, g2) /\
        Pbpk.cl_int phys =
          Engine.base_cl_int self * Engine.combined_activity_score ind * v /\
        Pbpk.activity_score phys = Engine.combined_activity_score ind /\
        forall (drug : Pbpk.DrugParameters) (cfg : Pbpk.SimulationConfig),
          let model := Pbpk.PBPKModel_init (Some drug) (Some phys) (Some cfg) in
          let effective_cl_int :=
            Engine.base_cl_int self * v *
            (Engine.combined_activity_score ind *
             Engine.combined_activity_score ind) in
          Pbpk.P_CL_int (Pbpk.solve_params model) =
            Pbpk.cl_int phys * Pbpk.activity_score phys /\
          Pbpk.P_CL_int (Pbpk.solve_params model) = effective_cl_int /\
          (forall r, Pbpk.solve model = Ok r ->
             Pbpk.P_CL_int (Pbpk.parameters r) =
               Pbpk.P_CL_int (Pbpk.solve_params model)) /\
          (Pbpk.v_d drug <> 0 ->
           (1 <= Pbpk.n_points cfg)%Z ->
           exists t y0 sol r,
             Np.linspace 0 (Pbpk.t_max cfg) (Pbpk.n_points cfg) = Ok t /\
             Np.odeint
               (fun y s => Pbpk._ode_system y s (Pbpk.solve_params model))
               y0 t = Ok sol /\
             Pbpk.solve model = Ok r /\
             Pbpk.c_plasma r = map (fun y => snd (fst y) * 1000) sol /\
             forall A_gut C_plasma C_liver s,
               exists dA_gut_dt dC_plasma_dt,
                 Pbpk._ode_system (A_gut, C_plasma, C_liver) s
                   (Pbpk.solve_params model) =
                   Ok (dA_gut_dt, dC_plasma_dt,
                       Pbpk.q_liver phys / Pbpk.v_liver phys * C_plasma
                       - Pbpk.q_liver phys / Pbpk.v_liver phys
                         * (C_liver / Pbpk.k_p_liver model)
                       - effective_cl_int * Pbpk.f_u drug
                         / Pbpk.v_liver phys * C_liver)).
Proof.
  intros st self g g' population Hgen ind Hin.
  destruct (generate_volumes st self g g' population Hgen ind Hin)
    as (p & Hp' & Hbw & Hvl).
  apply generate_Ok in Hgen as [Hall _].
  rewrite Forall_forall in Hall.
  assert (Hind := Hall ind (proj2 (list_elem_of_In _ _) Hin)).
  destruct Hind as [_ _ _ _ _ _ _ _ _ _ (v & g1 & g2 & phys & Hv & Hp & _ & Hcl & Has)].
  assert (p = phys) by congruence. subst p.
  exists phys, v, g1, g2.
  split; [exact Hp |]. split; [exact Hv |]. split; [exact Hcl |].
  split; [exact Has |].
  intros drug cfg model effective_cl_int.
  assert (Heff : Pbpk.P_CL_int (Pbpk.solve_params model) = effective_cl_int).
  { unfold effective_cl_int. cbn. rewrite Hcl, Has. ring. }
  split; [reflexivity |]. split; [exact Heff |]. split.
  { intros r Hr. now rewrite (solve_parameters _ _ Hr). }
  intros Hvd Hn.
  assert (Hc : Pbpk.P_V_c (Pbpk.solve_params model) <> 0).
  { cbn. apply Rmult_integral_contrapositive_currified; lra. }
  assert (Hl : Pbpk.v_liver (Pbpk.phys model) <> 0) by (cbn; lra).
  destruct (solve_spec model Hn Hc Hl)
    as (t & y0 & sol & r & Ht & _ & Hsol & Hr & _ & Hcp & _).
  exists t, y0, sol, r.
  split; [exact Ht |]. split; [exact Hsol |]. split; [exact Hr |].
  split; [exact Hcp |].
  intros A_gut C_plasma C_liver s.
  rewrite (ode_system_value A_gut C_plasma C_liver s _ Hc Hl), Heff.
  eexists. eexists. reflexivity.
Qed.

Lemma clearance_compounds_activity_score_example :
  exists population g',
    Engine.generate Concrete.tables Concrete.two_subjects 0%nat =
      Ok (population, g') /\
    length population = 2%nat /\
    forall ind, In ind population ->
      exists (phys : Pbpk.PhysiologicalParameters) (v : R) (g1 g2 : nat),
        Engine.phys_params ind = Some phys /\
        Np.lognormal 0 0.3 g1 = Ok (v, g2) /\
        Pbpk.cl_int phys =
          Engine.base_cl_int Concrete.two_subjects *
          Engine.combined_activity_score ind * v /\
        Pbpk.activity_score phys = Engine.combined_activity_score ind /\
        let model :=
          Pbpk.PBPKModel_init (Some Concrete.test_drug) (Some phys)
            (Some Concrete.test_config) in
        let effective_cl_int :=
          Engine.base_cl_int Concrete.two_subjects * v *
          (Engine.combined_activity_score ind *
           Engine.combined_activity_score ind) in
        Pbpk.P_CL_int (Pbpk.solve_params model) = effective_cl_int /\
        exists t y0 sol r,
          Np.linspace 0 (Pbpk.t_max Concrete.test_config)
            (Pbpk.n_points Concrete.test_config) = Ok t /\
          Np.odeint
            (fun y s => Pbpk._ode_system y s (Pbpk.solve_params model))
            y0 t = Ok sol /\
          Pbpk.solve model = Ok r /\
          Pbpk.c_plasma r = map (fun y => snd (fst y) * 1000) sol /\
          forall A_gut C_plasma C_liver s,
            exists dA_gut_dt dC_plasma_dt,
              Pbpk._ode_system (A_gut, C_plasma, C_liver) s
                (Pbpk.solve_params model) =
                Ok (dA_gut_dt, dC_plasma_dt,
                    Pbpk.q_liver phys / Pbpk.v_liver phys * C_plasma
                    - Pbpk.q_liver phys / Pbpk.v_liver phys
                      * (C_liver / Pbpk.k_p_liver model)
                    - effective_cl_int * Pbpk.f_u Concrete.test_drug
                      / Pbpk.v_liver phys * C_liver).
Proof.
  destruct two_subjects_generate_Ok as (population & g' & Hgen & Hlen).
  exists population, g'. split; [exact Hgen |]. split; [exact Hlen |].
  intros ind Hin.
  destruct (@clearance_compounds_activity_score nat _ counting_random_laws
              Concrete.euler euler_laws Concrete.tables Concrete.two_subjects
              0%nat g' population Hgen ind Hin)
    as (phys & v & g1 & g2 & Hp & Hv & Hcl & Has & Hsolve).
  exists phys, v, g1, g2.
  split; [exact Hp |]. split; [exact Hv |]. split; [exact Hcl |].
  split; [exact Has |].
  destruct (Hsolve Concrete.test_drug Concrete.test_config)
    as (_ & Heff & _ & Hode).
  split; [exact Heff |].
  apply Hode; [simpl; lra | simpl; lia].
Defined.

(** ** Sorting and percentiles *)

Lemma insert_sorted_perm (x : R) (l : list R) :
  Permutation (Np.insert_sorted x l) (x :: l).
Proof.
  induction l as [| y l IH]; simpl; [reflexivity |].
  destruct (Rleb x y); [reflexivity |].
  rewrite IH. apply perm_swap.
Qed.

Lemma sort_perm (l : list R) : Permutation (Np.sort l) l.
Proof.
  induction l as [| x l IH]; simpl; [reflexivity |].
  rewrite insert_sorted_perm. now constructor.
Qed.

Lemma sort_length (l : list R) : length (Np.sort l) = length l.
Proof. apply Permutation_length, sort_perm. Qed.

Lemma insert_sorted_sorted (x : R) (l : list R) :
  StronglySorted Rle l -> StronglySorted Rle (Np.insert_sorted x l).
Proof.
  induction 1 as [| y l Hl IH Hy]; simpl.
  - repeat constructor.
  - unfold Rleb. destruct (Rle_dec x y) as [Hxy | Hxy].
    + constructor; [now constructor |].
      constructor; [exact Hxy |].
      eapply Forall_impl; [exact Hy |]. intros z Hz. simpl in Hz. lra.
    + constructor; [exact IH |].
      rewrite insert_sorted_perm. constructor; [lra | exact Hy].
Qed.

Lemma sort_sorted (l : list R) : StronglySorted Rle (Np.sort l).
Proof.
  induction l as [| x l IH]; simpl; [constructor |].
  now apply insert_sorted_sorted.
Qed.

Lemma sorted_nth_le (s : list R) (i j : nat) :
  StronglySorted Rle s ->
  (i <= j)%nat -> (j < length s)%nat ->
  nth i s 0 <= nth j s 0.
Proof.
  intros Hs. revert i j.
  induction Hs as [| x s Hs IH Hx]; intros i j Hij Hj; simpl in Hj; [lia |].
  destruct i as [| i]; destruct j as [| j]; simpl; try lia; try lra.
  - rewrite Forall_forall in Hx. apply Hx.
    apply list_elem_of_In, nth_In. lia.
  - apply IH; lia.
Qed.

(** In a sorted list, whatever exceeds a bound that the entry of index [k]
    respects lies after index [k]. *)
Lemma sorted_count_above (s : list R) (k : nat) (p : R) :
  StronglySorted Rle s ->
  (k < length s)%nat ->
  nth k s 0 <= p ->
  (length (filter (fun c : R => (p < c)%R) s) <= length s - S k)%nat.
Proof.
  intros Hs. revert k.
  induction Hs as [| x s Hs IH Hx]; intros k Hk Hp; simpl in Hk; [lia |].
  assert (Hxp : x <= p).
  { destruct k as [| k]; [exact Hp |]. simpl in Hp.
    rewrite Forall_forall in Hx.
    assert (x <= nth k s 0)
      by (apply Hx, list_elem_of_In, nth_In; lia).
    lra. }
  rewrite filter_cons, decide_False by lra.
  destruct k as [| k].
  - simpl. pose proof (length_filter (fun c => p < c) s). lia.
  - simpl in Hp. specialize (IH k ltac:(lia) Hp). simpl. lia.
Qed.

(** The rank at which [percentile] reads the sorted array. *)
Lemma percentile_rank (n : nat) (q : R) :
  0 <= q <= 100 ->
  let pos := q / 100 * INR (n - 1) in
  let lo := Z.to_nat (Int_part pos) in
  (lo <= n - 1)%nat /\ 0 <= pos - INR lo < 1.
Proof.
  intros Hq pos lo.
  assert (Hn : 0 <= INR (n - 1)) by apply pos_INR.
  assert (Hpos : 0 <= pos <= INR (n - 1)) by (unfold pos; split; nra).
  destruct (base_Int_part pos) as [Hle Hgt].
  assert (Hz : (0 <= Int_part pos)%Z).
  { assert (H1 : IZR (-1) < IZR (Int_part pos)) by lra.
    apply lt_IZR in H1. lia. }
  assert (Hlo : INR lo = IZR (Int_part pos)).
  { unfold lo. rewrite INR_IZR_INZ, Z2Nat.id by exact Hz. reflexivity. }
  split.
  - apply INR_le. rewrite Hlo. lra.
  - rewrite Hlo. lra.
Qed.

(** The interpolated percentile lies between the two entries it reads,
    which are entries of the array. *)
Lemma percentile_between (a : list R) (q : R) :
  a <> [] ->
  0 <= q <= 100 ->
  let s := Np.sort a in
  let lo := Z.to_nat (Int_part (q / 100 * INR (length a - 1))) in
  let hi := Nat.min (lo + 1) (length a - 1) in
  (lo <= hi)%nat /\ (hi < length a)%nat /\
  nth lo s 0 <= Np.percentile a q <= nth hi s 0.
Proof.
  intros Hne Hq s lo hi.
  destruct (percentile_rank (length a) q Hq) as [Hlo Hg].
  fold lo in Hlo, Hg.
  assert (Hlen : (0 < length a)%nat) by (destruct a; [congruence | simpl; lia]).
  assert (Hlh : (lo <= hi)%nat) by (unfold hi; lia).
  assert (Hhi : (hi < length a)%nat) by (unfold hi; lia).
  split; [exact Hlh |]. split; [exact Hhi |].
  assert (Hmono : nth lo s 0 <= nth hi s 0).
  { apply sorted_nth_le; [apply sort_sorted | exact Hlh |].
    unfold s. now rewrite sort_length. }
  unfold Np.percentile. fold s lo hi.
  set (gam := q / 100 * INR (length a - 1) - INR lo) in *.
  split; nra.
Qed.

Lemma percentile_entry_In (a : list R) (i : nat) :
  (i < length a)%nat -> In (nth i (Np.sort a) 0) a.
Proof.
  intros Hi. apply (Permutation_in _ (sort_perm a)).
  apply nth_In. now rewrite sort_length.
Qed.

(** A percentile of a non-empty array respects every bound of the array. *)
Lemma percentile_bounds (a : list R) (q lo hi : R) :
  a <> [] ->
  0 <= q <= 100 ->
  (forall c, In c a -> lo <= c <= hi) ->
  lo <= Np.percentile a q <= hi.
Proof.
  intros Hne Hq Hb.
  destruct (percentile_between a q Hne Hq) as (Hlh & Hhi & Hp).
  cbv zeta in Hp.
  set (l := Z.to_nat (Int_part (q / 100 * INR (length a - 1)))) in *.
  set (h := Nat.min (l + 1) (length a - 1)) in *.
  destruct (Hb _ (percentile_entry_In a l ltac:(lia))) as [H1 _].
  destruct (Hb _ (percentile_entry_In a h Hhi)) as [_ H2].
  lra.
Qed.

Lemma filter_length_mono (P Q : R -> Prop)
    `{!forall x, Decision (P x)} `{!forall x, Decision (Q x)} (l : list R) :
  (forall x, P x -> Q x) ->
  (length (filter P l) <= length (filter Q l))%nat.
Proof.
  intros HPQ. induction l as [| x l IH]; [reflexivity |].
  rewrite !filter_cons.
  destruct (decide (P x)) as [HP | HP]; destruct (decide (Q x)) as [HQ | HQ];
    simpl; try lia.
  exfalso. now apply HQ, HPQ.
Qed.

(** At most 5% of [n - 1], rounded up, of the entries exceed a threshold
    at or above the 95th percentile. *)
Lemma count_above_percentile_95 (a : list R) (thr : R) :
  a <> [] ->
  Np.percentile a 95 <= thr ->
  INR (length (filter (fun c => thr < c) a)) < 0.05 * (INR (length a) - 1) + 1.
Proof.
  intros Hne Hthr.
  assert (Hq : 0 <= 95 <= 100) by lra.
  destruct (percentile_between a 95 Hne Hq) as (Hlh & Hhi & Hp).
  destruct (percentile_rank (length a) 95 Hq) as [Hlo Hg].
  cbv zeta in Hp, Hlo, Hg.
  set (l := Z.to_nat (Int_part (95 / 100 * INR (length a - 1)))) in *.
  assert (Hlen : (0 < length a)%nat) by (destruct a; [congruence | simpl; lia]).
  assert (Hcount :
            (length (filter (fun c : R => (thr < c)%R) a) <= length a - S l)%nat).
  { transitivity (length (filter (fun c => Np.percentile a 95 < c) a)).
    - apply filter_length_mono. intros x Hx. lra.
    - rewrite <- (Permutation_length
                    (filter_Permutation (fun c => Np.percentile a 95 < c) _ _
                       (sort_perm a))).
      rewrite <- (sort_length a).
      apply sorted_count_above; [apply sort_sorted | | lra].
      rewrite sort_length. lia. }
  apply le_INR in Hcount.
  rewrite minus_INR in Hcount by lia.
  rewrite S_INR in Hcount.
  rewrite minus_INR in Hg by lia. simpl INR in Hg.
  lra.
Qed.

Lemma count_true_map (thr : R) (l : list R) :
  Pbpk.count_true (map (fun c => Rltb thr c) l) =
    length (filter (fun c => thr < c) l).
Proof.
  unfold Pbpk.count_true.
  induction l as [| x l IH]; [reflexivity |].
  simpl map. rewrite !filter_cons.
  destruct (Rlt_dec thr x) as [Hx | Hx].
  - rewrite (Rltb_true _ _ Hx).
    rewrite decide_True by reflexivity. rewrite decide_True by exact Hx.
    simpl. now rewrite IH.
  - rewrite (Rltb_false thr x) by lra.
    rewrite decide_False by discriminate. rewrite decide_False by exact Hx.
    exact IH.
Qed.

(** ** Safety margin *)

(** C7: the safety-margin analysis depends on nothing but the Cmax
    distribution and the threshold; for a non-empty distribution it returns
    the total count, the count and the percentage of the values above the
    threshold, the 95th percentile of the distribution (a value within the
    range of the distribution, above which fewer than 5% + 1/n of the
    values lie), and the ratio of the threshold to that percentile. *)
Theorem safety_margin_analysis :
  forall (cmax_distribution : list R) (toxic_threshold : R),
    cmax_distribution <> [] ->
    exists r : Engine.SafetyMargin,
      Engine.calculate_safety_margin cmax_distribution toxic_threshold = Ok r /\
      Engine.toxic_threshold r = toxic_threshold /\
      Engine.n_total r = Z.of_nat (length cmax_distribution) /\
      Engine.n_exceeding_threshold r =
        Z.of_nat (length (filter (fun c => toxic_threshold < c)
                            cmax_distribution)) /\
      (0 <= Engine.n_exceeding_threshold r <= Engine.n_total r)%Z /\
      Engine.percentage_exceeding r =
        IZR (Engine.n_exceeding_threshold r) / IZR (Engine.n_total r) * 100 /\
      0 <= Engine.percentage_exceeding r <= 100 /\
      Engine.cmax_95th_percentile r = Np.percentile cmax_distribution 95 /\
      (forall lo hi,
         (forall c, In c cmax_distribution -> lo <= c <= hi) ->
         lo <= Engine.cmax_95th_percentile r <= hi) /\
      (Engine.cmax_95th_percentile r <= toxic_threshold ->
       Engine.percentage_exceeding r <
         5 + 100 / INR (length cmax_distribution)) /\
      Engine.safety_ratio r =
        toxic_threshold / Engine.cmax_95th_percentile r /\
      (Engine.cmax_95th_percentile r <> 0 ->
       Engine.safety_ratio r * Engine.cmax_95th_percentile r = toxic_threshold).
Proof.
  intros a thr Hne.
  unfold Engine.calculate_safety_margin.
  destruct (Np.amax a) as [m | e] eqn:Hmax;
    [| destruct a; [congruence | discriminate]].
  cbn [Py.bind]. eexists. split; [reflexivity |].
  cbn [Engine.toxic_threshold Engine.n_total Engine.n_exceeding_threshold
       Engine.percentage_exceeding Engine.cmax_95th_percentile
       Engine.safety_ratio].
  rewrite count_true_map.
  set (k := length (filter (fun c => thr < c) a)).
  set (n := length a).
  assert (Hn : (0 < n)%nat) by (unfold n; destruct a; [congruence | simpl; lia]).
  assert (Hk : (k <= n)%nat) by apply length_filter.
  assert (HnR : 0 < INR n) by (apply lt_0_INR; exact Hn).
  assert (HkR : 0 <= INR k <= INR n) by (split; [apply pos_INR | now apply le_INR]).
  rewrite <- !INR_IZR_INZ.
  assert (Hinv : 0 < / INR n) by now apply Rinv_0_lt_compat.
  assert (Hone : INR n * / INR n = 1) by (apply Rinv_r; lra).
  assert (Hpct : 0 <= INR k / INR n * 100 <= 100)
    by (unfold Rdiv; split; nra).
  split; [reflexivity |]. split; [reflexivity |]. split; [reflexivity |].
  split; [lia |]. split; [reflexivity |]. split; [exact Hpct |].
  split; [reflexivity |]. split.
  { intros lo hi Hb. apply percentile_bounds; [exact Hne | lra | exact Hb]. }
  split.
  { intros Hp95.
    pose proof (count_above_percentile_95 a thr Hne Hp95) as Hc.
    fold k n in Hc.
    apply Rlt_le_trans with (r2 := (0.05 * (INR n - 1) + 1) / INR n * 100).
    - apply Rmult_lt_compat_r; [lra |].
      apply Rmult_lt_compat_r; [now apply Rinv_0_lt_compat | exact Hc].
    - unfold Rdiv. nra. }
  split; [reflexivity |].
  intros Hnz. field. exact Hnz.
Qed.

Lemma safety_margin_analysis_example :
  exists r : Engine.SafetyMargin,
    Engine.calculate_safety_margin [100; 250; 400] 300 = Ok r /\
    Engine.toxic_threshold r = 300 /\
    Engine.n_total r = Z.of_nat (length [100; 250; 400]) /\
    Engine.n_exceeding_threshold r =
      Z.of_nat (length (filter (fun c => 300 < c) [100; 250; 400])) /\
    (0 <= Engine.n_exceeding_threshold r <= Engine.n_total r)%Z /\
    Engine.percentage_exceeding r =
      IZR (Engine.n_exceeding_threshold r) / IZR (Engine.n_total r) * 100 /\
    0 <= Engine.percentage_exceeding r <= 100 /\
    Engine.cmax_95th_percentile r = Np.percentile [100; 250; 400] 95 /\
    (forall lo hi,
       (forall c, In c [100; 250; 400] -> lo <= c <= hi) ->
       lo <= Engine.cmax_95th_percentile r <= hi) /\
    (Engine.cmax_95th_percentile r <= 300 ->
     Engine.percentage_exceeding r < 5 + 100 / INR (length [100; 250; 400])) /\
    Engine.safety_ratio r = 300 / Engine.cmax_95th_percentile r /\
    (Engine.cmax_95th_percentile r <> 0 ->
     Engine.safety_ratio r * Engine.cmax_95th_percentile r = 300).
Proof.
  apply (safety_margin_analysis [100; 250; 400] 300). discriminate.
Defined.

(** ** Population simulation *)

Lemma lookup_map {A B : Type} (f : A -> B) (l : list A) (i : nat) :
  map f l !! i = option_map f (l !! i).
Proof.
  revert i. induction l as [| x l IH]; intros [| i]; simpl; auto.
Qed.

Lemma along_axis0_length (red : list R -> R) (m : list (list R)) (cols : nat) :
  length (Pbpk.along_axis0 red m cols) = cols.
Proof. unfold Pbpk.along_axis0. now rewrite length_map, length_seq. Qed.

Lemma along_axis0_nth (red : list R -> R) (m : list (list R)) (cols j : nat) :
  (j < cols)%nat ->
  nth j (Pbpk.along_axis0 red m cols) 0 = red (Pbpk.column j m).
Proof. intros Hj. unfold Pbpk.along_axis0. now rewrite nth_map_seq. Qed.

Section SimulationFacts.
Context `{Np.OdeSolver} `{!Np.OdeSolverLaws}.
Variable drug : Pbpk.DrugParameters.
Variable cfg : Pbpk.SimulationConfig.
Hypothesis Hpoints : (1 <= Pbpk.n_points cfg)%Z.

Let cols : nat := Z.to_nat (Pbpk.n_points cfg).
Let model (p : Pbpk.PhysiologicalParameters) : Pbpk.PBPKModel :=
  Pbpk.PBPKModel_init (Some drug) (Some p) (Some cfg).
Let volumes_ok (p : Pbpk.PhysiologicalParameters) : Prop :=
  Pbpk.v_d drug * Pbpk.body_weight p <> 0 /\ Pbpk.v_liver p <> 0.

(** What the loop records of one individual. *)
Let solved (grid : list R) (p : Pbpk.PhysiologicalParameters)
    (sr : Pbpk.SolveResult) : Prop :=
  Pbpk.solve (model p) = Ok sr /\
  Pbpk.time sr = grid /\
  length (Pbpk.c_plasma sr) = cols.

Lemma solve_individual (p : Pbpk.PhysiologicalParameters) (grid : list R) :
  Np.linspace 0 (Pbpk.t_max cfg) (Pbpk.n_points cfg) = Ok grid ->
  volumes_ok p ->
  exists sr, solved grid p sr.
Proof.
  intros Hgrid [Hc Hl].
  destruct (solve_spec (model p) Hpoints Hc Hl)
    as (t & y0 & sol & r & Ht & _ & _ & Hr & Htime & _ & Hlen & _).
  exists r. repeat split; try assumption.
  assert (Ht' : Np.linspace 0 (Pbpk.t_max cfg) (Pbpk.n_points cfg) = Ok t)
    by exact Ht.
  congruence.
Qed.

(** The loop of [run_population_simulation], started at row [i]: the rows
    [i], [i + 1], ... receive the curves of the individuals in order, the
    metrics are appended in order, and the grid of the first individual
    is kept. *)
Lemma simulation_loop (grid : list R) (ps : list Pbpk.PhysiologicalParameters) :
  Np.linspace 0 (Pbpk.t_max cfg) (Pbpk.n_points cfg) = Ok grid ->
  Forall volumes_ok ps ->
  forall (i : nat) (time : option (list R)) (m : list (list R))
         (metrics : list Pbpk.PKMetrics),
    (i + length ps <= length m)%nat ->
    exists rs,
      Forall2 (solved grid) ps rs /\
      Py.for_each (Pbpk.simulation_body drug cfg) (time, m, metrics)
        (zip (seq i (length ps)) ps) =
        Ok (match time, ps with
            | None, _ :: _ => Some grid
            | _, _ => time
            end,
            take i m ++ map Pbpk.c_plasma rs ++ drop (i + length ps) m,
            metrics ++ map Pbpk.pk_metrics rs).
Proof.
  intros Hgrid Hps.
  induction Hps as [| p ps Hp Hps IH]; intros i time m metrics Hlen.
  - exists []. split; [constructor |]. simpl.
    rewrite Nat.add_0_r, take_drop, app_nil_r.
    destruct time; reflexivity.
  - destruct (solve_individual p grid Hgrid Hp) as (sr & Hsr & Htime & Hrow).
    simpl in Hlen.
    set (m1 := <[i := Pbpk.c_plasma sr]> m).
    set (time1 := match time with
                  | Some _ => time
                  | None => Some grid
                  end).
    destruct (IH (S i) time1 m1 (metrics ++ [Pbpk.pk_metrics sr]))
      as (rs & Hrs & Hloop).
    { unfold m1. rewrite length_insert. lia. }
    exists (sr :: rs). split; [constructor; [now repeat split | exact Hrs] |].
    assert (Hbody :
              Pbpk.simulation_body drug cfg (time, m, metrics) (i, p) =
                Ok (time1, m1, metrics ++ [Pbpk.pk_metrics sr])).
    { unfold Pbpk.simulation_body. fold (model p).
      rewrite Hsr. cbn [Py.bind]. unfold Pbpk.assign_row. fold cols.
      rewrite Hrow, Nat.eqb_refl. cbn [Py.bind]. fold m1.
      rewrite Htime. reflexivity. }
    change (zip (seq i (length (p :: ps))) (p :: ps))
      with ((i, p) :: zip (seq (S i) (length ps)) ps).
    cbn [Py.for_each]. rewrite Hbody, Hloop.
    assert (Htake : take (S i) m1 = take i m ++ [Pbpk.c_plasma sr]).
    { rewrite (take_S_r m1 i (Pbpk.c_plasma sr)).
      - unfold m1. now rewrite take_insert_ge.
      - unfold m1. apply list_lookup_insert_eq. lia. }
    assert (Hdrop : drop (S i + length ps) m1 = drop (i + S (length ps)) m).
    { unfold m1. rewrite drop_insert_lt by lia. f_equal. lia. }
    rewrite Htake, Hdrop, <- !app_assoc. simpl.
    f_equal. f_equal. f_equal.
    unfold time1. destruct time; destruct ps; reflexivity.
Qed.

End SimulationFacts.

(** C6: for a cohort of N >= 1 individuals, at least two time samples and
    non-zero central and liver volumes, the population simulation returns:
    the grid of n_points samples, sample i at i * t_max / (n_points - 1), so
    from 0 to t_max inclusive, which is the grid of every individual's
    solve; an N x n_points matrix whose row i is the curve of individual i;
    mean, standard deviation, 5th and 95th percentile arrays of length
    n_points, entry j reducing column j of the matrix; and Cmax and AUC
    arrays of length N whose entry i is the metric of individual i. *)
Theorem population_simulation_shape
    `{Np.OdeSolver} `{!Np.OdeSolverLaws} :
  forall (drug : Pbpk.DrugParameters)
         (population : list Pbpk.PhysiologicalParameters)
         (cfg : Pbpk.SimulationConfig),
    population <> [] ->
    (2 <= Pbpk.n_points cfg)%Z ->
    (forall p, In p population ->
       Pbpk.v_d drug * Pbpk.body_weight p <> 0 /\ Pbpk.v_liver p <> 0) ->
    let N := length population in
    let n := Z.to_nat (Pbpk.n_points cfg) in
    exists (r : Pbpk.SimulationResult) (grid : list R),
      Pbpk.run_population_simulation drug population cfg = Ok r /\
      Pbpk.sim_time r = Some grid /\
      length grid = n /\
      (forall i, (i < n)%nat ->
         nth i grid 0 = INR i * (Pbpk.t_max cfg / INR (n - 1))) /\
      nth 0 grid 0 = 0 /\
      nth (n - 1) grid 0 = Pbpk.t_max cfg /\
      length (Pbpk.individual_curves r) = N /\
      (forall i p, population !! i = Some p ->
         exists sr,
           Pbpk.solve (Pbpk.PBPKModel_init (Some drug) (Some p) (Some cfg)) =
             Ok sr /\
           Pbpk.time sr = grid /\
           length (Pbpk.c_plasma sr) = n /\
           Pbpk.individual_curves r !! i = Some (Pbpk.c_plasma sr) /\
           Pbpk.cmax_distribution r !! i = Some (Pbpk.cmax (Pbpk.pk_metrics sr)) /\
           Pbpk.auc_distribution r !! i = Some (Pbpk.auc (Pbpk.pk_metrics sr))) /\
      length (Pbpk.mean_concentration r) = n /\
      length (Pbpk.std_concentration r) = n /\
      length (Pbpk.ci_lower r) = n /\
      length (Pbpk.ci_upper r) = n /\
      (forall j, (j < n)%nat ->
         let column := Pbpk.column j (Pbpk.individual_curves r) in
         length column = N /\
         nth j (Pbpk.mean_concentration r) 0 = Np.mean column /\
         nth j (Pbpk.std_concentration r) 0 = Np.std column /\
         nth j (Pbpk.ci_lower r) 0 = Np.percentile column 5 /\
         nth j (Pbpk.ci_upper r) 0 = Np.percentile column 95) /\
      length (Pbpk.cmax_distribution r) = N /\
      length (Pbpk.auc_distribution r) = N.
Proof.
  intros drug population cfg Hne Hpoints Hvol N n.
  assert (Hgrid := linspace_ok 0 (Pbpk.t_max cfg) (Pbpk.n_points cfg)
                     ltac:(lia)).
  set (grid := map _ _) in Hgrid.
  assert (Hps : Forall (fun p => Pbpk.v_d drug * Pbpk.body_weight p <> 0 /\
                                 Pbpk.v_liver p <> 0) population).
  { apply Forall_forall. intros p Hp. now apply Hvol, list_elem_of_In. }
  set (zero := replicate N (replicate n 0)).
  destruct (simulation_loop drug cfg ltac:(lia) grid population Hgrid Hps
              0%nat None zero [])
    as (rs & Hrs & Hloop).
  { unfold zero. rewrite length_replicate. unfold N. lia. }
  assert (Hlen_rs : length rs = N)
    by (symmetry; eapply Forall2_length; exact Hrs).
  assert (Hrun :
            Pbpk.run_population_simulation drug population cfg =
              Ok {| Pbpk.sim_time := Some grid;
                    Pbpk.individual_curves := map Pbpk.c_plasma rs;
                    Pbpk.mean_concentration :=
                      Pbpk.along_axis0 Np.mean (map Pbpk.c_plasma rs) n;
                    Pbpk.std_concentration :=
                      Pbpk.along_axis0 Np.std (map Pbpk.c_plasma rs) n;
                    Pbpk.ci_lower :=
                      Pbpk.along_axis0 (fun a => Np.percentile a 5)
                        (map Pbpk.c_plasma rs) n;
                    Pbpk.ci_upper :=
                      Pbpk.along_axis0 (fun a => Np.percentile a 95)
                        (map Pbpk.c_plasma rs) n;
                    Pbpk.cmax_distribution :=
                      map Pbpk.cmax (map Pbpk.pk_metrics rs);
                    Pbpk.auc_distribution :=
                      map Pbpk.auc (map Pbpk.pk_metrics rs);
                    Pbpk.pk_metrics_list := map Pbpk.pk_metrics rs |}).
  { unfold Pbpk.run_population_simulation, Pbpk.zeros.
    destruct (Pbpk.n_points cfg <? 0)%Z eqn:Hneg;
      [apply Z.ltb_lt in Hneg; lia |].
    cbn [Py.bind]. unfold Py.enumerate. fold N n zero.
    change (length population) with N in Hloop. rewrite Hloop.
    cbn [Py.bind].
    rewrite take_0, drop_ge, app_nil_r
      by (unfold zero; rewrite length_replicate; unfold N; simpl; lia).
    destruct population; [congruence |].
    destruct rs; [discriminate Hlen_rs | reflexivity]. }
  exists {| Pbpk.sim_time := Some grid;
            Pbpk.individual_curves := map Pbpk.c_plasma rs;
            Pbpk.mean_concentration :=
              Pbpk.along_axis0 Np.mean (map Pbpk.c_plasma rs) n;
            Pbpk.std_concentration :=
              Pbpk.along_axis0 Np.std (map Pbpk.c_plasma rs) n;
            Pbpk.ci_lower :=
              Pbpk.along_axis0 (fun a => Np.percentile a 5)
                (map Pbpk.c_plasma rs) n;
            Pbpk.ci_upper :=
              Pbpk.along_axis0 (fun a => Np.percentile a 95)
                (map Pbpk.c_plasma rs) n;
            Pbpk.cmax_distribution := map Pbpk.cmax (map Pbpk.pk_metrics rs);
            Pbpk.auc_distribution := map Pbpk.auc (map Pbpk.pk_metrics rs);
            Pbpk.pk_metrics_list := map Pbpk.pk_metrics rs |}, grid.
  cbn [Pbpk.sim_time Pbpk.individual_curves Pbpk.mean_concentration
       Pbpk.std_concentration Pbpk.ci_lower Pbpk.ci_upper
       Pbpk.cmax_distribution Pbpk.auc_distribution].
  assert (Hnth : forall i, (i < n)%nat ->
             nth i grid 0 = INR i * (Pbpk.t_max cfg / INR (n - 1))).
  { intros i Hi. unfold grid. rewrite nth_map_seq by exact Hi.
    fold n. unfold Rdiv. ring. }
  split; [exact Hrun |]. split; [reflexivity |].
  split; [unfold grid; now rewrite length_map, length_seq |].
  split; [exact Hnth |].
  split; [rewrite Hnth by (unfold n; lia); simpl; ring |].
  split.
  { rewrite Hnth by (unfold n; lia).
    assert (Hpos : 0 < INR (n - 1)) by (apply lt_0_INR; unfold n; lia).
    field. lra. }
  split; [now rewrite length_map |].
  split.
  { intros i p Hp.
    destruct (Forall2_lookup_l _ _ _ _ _ Hrs Hp) as (sr & Hsr & Hs & Ht & Hl).
    exists sr. rewrite !lookup_map, Hsr. simpl. repeat split; assumption. }
  rewrite !along_axis0_length, !length_map.
  repeat split; try reflexivity; try exact Hlen_rs;
    try (now apply along_axis0_nth).
  unfold Pbpk.column. now rewrite !length_map.
Qed.

Lemma population_simulation_shape_example :
  let population := [Concrete.test_phys; Concrete.test_phys] in
  let N := length population in
  let n := Z.to_nat (Pbpk.n_points Concrete.test_config) in
  exists (r : Pbpk.SimulationResult) (grid : list R),
    Pbpk.run_population_simulation Concrete.test_drug population
      Concrete.test_config = Ok r /\
    Pbpk.sim_time r = Some grid /\
    length grid = n /\
    (forall i, (i < n)%nat ->
       nth i grid 0 = INR i * (Pbpk.t_max Concrete.test_config / INR (n - 1))) /\
    nth 0 grid 0 = 0 /\
    nth (n - 1) grid 0 = Pbpk.t_max Concrete.test_config /\
    length (Pbpk.individual_curves r) = N /\
    (forall i p, population !! i = Some p ->
       exists sr,
         Pbpk.solve
           (Pbpk.PBPKModel_init (Some Concrete.test_drug) (Some p)
              (Some Concrete.test_config)) = Ok sr /\
         Pbpk.time sr = grid /\
         length (Pbpk.c_plasma sr) = n /\
         Pbpk.individual_curves r !! i = Some (Pbpk.c_plasma sr) /\
         Pbpk.cmax_distribution r !! i = Some (Pbpk.cmax (Pbpk.pk_metrics sr)) /\
         Pbpk.auc_distribution r !! i = Some (Pbpk.auc (Pbpk.pk_metrics sr))) /\
    length (Pbpk.mean_concentration r) = n /\
    length (Pbpk.std_concentration r) = n /\
    length (Pbpk.ci_lower r) = n /\
    length (Pbpk.ci_upper r) = n /\
    (forall j, (j < n)%nat ->
       let column := Pbpk.column j (Pbpk.individual_curves r) in
       length column = N /\
       nth j (Pbpk.mean_concentration r) 0 = Np.mean column /\
       nth j (Pbpk.std_concentration r) 0 = Np.std column /\
       nth j (Pbpk.ci_lower r) 0 = Np.percentile column 5 /\
       nth j (Pbpk.ci_upper r) 0 = Np.percentile column 95) /\
    length (Pbpk.cmax_distribution r) = N /\
    length (Pbpk.auc_distribution r) = N.
Proof.
  apply (@population_simulation_shape Concrete.euler euler_laws
           Concrete.test_drug [Concrete.test_phys; Concrete.test_phys]
           Concrete.test_config).
  - discriminate.
  - simpl. lia.
  - intros p [<- | [<- | []]]; simpl; split; lra.
Defined.

(** * Further properties of the code *)

(** ** Partition coefficient and ODE system *)

(** X1: the liver-plasma partition coefficient is always within [1, 50],
    and it is the estimate 0.5 + 0.5 * 10^(0.7 logP - 0.3) * fu itself
    whenever that estimate already lies in the range.  It is the K_p of
    the parameters [solve] hands to [odeint]: with at least one time sample
    and non-zero volumes [solve] returns the plasma curve of that
    integration, whose right-hand side divides the liver concentration by
    this coefficient in both exchange terms. *)
Theorem estimate_kp_liver_range `{Np.OdeSolver} `{!Np.OdeSolverLaws} :
  forall drug : Pbpk.DrugParameters,
    let kp :=
      0.5 + 0.5 * Rpower 10 (0.7 * Pbpk.log_p drug - 0.3) * Pbpk.f_u drug in
    1 <= Pbpk._estimate_kp_liver drug <= 50 /\
    (1 <= kp <= 50 -> Pbpk._estimate_kp_liver drug = kp) /\
    (kp < 1 -> Pbpk._estimate_kp_liver drug = 1) /\
    (50 < kp -> Pbpk._estimate_kp_liver drug = 50) /\
    (forall phys cfg,
       Pbpk.P_K_p
         (Pbpk.solve_params (Pbpk.PBPKModel_init (Some drug) phys cfg))
         = Pbpk._estimate_kp_liver drug) /\
    forall (phys : Pbpk.PhysiologicalParameters)
           (cfg : Pbpk.SimulationConfig),
      Pbpk.v_d drug * Pbpk.body_weight phys <> 0 ->
      Pbpk.v_liver phys <> 0 ->
      (1 <= Pbpk.n_points cfg)%Z ->
      let model := Pbpk.PBPKModel_init (Some drug) (Some phys) (Some cfg) in
      let params := Pbpk.solve_params model in
      exists t y0 sol r,
        Np.linspace 0 (Pbpk.t_max cfg) (Pbpk.n_points cfg) = Ok t /\
        Np.odeint (fun y s => Pbpk._ode_system y s params) y0 t = Ok sol /\
        Pbpk.solve model = Ok r /\
        Pbpk.c_plasma r = map (fun y => snd (fst y) * 1000) sol /\
        Pbpk.P_K_p (Pbpk.parameters r) = Pbpk._estimate_kp_liver drug /\
        forall A_gut C_plasma C_liver s,
          Pbpk._ode_system (A_gut, C_plasma, C_liver) s params =
            Ok (- Pbpk.P_k_a params * A_gut,
                Pbpk.P_k_a params * A_gut * Pbpk.P_F params
                / Pbpk.P_V_c params
                - Pbpk.P_Q_liver params / Pbpk.P_V_c params * C_plasma
                + Pbpk.P_Q_liver params / Pbpk.P_V_c params
                  * (C_liver / Pbpk._estimate_kp_liver drug)
                - Pbpk.P_CL_renal params / Pbpk.P_V_c params * C_plasma,
                Pbpk.P_Q_liver params / Pbpk.P_V_liver params * C_plasma
                - Pbpk.P_Q_liver params / Pbpk.P_V_liver params
                  * (C_liver / Pbpk._estimate_kp_liver drug)
                - Pbpk.P_CL_int params * Pbpk.P_f_u params
                  / Pbpk.P_V_liver params * C_liver).
Proof.
  intros drug kp. unfold Pbpk._estimate_kp_liver at 1 2 3 4 5. fold kp.
  split; [apply clamp_range; lra |].
  split; [| split; [| split; [| split]]].
  - intros Hin. unfold Py.max, Py.min, Rltb.
    destruct (Rlt_dec 50 kp); [lra |]. destruct (Rlt_dec 1 kp); lra.
  - intros Hlow. unfold Py.max, Py.min, Rltb.
    destruct (Rlt_dec 50 kp); [lra |]. destruct (Rlt_dec 1 kp); lra.
  - intros Hhigh. unfold Py.max, Py.min, Rltb.
    destruct (Rlt_dec 50 kp); [| lra]. destruct (Rlt_dec 1 50); lra.
  - intros phys cfg. reflexivity.
  - intros phys cfg Hc Hl Hn.
    set (model := Pbpk.PBPKModel_init (Some drug) (Some phys) (Some cfg)).
    set (params := Pbpk.solve_params model).
    destruct (solve_spec model Hn Hc Hl)
      as (t & y0 & sol & r & Ht & _ & Hsol & Hr & _ & Hcp & _ & _ & Hpar).
    exists t, y0, sol, r.
    split; [exact Ht |]. split; [exact Hsol |]. split; [exact Hr |].
    split; [exact Hcp |]. split; [now rewrite Hpar |].
    intros A_gut C_plasma C_liver s.
    now rewrite (ode_system_value A_gut C_plasma C_liver s params Hc Hl).
Qed.

Lemma estimate_kp_liver_range_example :
  let model :=
    Pbpk.PBPKModel_init (Some Concrete.test_drug) (Some Concrete.test_phys)
      (Some Concrete.test_config) in
  let params := Pbpk.solve_params model in
  1 <= Pbpk._estimate_kp_liver Concrete.test_drug <= 50 /\
  exists t y0 sol r,
    Np.linspace 0 (Pbpk.t_max Concrete.test_config)
      (Pbpk.n_points Concrete.test_config) = Ok t /\
    Np.odeint (fun y s => Pbpk._ode_system y s params) y0 t = Ok sol /\
    @Pbpk.solve Concrete.euler model = Ok r /\
    Pbpk.c_plasma r = map (fun y => snd (fst y) * 1000) sol /\
    Pbpk.P_K_p (Pbpk.parameters r) =
      Pbpk._estimate_kp_liver Concrete.test_drug /\
    forall A_gut C_plasma C_liver s,
      Pbpk._ode_system (A_gut, C_plasma, C_liver) s params =
        Ok (- Pbpk.P_k_a params * A_gut,
            Pbpk.P_k_a params * A_gut * Pbpk.P_F params
            / Pbpk.P_V_c params
            - Pbpk.P_Q_liver params / Pbpk.P_V_c params * C_plasma
            + Pbpk.P_Q_liver params / Pbpk.P_V_c params
              * (C_liver / Pbpk._estimate_kp_liver Concrete.test_drug)
            - Pbpk.P_CL_renal params / Pbpk.P_V_c params * C_plasma,
            Pbpk.P_Q_liver params / Pbpk.P_V_liver params * C_plasma
            - Pbpk.P_Q_liver params / Pbpk.P_V_liver params
              * (C_liver / Pbpk._estimate_kp_liver Concrete.test_drug)
            - Pbpk.P_CL_int params * Pbpk.P_f_u params
              / Pbpk.P_V_liver params * C_liver).
Proof.
  intros model params.
  destruct (@estimate_kp_liver_range Concrete.euler euler_laws
              Concrete.test_drug) as (Hrange & _ & _ & _ & _ & Hsolve).
  split; [exact Hrange |].
  apply (Hsolve Concrete.test_phys Concrete.test_config);
    [simpl; lra | simpl; lra | simpl; lia].
Defined.

(** X2: mass balance of the ODE system.  With non-zero central and liver
    volumes the right-hand side is defined, and the total amount of drug
    (gut amount + Vc * plasma concentration + Vliver * liver concentration)
    changes only by what is not absorbed, (1 - F) ka A_gut, by renal
    clearance and by hepatic metabolism: the exchange between plasma and
    liver cancels. *)
Theorem ode_system_mass_balance :
  forall (y : Np.State3) (t : R) (params : Pbpk.OdeParams),
    Pbpk.P_V_c params <> 0 ->
    Pbpk.P_V_liver params <> 0 ->
    exists dA_gut dC_plasma dC_liver,
      Pbpk._ode_system y t params = Ok (dA_gut, dC_plasma, dC_liver) /\
      dA_gut = - Pbpk.P_k_a params * fst (fst y) /\
      dA_gut + Pbpk.P_V_c params * dC_plasma + Pbpk.P_V_liver params * dC_liver =
        - ((1 - Pbpk.P_F params) * Pbpk.P_k_a params * fst (fst y))
        - Pbpk.P_CL_renal params * snd (fst y)
        - Pbpk.P_CL_int params * Pbpk.P_f_u params * snd y.
Proof.
  intros [[a_gut c_plasma] c_liver] t params Hc Hl.
  unfold Pbpk._ode_system. rewrite !div_ok by assumption. cbn [Py.bind].
  eexists. eexists. eexists. split; [reflexivity |].
  split; [reflexivity |]. simpl. unfold Rdiv.
  generalize (/ Pbpk.P_K_p params). intros ik. field. split; assumption.
Qed.

Lemma ode_system_mass_balance_example :
  let params :=
    Pbpk.solve_params
      (Pbpk.PBPKModel_init (Some Concrete.test_drug) (Some Concrete.test_phys)
         (Some Concrete.test_config)) in
  let y : Np.State3 := (100, 0, 0) in
  exists dA_gut dC_plasma dC_liver,
    Pbpk._ode_system y 0 params = Ok (dA_gut, dC_plasma, dC_liver) /\
    dA_gut = - Pbpk.P_k_a params * fst (fst y) /\
    dA_gut + Pbpk.P_V_c params * dC_plasma + Pbpk.P_V_liver params * dC_liver =
      - ((1 - Pbpk.P_F params) * Pbpk.P_k_a params * fst (fst y))
      - Pbpk.P_CL_renal params * snd (fst y)
      - Pbpk.P_CL_int params * Pbpk.P_f_u params * snd y.
Proof.
  apply ode_system_mass_balance; simpl; lra.
Defined.

(** X3: the ODE system is linear in the state: the derivative at
    y1 + h * y2 is the derivative at y1 plus h times the derivative at y2
    (so doubling the state doubles every rate). *)
Theorem ode_system_linear :
  forall (y1 y2 d1 d2 : Np.State3) (h t : R) (params : Pbpk.OdeParams),
    Pbpk._ode_system y1 t params = Ok d1 ->
    Pbpk._ode_system y2 t params = Ok d2 ->
    Pbpk._ode_system (Concrete.axpy h y2 y1) t params =
      Ok (Concrete.axpy h d2 d1).
Proof.
  intros [[a1 p1] l1] [[a2 p2] l2] d1 d2 h t params.
  unfold Pbpk._ode_system, Concrete.axpy.
  destruct (Py.div (Pbpk.P_Q_liver params) (Pbpk.P_V_c params)) as [qc |];
    [| discriminate].
  destruct (Py.div (Pbpk.P_CL_renal params) (Pbpk.P_V_c params)) as [rc |];
    [| discriminate].
  destruct (Py.div (Pbpk.P_Q_liver params) (Pbpk.P_V_liver params)) as [ql |];
    [| discriminate].
  destruct (Py.div (Pbpk.P_CL_int params * Pbpk.P_f_u params)
              (Pbpk.P_V_liver params)) as [ml |]; [| discriminate].
  cbn [Py.bind]. intros H1 H2. injection H1 as <-. injection H2 as <-.
  f_equal. f_equal; [f_equal |]; unfold Rdiv; ring.
Qed.

Lemma ode_system_linear_example :
  let params :=
    Pbpk.solve_params
      (Pbpk.PBPKModel_init (Some Concrete.test_drug) (Some Concrete.test_phys)
         (Some Concrete.test_config)) in
  exists d1 d2,
    Pbpk._ode_system (100, 0, 0) 0 params = Ok d1 /\
    Pbpk._ode_system (0, 1, 2) 0 params = Ok d2 /\
    Pbpk._ode_system (Concrete.axpy 3 (0, 1, 2) (100, 0, 0)) 0 params =
      Ok (Concrete.axpy 3 d2 d1).
Proof.
  intros params.
  assert (Hc : Pbpk.P_V_c params <> 0) by (simpl; lra).
  assert (Hl : Pbpk.P_V_liver params <> 0) by (simpl; lra).
  pose proof (ode_system_ok (100, 0, 0) 0 params Hc Hl) as H1.
  pose proof (ode_system_ok (0, 1, 2) 0 params Hc Hl) as H2.
  destruct (Pbpk._ode_system (100, 0, 0) 0 params) as [d1 |] eqn:E1;
    [| discriminate].
  destruct (Pbpk._ode_system (0, 1, 2) 0 params) as [d2 |] eqn:E2;
    [| discriminate].
  exists d1, d2. split; [reflexivity |]. split; [reflexivity |].
  exact (ode_system_linear _ _ _ _ 3 0 params E1 E2).
Defined.

(** ** Pharmacokinetic metrics *)

Lemma argmax_from_first (l pre : list R) (best_i : nat) (best : R) :
  (best_i < length pre)%nat ->
  nth best_i pre 0 = best ->
  (forall x, In x pre -> x <= best) ->
  (forall j, (j < best_i)%nat -> nth j pre 0 < best) ->
  let r := Np.argmax_from best_i best (length pre) l in
  forall j, (j < r)%nat -> nth j (pre ++ l) 0 < nth r (pre ++ l) 0.
Proof.
  revert pre best_i best.
  induction l as [| x l IH]; intros pre best_i best Hlt Hnth Hmax Hfirst; simpl.
  - intros j Hj. rewrite app_nil_r, Hnth. now apply Hfirst.
  - assert (Hlen : length (pre ++ [x]) = S (length pre))
      by (rewrite length_app; simpl; lia).
    replace (pre ++ x :: l) with ((pre ++ [x]) ++ l)
      by (now rewrite <- app_assoc).
    unfold Rltb. destruct (Rlt_dec best x) as [Hbx | Hbx].
    + rewrite <- Hlen. apply IH.
      * rewrite Hlen. lia.
      * rewrite app_nth2 by lia. now rewrite Nat.sub_diag.
      * intros y Hy. apply in_app_or in Hy as [Hy | [<- | []]].
        -- apply Hmax in Hy. lra.
        -- lra.
      * intros j Hj. rewrite app_nth1 by exact Hj.
        assert (nth j pre 0 <= best) by (apply Hmax, nth_In; exact Hj).
        lra.
    + rewrite <- Hlen. apply IH.
      * rewrite Hlen. lia.
      * rewrite app_nth1 by exact Hlt. exact Hnth.
      * intros y Hy. apply in_app_or in Hy as [Hy | [<- | []]].
        -- now apply Hmax.
        -- lra.
      * intros j Hj. rewrite app_nth1 by lia. now apply Hfirst.
Qed.

Lemma argmax_first (c : list R) (idx : nat) :
  Np.argmax c = Ok idx ->
  (idx < length c)%nat /\
  (forall x, In x c -> x <= nth idx c 0) /\
  (forall j, (j < idx)%nat -> nth j c 0 < nth idx c 0).
Proof.
  destruct c as [| x l]; [discriminate |]. intros Hidx.
  injection Hidx as <-.
  pose proof (argmax_from_spec l [x] 0%nat x) as Hspec.
  pose proof (argmax_from_first l [x] 0%nat x) as Hfirst.
  simpl in Hspec, Hfirst.
  assert (Hx : forall y, x = y \/ False -> y <= x) by (intros y [<- | []]; lra).
  destruct (Hspec ltac:(lia) eq_refl Hx) as [H1 H2].
  repeat split; try assumption.
  apply Hfirst; try assumption; try reflexivity; lia.
Qed.

(** What a successful call of [_calculate_pk_metrics] went through. *)
Lemma calculate_pk_metrics_Ok (t c : list R) (m : Pbpk.PKMetrics) :
  Pbpk._calculate_pk_metrics t c = Ok m ->
  exists idx,
    Np.argmax c = Ok idx /\
    t !! idx = Some (Pbpk.tmax m) /\
    Pbpk.cmax m = nth idx c 0 /\
    Pbpk.auc m = Np.trapezoid c t /\
    let mask :=
      zip_with (fun ti ci => Rltb (Pbpk.tmax m) ti &&
                             Rltb (0.1 * Pbpk.cmax m) ci) t c in
    Pbpk.t_half m =
      if (2 <? Pbpk.count_true mask)%nat then
        let slope :=
          fst (Np.polyfit1 (Pbpk.mask_select mask t)
                 (map (fun x => ln (x + 1e-10)) (Pbpk.mask_select mask c))) in
        if Rltb slope 0 then Some (- ln 2 / slope) else None
      else None.
Proof.
  unfold Pbpk._calculate_pk_metrics. intros Hm.
  apply bind_Ok in Hm as (idx & Hidx & Hm).
  apply bind_Ok in Hm as (tm & Htm & Hm).
  destruct (t !! idx) as [v |] eqn:Hv; [| discriminate].
  injection Htm as <-. injection Hm as <-.
  exists idx. cbn [Pbpk.tmax Pbpk.cmax Pbpk.auc Pbpk.t_half].
  repeat split; try assumption; reflexivity.
Qed.

(** X4: the peak.  Whenever the metrics are returned, Cmax is the largest
    concentration of the series and Tmax is the time of the first sample
    that attains it: every earlier sample is strictly below Cmax. *)
Theorem peak_is_first_maximum :
  forall (t c : list R) (m : Pbpk.PKMetrics),
    Pbpk._calculate_pk_metrics t c = Ok m ->
    exists idx : nat,
      t !! idx = Some (Pbpk.tmax m) /\
      c !! idx = Some (Pbpk.cmax m) /\
      (forall x, In x c -> x <= Pbpk.cmax m) /\
      (forall j x, (j < idx)%nat -> c !! j = Some x -> x < Pbpk.cmax m).
Proof.
  intros t c m Hm.
  apply calculate_pk_metrics_Ok in Hm as (idx & Hidx & Ht & Hc & _).
  apply argmax_first in Hidx as (Hlt & Hmax & Hfirst).
  exists idx. rewrite Hc. repeat split; try assumption.
  - destruct (nth_lookup_or_length c idx 0) as [Hl | Hl]; [exact Hl | lia].
  - intros j x Hj Hx. rewrite <- (nth_lookup_Some c j 0 x Hx). now apply Hfirst.
Qed.

Lemma peak_is_first_maximum_example :
  exists (m : Pbpk.PKMetrics) (idx : nat),
    Pbpk._calculate_pk_metrics [0; 1; 2; 3] [8; 4; 2; 1] = Ok m /\
    [0; 1; 2; 3] !! idx = Some (Pbpk.tmax m) /\
    [8; 4; 2; 1] !! idx = Some (Pbpk.cmax m) /\
    (forall x, In x [8; 4; 2; 1] -> x <= Pbpk.cmax m) /\
    (forall j x, (j < idx)%nat -> [8; 4; 2; 1] !! j = Some x ->
                 x < Pbpk.cmax m).
Proof.
  eexists.
  destruct (peak_is_first_maximum [0; 1; 2; 3] [8; 4; 2; 1] _
              example_series_metrics) as (idx & H).
  exists idx. split; [exact example_series_metrics | exact H].
Defined.

Lemma count_true_le (mask : list bool) :
  (Pbpk.count_true mask <= length mask)%nat.
Proof. unfold Pbpk.count_true. apply length_filter. Qed.

Lemma count_true_false (mask : list bool) (i : nat) :
  mask !! i = Some false ->
  (Pbpk.count_true mask < length mask)%nat.
Proof.
  unfold Pbpk.count_true. revert i.
  induction mask as [| b mask IH]; intros i Hi; [discriminate |].
  rewrite filter_cons. destruct i as [| i]; simpl in Hi.
  - injection Hi as ->. rewrite decide_False by discriminate.
    pose proof (length_filter (fun b => b = true) mask). simpl. lia.
  - specialize (IH i Hi).
    destruct (decide (b = true)); simpl; lia.
Qed.

(** X5: a half-life, when there is one, is positive: it is -ln 2 over a
    negative fitted slope, from a terminal phase of more than two samples,
    and the series it comes from has at least four samples (the peak itself
    never belongs to the terminal phase).  A terminal phase of two samples
    or fewer, a slope that is not negative, or a series of fewer than four
    samples gives [None]. *)
Theorem half_life_positive :
  forall (t c : list R) (m : Pbpk.PKMetrics),
    Pbpk._calculate_pk_metrics t c = Ok m ->
    let mask :=
      zip_with (fun ti ci => Rltb (Pbpk.tmax m) ti &&
                             Rltb (0.1 * Pbpk.cmax m) ci) t c in
    let slope :=
      fst (Np.polyfit1 (Pbpk.mask_select mask t)
             (map (fun x => ln (x + 1e-10)) (Pbpk.mask_select mask c))) in
    (forall h, Pbpk.t_half m = Some h ->
       0 < h /\ h = - ln 2 / slope /\ slope < 0 /\
       (2 < Pbpk.count_true mask)%nat /\
       (4 <= length t)%nat /\ (4 <= length c)%nat) /\
    ((Pbpk.count_true mask <= 2)%nat -> Pbpk.t_half m = None) /\
    (0 <= slope -> Pbpk.t_half m = None) /\
    ((length t < 4)%nat \/ (length c < 4)%nat -> Pbpk.t_half m = None).
Proof.
  intros t c m Hm mask slope.
  apply calculate_pk_metrics_Ok in Hm as (idx & Hidx & Ht & Hc & _ & Hhalf).
  cbv zeta in Hhalf. fold mask in Hhalf. fold slope in Hhalf.
  apply argmax_first in Hidx as (Hlt & _ & _).
  assert (Hci : c !! idx = Some (Pbpk.cmax m)).
  { rewrite Hc. destruct (nth_lookup_or_length c idx 0) as [Hl | Hl];
      [exact Hl | lia]. }
  assert (Hmask : mask !! idx = Some false).
  { unfold mask. rewrite lookup_zip_with, Ht, Hci. simpl.
    rewrite (Rltb_false (Pbpk.tmax m) (Pbpk.tmax m)) by lra. reflexivity. }
  pose proof (count_true_false mask idx Hmask) as Hless.
  assert (Hlen : length mask = Nat.min (length t) (length c))
    by (unfold mask; apply length_zip_with).
  assert (Hsome : forall h, Pbpk.t_half m = Some h ->
             0 < h /\ h = - ln 2 / slope /\ slope < 0 /\
             (2 < Pbpk.count_true mask)%nat /\
             (4 <= length t)%nat /\ (4 <= length c)%nat).
  { intros h Hh. rewrite Hhalf in Hh.
    destruct (Nat.ltb_spec 2 (Pbpk.count_true mask)) as [Hcount | _];
      [| discriminate].
    destruct (Rltb slope 0) eqn:Hslope; [| discriminate].
    assert (Heq : h = - ln 2 / slope) by congruence.
    apply Rltb_spec in Hslope.
    assert (Hln2 : 0 < ln 2) by (pose proof ln_lt_2; lra).
    assert (Hinv : / slope < 0) by now apply Rinv_lt_0_compat.
    split; [| repeat split; try assumption; lia].
    rewrite Heq. unfold Rdiv.
    replace (- ln 2 * / slope) with (ln 2 * - / slope) by ring.
    apply Rmult_lt_0_compat; lra. }
  split; [exact Hsome |]. split; [| split].
  - intros Hfew. rewrite Hhalf.
    destruct (Nat.ltb_spec 2 (Pbpk.count_true mask)); [lia | reflexivity].
  - intros Hslope. rewrite Hhalf.
    destruct (2 <? Pbpk.count_true mask)%nat; [| reflexivity].
    now rewrite (Rltb_false slope 0) by lra.
  - intros Hshort.
    destruct (Pbpk.t_half m) as [h |] eqn:Hh; [| reflexivity].
    destruct (Hsome h eq_refl) as (_ & _ & _ & _ & H4t & H4c). lia.
Qed.

Lemma half_life_positive_example :
  exists (m : Pbpk.PKMetrics) (h : R),
    Pbpk._calculate_pk_metrics [0; 1; 2; 3] [8; 4; 2; 1] = Ok m /\
    Pbpk.t_half m = Some h /\
    0 < h /\ (4 <= length [0; 1; 2; 3])%nat /\ (4 <= length [8; 4; 2; 1])%nat.
Proof.
  assert (Hinc : ln (1 + 1e-10) < ln (4 + 1e-10))
    by (apply ln_increasing; lra).
  pose proof (example_series_half_life (fun x => ln (x + 1e-10)) Hinc) as Hh.
  eexists. eexists.
  split; [exact example_series_metrics |].
  split; [exact Hh |].
  destruct (half_life_positive _ _ _ example_series_metrics)
    as (Hsome & _).
  destruct (Hsome _ Hh) as (Hpos & _ & _ & _ & H4t & H4c).
  split; [exact Hpos |]. split; [exact H4t | exact H4c].
Defined.

Lemma argmax_from_scale (k : R) (l : list R) (best_i : nat) (best : R) (i : nat) :
  0 < k ->
  Np.argmax_from best_i (k * best) i (map (Rmult k) l) =
    Np.argmax_from best_i best i l.
Proof.
  intros Hk. revert best_i best i.
  induction l as [| x l IH]; intros best_i best i; simpl; [reflexivity |].
  unfold Rltb.
  destruct (Rlt_dec (k * best) (k * x)) as [H1 | H1];
    destruct (Rlt_dec best x) as [H2 | H2]; try apply IH; exfalso; nra.
Qed.

Lemma trapezoid_scale (k : R) (c t : list R) :
  Np.trapezoid (map (Rmult k) c) t = k * Np.trapezoid c t.
Proof.
  revert t. induction c as [| y0 c IH]; intros t; [simpl; ring |].
  destruct c as [| y1 c]; [simpl; ring |].
  destruct t as [| x0 [| x1 t]]; try (simpl; ring).
  specialize (IH (x1 :: t)).
  change (Np.trapezoid (map (Rmult k) (y0 :: y1 :: c)) (x0 :: x1 :: t))
    with ((x1 - x0) * (k * y1 + k * y0) / 2
          + Np.trapezoid (map (Rmult k) (y1 :: c)) (x1 :: t)).
  change (Np.trapezoid (y0 :: y1 :: c) (x0 :: x1 :: t))
    with ((x1 - x0) * (y1 + y0) / 2 + Np.trapezoid (y1 :: c) (x1 :: t)).
  rewrite IH. field.
Qed.

(** X6: concentrations scale through the metrics.  Multiplying every
    concentration by a factor k > 0 leaves Tmax where it is and multiplies
    Cmax and AUC by k. *)
Theorem pk_metrics_scale :
  forall (t c : list R) (m : Pbpk.PKMetrics) (k : R),
    0 < k ->
    Pbpk._calculate_pk_metrics t c = Ok m ->
    exists m' : Pbpk.PKMetrics,
      Pbpk._calculate_pk_metrics t (map (Rmult k) c) = Ok m' /\
      Pbpk.tmax m' = Pbpk.tmax m /\
      Pbpk.cmax m' = k * Pbpk.cmax m /\
      Pbpk.auc m' = k * Pbpk.auc m.
Proof.
  intros t c m k Hk Hm.
  apply calculate_pk_metrics_Ok in Hm as (idx & Hidx & Ht & Hc & Hauc & _).
  assert (Hidx' : Np.argmax (map (Rmult k) c) = Ok idx).
  { destruct c as [| x l]; [discriminate |]. simpl in *.
    now rewrite argmax_from_scale. }
  apply argmax_first in Hidx as (Hlt & _ & _).
  unfold Pbpk._calculate_pk_metrics. rewrite Hidx'. cbn [Py.bind].
  rewrite Ht. cbn [Py.bind]. eexists. split; [reflexivity |].
  cbn [Pbpk.tmax Pbpk.cmax Pbpk.auc].
  split; [reflexivity |]. split.
  - rewrite Hc.
    rewrite (nth_indep _ 0 (k * 0)) by (now rewrite length_map).
    apply (map_nth (Rmult k)).
  - rewrite Hauc. apply trapezoid_scale.
Qed.

Lemma pk_metrics_scale_example :
  exists m m' : Pbpk.PKMetrics,
    Pbpk._calculate_pk_metrics [0; 1; 2; 3] [8; 4; 2; 1] = Ok m /\
    Pbpk._calculate_pk_metrics [0; 1; 2; 3] (map (Rmult 2) [8; 4; 2; 1]) =
      Ok m' /\
    Pbpk.tmax m' = Pbpk.tmax m /\
    Pbpk.cmax m' = 2 * Pbpk.cmax m /\
    Pbpk.auc m' = 2 * Pbpk.auc m.
Proof.
  eexists.
  destruct (pk_metrics_scale [0; 1; 2; 3] [8; 4; 2; 1] _ 2 ltac:(lra)
              example_series_metrics) as (m' & H).
  exists m'. split; [exact example_series_metrics | exact H].
Defined.

(** X7: when the metrics cannot be computed.  With one time per
    concentration the call raises only on an empty series, with the
    [ValueError] of [np.argmax], and otherwise returns with Tmax one of the
    times and Cmax one of the concentrations; with a time array too short
    to hold the peak index it raises [IndexError]. *)
Theorem calculate_pk_metrics_errors :
  forall t c : list R,
    (length t = length c ->
     match Pbpk._calculate_pk_metrics t c with
     | Ok m => c <> [] /\ In (Pbpk.tmax m) t /\ In (Pbpk.cmax m) c
     | Raise e => c = [] /\ e = ValueError
     end) /\
    (forall idx,
       Np.argmax c = Ok idx -> (length t <= idx)%nat ->
       Pbpk._calculate_pk_metrics t c = Raise IndexError).
Proof.
  intros t c. split.
  - intros Hlen.
    destruct c as [| x l]; [split; reflexivity |].
    destruct (Pbpk._calculate_pk_metrics t (x :: l)) as [m | e] eqn:Hm.
    + apply calculate_pk_metrics_Ok in Hm as (idx & Hidx & Ht & Hc & _).
      apply argmax_first in Hidx as (Hlt & _ & _).
      split; [discriminate |]. split.
      * apply list_elem_of_In, list_elem_of_lookup. eauto.
      * rewrite Hc. now apply nth_In.
    + exfalso.
      destruct (argmax_spec (x :: l)) as (idx & Hidx & Hlt & _);
        [discriminate |].
      unfold Pbpk._calculate_pk_metrics in Hm. rewrite Hidx in Hm.
      cbn [Py.bind] in Hm.
      destruct (t !! idx) as [v |] eqn:Hv; [discriminate |].
      apply lookup_ge_None in Hv. lia.
  - intros idx Hidx Hshort.
    unfold Pbpk._calculate_pk_metrics. rewrite Hidx. cbn [Py.bind].
    now rewrite (proj2 (lookup_ge_None t idx) Hshort).
Qed.

Lemma calculate_pk_metrics_errors_example :
  (exists m,
     Pbpk._calculate_pk_metrics [0; 1; 2; 3] [8; 4; 2; 1] = Ok m /\
     In (Pbpk.tmax m) [0; 1; 2; 3] /\ In (Pbpk.cmax m) [8; 4; 2; 1]) /\
  Pbpk._calculate_pk_metrics [] [8; 4; 2; 1] = Raise IndexError.
Proof.
  destruct (calculate_pk_metrics_errors [0; 1; 2; 3] [8; 4; 2; 1])
    as [Hsame _].
  destruct (calculate_pk_metrics_errors [] [8; 4; 2; 1]) as [_ Hshort].
  split.
  - specialize (Hsame eq_refl). rewrite example_series_metrics in Hsame.
    destruct Hsame as (_ & H1 & H2). eexists.
    split; [exact example_series_metrics | split; assumption].
  - apply (Hshort 0%nat); [| simpl; lia].
    cbn [Np.argmax Np.argmax_from]. unfold Rltb.
    repeat (destruct (Rlt_dec _ _) as [Hlt | _]; [exfalso; lra |]).
    reflexivity.
Defined.

(** ** Safety margin and its report *)

Lemma fold_left_Rmax_spec (l : list R) (x : R) :
  In (fold_left Rmax l x) (x :: l) /\
  forall c, In c (x :: l) -> c <= fold_left Rmax l x.
Proof.
  revert x. induction l as [| y l IH]; intros x.
  - split; [now left |]. intros c [-> | []]. apply Rle_refl.
  - cbn [fold_left]. destruct (IH (Rmax x y)) as [Hin Hle]. split.
    + destruct Hin as [Hin | Hin]; [| right; now right].
      rewrite <- Hin.
      unfold Rmax. destruct (Rle_dec x y); [right; now left | now left].
    + intros c [-> | [-> | Hc]].
      * apply Rle_trans with (Rmax c y); [apply Rmax_l | apply Hle; now left].
      * apply Rle_trans with (Rmax x c); [apply Rmax_r | apply Hle; now left].
      * apply Hle. now right.
Qed.

Lemma amax_spec (l : list R) (m : R) :
  Np.amax l = Ok m -> In m l /\ forall c, In c l -> c <= m.
Proof.
  destruct l as [| x l]; [discriminate |].
  cbn [Np.amax]. intros [= <-]. apply fold_left_Rmax_spec.
Qed.

Lemma calculate_safety_margin_Ok (d : list R) (thr : R)
    (s : Engine.SafetyMargin) :
  Engine.calculate_safety_margin d thr = Ok s ->
  d <> [] /\
  Np.amax d = Ok (Engine.cmax_max s) /\
  Engine.n_total s = Z.of_nat (length d) /\
  Engine.n_exceeding_threshold s =
    Z.of_nat (length (filter (fun c => thr < c) d)) /\
  Engine.percentage_exceeding s =
    INR (length (filter (fun c => thr < c) d)) / INR (length d) * 100 /\
  Engine.percentage_safe s =
    (INR (length d) - INR (length (filter (fun c => thr < c) d)))
    / INR (length d) * 100 /\
  Engine.cmax_95th_percentile s = Np.percentile d 95.
Proof.
  unfold Engine.calculate_safety_margin.
  destruct (Np.amax d) as [m | e] eqn:Hmax; [| discriminate].
  cbn [Py.bind]. intros [= <-].
  cbn [Engine.n_total Engine.n_exceeding_threshold Engine.cmax_max
       Engine.percentage_exceeding Engine.percentage_safe
       Engine.cmax_95th_percentile].
  rewrite count_true_map.
  assert (Hk : (length (filter (fun c => (thr < c)%R) d) <= length d)%nat)
    by apply length_filter.
  split; [destruct d; [discriminate | discriminate] |].
  split; [reflexivity |]. split; [reflexivity |]. split; [reflexivity |].
  split; [now rewrite <- !INR_IZR_INZ |]. split; [| reflexivity].
  rewrite <- Nat2Z.inj_sub by exact Hk.
  rewrite <- !INR_IZR_INZ. now rewrite minus_INR by exact Hk.
Qed.

Lemma calculate_safety_margin_total (d : list R) (thr : R) :
  d <> [] -> exists s, Engine.calculate_safety_margin d thr = Ok s.
Proof.
  intros Hne. unfold Engine.calculate_safety_margin.
  destruct d as [| x l]; [congruence |].
  cbn [Np.amax Py.bind]. eexists. reflexivity.
Qed.

Lemma length_pos_INR {A : Type} (d : list A) : d <> [] -> 0 < INR (length d).
Proof.
  intros Hne. apply lt_0_INR. destruct d; [congruence | simpl; lia].
Qed.

(** X8: the safety analysis fails only on an empty distribution, with the
    [ValueError] of [np.max]; otherwise the two percentages are complementary
    (as real numbers they add up to 100), the reported maximum is a value of
    the distribution that no value exceeds, and the 95th percentile is at
    most that maximum. *)
Theorem safety_margin_complement :
  forall (cmax_distribution : list R) (toxic_threshold : R),
    match Engine.calculate_safety_margin cmax_distribution toxic_threshold with
    | Ok s =>
        cmax_distribution <> [] /\
        Engine.percentage_exceeding s + Engine.percentage_safe s = 100 /\
        0 <= Engine.percentage_safe s <= 100 /\
        In (Engine.cmax_max s) cmax_distribution /\
        (forall c, In c cmax_distribution -> c <= Engine.cmax_max s) /\
        Engine.cmax_95th_percentile s <= Engine.cmax_max s
    | Raise e => cmax_distribution = [] /\ e = ValueError
    end.
Proof.
  intros d thr.
  destruct (Engine.calculate_safety_margin d thr) as [s | e] eqn:Hs.
  - apply calculate_safety_margin_Ok in Hs
      as (Hne & Hmax & _ & _ & Hpe & Hps & Hp95).
    apply amax_spec in Hmax as [Hin Hle].
    pose proof (length_pos_INR d Hne) as Hn.
    assert (Hk : (length (filter (fun c => (thr < c)%R) d) <= length d)%nat)
      by apply length_filter.
    apply le_INR in Hk.
    pose proof (pos_INR (length (filter (fun c => thr < c) d))) as Hk0.
    assert (Hinv : 0 < / INR (length d)) by now apply Rinv_0_lt_compat.
    assert (Hone : INR (length d) * / INR (length d) = 1)
      by (apply Rinv_r; lra).
    split; [exact Hne |]. split; [rewrite Hpe, Hps; field; lra |].
    split; [rewrite Hps; unfold Rdiv; split; nra |].
    split; [exact Hin |]. split; [exact Hle |].
    rewrite Hp95.
    destruct (percentile_between d 95 Hne ltac:(lra)) as (_ & Hhi & _ & Hup).
    apply Rle_trans with (1 := Hup).
    apply Hle, percentile_entry_In, Hhi.
  - unfold Engine.calculate_safety_margin in Hs.
    destruct d as [| x l]; [| discriminate].
    cbn [Np.amax Py.bind] in Hs. split; [reflexivity | congruence].
Qed.

(** X9: raising the threshold never raises the alarm.  For thresholds
    [lower <= higher] over the same non-empty distribution, the count and
    the percentage of values above the higher threshold are at most those
    above the lower one, and the safe percentage is at least as large. *)
Theorem safety_margin_monotone :
  forall (cmax_distribution : list R) (lower higher : R),
    cmax_distribution <> [] ->
    lower <= higher ->
    exists s1 s2 : Engine.SafetyMargin,
      Engine.calculate_safety_margin cmax_distribution lower = Ok s1 /\
      Engine.calculate_safety_margin cmax_distribution higher = Ok s2 /\
      (Engine.n_exceeding_threshold s2 <= Engine.n_exceeding_threshold s1)%Z /\
      Engine.percentage_exceeding s2 <= Engine.percentage_exceeding s1 /\
      Engine.percentage_safe s1 <= Engine.percentage_safe s2.
Proof.
  intros d lo hi Hne Hle.
  destruct (calculate_safety_margin_total d lo Hne) as [s1 H1].
  destruct (calculate_safety_margin_total d hi Hne) as [s2 H2].
  exists s1, s2. split; [exact H1 |]. split; [exact H2 |].
  apply calculate_safety_margin_Ok in H1 as (_ & _ & _ & Hn1 & Hpe1 & Hps1 & _).
  apply calculate_safety_margin_Ok in H2 as (_ & _ & _ & Hn2 & Hpe2 & Hps2 & _).
  assert (Hk : (length (filter (fun c => (hi < c)%R) d)
                <= length (filter (fun c => (lo < c)%R) d))%nat).
  { apply filter_length_mono. intros x Hx. lra. }
  pose proof (length_pos_INR d Hne) as Hn.
  assert (Hinv : 0 < / INR (length d)) by now apply Rinv_0_lt_compat.
  split; [rewrite Hn1, Hn2; lia |].
  apply le_INR in Hk.
  rewrite Hpe1, Hpe2, Hps1, Hps2. unfold Rdiv. split; nra.
Qed.

Lemma safety_margin_monotone_example :
  exists s1 s2 : Engine.SafetyMargin,
    Engine.calculate_safety_margin [100; 250; 400] 200 = Ok s1 /\
    Engine.calculate_safety_margin [100; 250; 400] 300 = Ok s2 /\
    (Engine.n_exceeding_threshold s2 <= Engine.n_exceeding_threshold s1)%Z /\
    Engine.percentage_exceeding s2 <= Engine.percentage_exceeding s1 /\
    Engine.percentage_safe s1 <= Engine.percentage_safe s2.
Proof.
  apply (safety_margin_monotone [100; 250; 400] 200 300);
    [discriminate | lra].
Defined.

Lemma filter_above_nil (d : list R) (thr : R) :
  (forall c, In c d -> c <= thr) -> filter (fun c => thr < c) d = [].
Proof.
  induction d as [| x d IH]; intros Hall; [reflexivity |].
  rewrite filter_cons, decide_False.
  - apply IH. intros c Hc. apply Hall. now right.
  - specialize (Hall x (or_introl eq_refl)). lra.
Qed.

Lemma alert_color_cases (s : Engine.SafetyMargin) :
  (App.alert_color s = "danger"%string /\
   10 < Engine.percentage_exceeding s) \/
  (App.alert_color s = "warning"%string /\
   5 < Engine.percentage_exceeding s <= 10) \/
  (App.alert_color s = "success"%string /\
   Engine.percentage_exceeding s <= 5).
Proof.
  unfold App.alert_color, Rltb.
  destruct (Rlt_dec 10 (Engine.percentage_exceeding s)) as [H10 | H10].
  - left. split; [reflexivity | exact H10].
  - destruct (Rlt_dec 5 (Engine.percentage_exceeding s)) as [H5 | H5].
    + right; left. split; [reflexivity | lra].
    + right; right. split; [reflexivity | lra].
Qed.

(** X10: the colour of the safety report.  Without results the callback
    reports nothing; with a non-empty distribution it reports one of three
    colours, [success] whenever no value exceeds the threshold, and never
    [danger] for a cohort of at least twenty whose 95th percentile is at or
    below the threshold. *)
Theorem safety_report_color :
  forall (cmax_distribution : list R) (toxic_threshold : R),
    cmax_distribution <> [] ->
    App.update_safety_analysis None toxic_threshold = Ok None /\
    exists color : string,
      App.update_safety_analysis (Some cmax_distribution) toxic_threshold =
        Ok (Some color) /\
      In color ["danger"; "warning"; "success"]%string /\
      ((forall c, In c cmax_distribution -> c <= toxic_threshold) ->
       color = "success"%string) /\
      ((20 <= length cmax_distribution)%nat ->
       Np.percentile cmax_distribution 95 <= toxic_threshold ->
       color <> "danger"%string).
Proof.
  intros d thr Hne. split; [reflexivity |].
  destruct (calculate_safety_margin_total d thr Hne) as [s Hs].
  exists (App.alert_color s). cbn [App.update_safety_analysis].
  rewrite Hs. cbn [Py.bind]. split; [reflexivity |].
  apply calculate_safety_margin_Ok in Hs as (_ & _ & _ & _ & Hpe & _ & _).
  pose proof (length_pos_INR d Hne) as Hn.
  assert (Hinv : 0 < / INR (length d)) by now apply Rinv_0_lt_compat.
  assert (Hone : INR (length d) * / INR (length d) = 1)
    by (apply Rinv_r; lra).
  split; [| split].
  - destruct (alert_color_cases s) as [[-> _] | [[-> _] | [-> _]]];
      cbn [In]; auto.
  - intros Hall.
    rewrite (filter_above_nil d thr Hall) in Hpe.
    change (INR (length (@nil R))) with 0 in Hpe.
    assert (Hz : Engine.percentage_exceeding s = 0)
      by (rewrite Hpe; unfold Rdiv; ring).
    destruct (alert_color_cases s) as [[_ H] | [[_ H] | [-> _]]];
      [lra | lra | reflexivity].
  - intros Hlen Hp95.
    pose proof (count_above_percentile_95 d thr Hne Hp95) as Hc.
    apply le_INR in Hlen.
    replace (INR 20) with 20 in Hlen by (simpl; lra).
    assert (Hk : Engine.percentage_exceeding s < 10).
    { rewrite Hpe. unfold Rdiv.
      set (k := INR (length (filter (fun c => thr < c) d))) in *.
      set (n := INR (length d)) in *.
      assert (Hkn : k * / n < 0.05 + 0.95 * / n) by nra.
      assert (Hn20 : 20 * / n <= 1) by nra.
      nra. }
    destruct (alert_color_cases s) as [[_ H] | [[-> _] | [-> _]]];
      [lra | discriminate | discriminate].
Qed.

Lemma safety_report_color_example :
  App.update_safety_analysis None 500 = Ok None /\
  exists color : string,
    App.update_safety_analysis (Some [100; 250; 400]) 500 = Ok (Some color) /\
    In color ["danger"; "warning"; "success"]%string /\
    ((forall c, In c [100; 250; 400] -> c <= 500) ->
     color = "success"%string) /\
    ((20 <= length [100; 250; 400])%nat ->
     Np.percentile [100; 250; 400] 95 <= 500 ->
     color <> "danger"%string).
Proof.
  apply (safety_report_color [100; 250; 400] 500). discriminate.
Defined.

(** ** The callbacks of the dashboard *)

Lemma ethnicity_dist_value (a e f : R) :
  a + e + f <> 0 ->
  App.ethnicity_dist a e f =
    Ok [(Engine.EAST_ASIAN, a / (a + e + f));
        (Engine.EUROPEAN, e / (a + e + f));
        (Engine.AFRICAN, f / (a + e + f))].
Proof.
  intros Hnz. unfold App.ethnicity_dist.
  rewrite (Reqb_false _ _ Hnz). rewrite !div_ok by exact Hnz. reflexivity.
Qed.

(** X11: the normalisation of the ethnicity sliders.  When the three
    inputs do not sum to zero, each proportion is its input over the sum,
    so the proportions add up to one, lie in [0, 1] for non-negative
    inputs, and do not change when all three inputs are rescaled by the
    same non-zero factor (percentages or fractions give the same cohort
    settings). *)
Theorem ethnicity_dist_normalised :
  forall a e f : R,
    a + e + f <> 0 ->
    exists pa pe pf : R,
      App.ethnicity_dist a e f =
        Ok [(Engine.EAST_ASIAN, pa); (Engine.EUROPEAN, pe);
            (Engine.AFRICAN, pf)] /\
      pa + pe + pf = 1 /\
      pa * (a + e + f) = a /\ pe * (a + e + f) = e /\ pf * (a + e + f) = f /\
      (0 <= a -> 0 <= e -> 0 <= f ->
       0 <= pa <= 1 /\ 0 <= pe <= 1 /\ 0 <= pf <= 1) /\
      (forall k, k <> 0 ->
         App.ethnicity_dist (k * a) (k * e) (k * f) =
           App.ethnicity_dist a e f).
Proof.
  intros a e f Hnz.
  exists (a / (a + e + f)), (e / (a + e + f)), (f / (a + e + f)).
  split; [now apply ethnicity_dist_value |].
  split; [field; exact Hnz |].
  split; [field; exact Hnz |]. split; [field; exact Hnz |].
  split; [field; exact Hnz |]. split.
  - intros Ha He Hf.
    assert (Hpos : 0 < a + e + f) by lra.
    assert (Hinv : 0 < / (a + e + f)) by now apply Rinv_0_lt_compat.
    assert (Hone : (a + e + f) * / (a + e + f) = 1) by (apply Rinv_r; lra).
    unfold Rdiv. repeat split; nra.
  - intros k Hk.
    assert (Hsum : k * a + k * e + k * f <> 0).
    { replace (k * a + k * e + k * f) with (k * (a + e + f)) by ring.
      now apply Rmult_integral_contrapositive_currified. }
    assert (Hq : forall x, k * x / (k * a + k * e + k * f) = x / (a + e + f)).
    { intros x.
      replace (k * a + k * e + k * f) with (k * (a + e + f)) by ring.
      field. split; assumption. }
    rewrite (ethnicity_dist_value _ _ _ Hsum), (ethnicity_dist_value _ _ _ Hnz).
    now rewrite !Hq.
Qed.

Lemma ethnicity_dist_normalised_example :
  exists pa pe pf : R,
    App.ethnicity_dist 34 33 33 =
      Ok [(Engine.EAST_ASIAN, pa); (Engine.EUROPEAN, pe);
          (Engine.AFRICAN, pf)] /\
    pa + pe + pf = 1 /\
    pa * (34 + 33 + 33) = 34 /\ pe * (34 + 33 + 33) = 33 /\
    pf * (34 + 33 + 33) = 33 /\
    (0 <= 34 -> 0 <= 33 -> 0 <= 33 ->
     0 <= pa <= 1 /\ 0 <= pe <= 1 /\ 0 <= pf <= 1) /\
    (forall k, k <> 0 ->
       App.ethnicity_dist (k * 34) (k * 33) (k * 33) =
         App.ethnicity_dist 34 33 33).
Proof. apply (ethnicity_dist_normalised 34 33 33). lra. Defined.

(** X12: what is stored is what is simulated.  The seven entries that
    [generate_population] stores for an individual are read back by
    [run_drug_simulation] as the very same parameters; an individual
    stored without them is simulated with the dataclass defaults. *)
Theorem phys_params_round_trip :
  forall p : Pbpk.PhysiologicalParameters,
    App.restore_phys_params (Some (App.phys_params_dict p)) = p /\
    App.restore_phys_params None = Pbpk.PhysiologicalParameters_default /\
    App.restore_phys_params (Some ∅) = Pbpk.PhysiologicalParameters_default.
Proof.
  intros [bw vp vl ql ci cr sc].
  split; [| split; reflexivity].
  unfold App.restore_phys_params, App.phys_params_dict.
  cbn [default Pbpk.body_weight Pbpk.v_plasma Pbpk.v_liver Pbpk.q_liver
       Pbpk.cl_int Pbpk.cl_renal Pbpk.activity_score].
  f_equal;
    repeat (rewrite lookup_insert_ne by (intros Heq; discriminate Heq));
    try rewrite lookup_insert_eq; try rewrite lookup_singleton_eq;
    reflexivity.
Qed.

(** ** Population summary *)

Lemma count_if_cons (test : Engine.IndividualCharacteristics -> bool)
    (x : Engine.IndividualCharacteristics)
    (pop : list Engine.IndividualCharacteristics) :
  Engine.count_if test (x :: pop) =
    ((if test x then 1 else 0) + Engine.count_if test pop)%Z.
Proof.
  unfold Engine.count_if. cbn [List.filter].
  destruct (test x); [cbn [length]; lia | lia].
Qed.

Lemma count_if_range (test : Engine.IndividualCharacteristics -> bool)
    (pop : list Engine.IndividualCharacteristics) :
  (0 <= Engine.count_if test pop <= Z.of_nat (length pop))%Z.
Proof.
  unfold Engine.count_if.
  pose proof (List.filter_length_le test pop). lia.
Qed.

Lemma ethnicity_counts_sum (pop : list Engine.IndividualCharacteristics) :
  fold_right Z.add 0%Z
    (map (fun eth =>
            Engine.count_if
              (fun ind => bool_decide (Engine.ethnicity ind = eth)) pop)
       Engine.Ethnicity_members) = Z.of_nat (length pop).
Proof.
  unfold Engine.Ethnicity_members. cbn [map fold_right].
  induction pop as [| x pop IH]; [reflexivity |].
  rewrite !count_if_cons. cbn [length]. rewrite Nat2Z.inj_succ, <- IH.
  destruct (Engine.ethnicity x);
    repeat first [ rewrite bool_decide_eq_true_2 by reflexivity
                 | rewrite bool_decide_eq_false_2 by discriminate ];
    lia.
Qed.

Lemma metabolizer_counts_sum (pop : list Engine.IndividualCharacteristics) :
  fold_right Z.add 0%Z
    (map (fun status =>
            Engine.count_if
              (fun ind => bool_decide (Engine.metabolizer_status ind = status))
              pop)
       Engine.MetabolizerStatus_members) = Z.of_nat (length pop).
Proof.
  unfold Engine.MetabolizerStatus_members. cbn [map fold_right].
  induction pop as [| x pop IH]; [reflexivity |].
  rewrite !count_if_cons. cbn [length]. rewrite Nat2Z.inj_succ, <- IH.
  destruct (Engine.metabolizer_status x);
    repeat first [ rewrite bool_decide_eq_true_2 by reflexivity
                 | rewrite bool_decide_eq_false_2 by discriminate ];
    lia.
Qed.

(** The summary of a non-empty cohort, entry by entry. *)
Lemma get_population_summary_cons (x : Engine.IndividualCharacteristics)
    (l : list Engine.IndividualCharacteristics) :
  let pop := x :: l in
  let n_male :=
    Engine.count_if (fun ind => String.eqb (Engine.gender ind) "M") pop in
  exists s,
    Engine.get_population_summary pop = Ok s /\
    Engine.Summary.n_subjects s = Z.of_nat (length pop) /\
    Engine.Summary.gender (Engine.Summary.demographics s) =
      {| Engine.Summary.male := n_male;
         Engine.Summary.female := (Z.of_nat (length pop) - n_male)%Z;
         Engine.Summary.male_ratio := IZR n_male / INR (length pop) |} /\
    map snd (Engine.Summary.ethnicity_distribution s) =
      map (fun eth =>
             Engine.count_if
               (fun ind => bool_decide (Engine.ethnicity ind = eth)) pop)
        Engine.Ethnicity_members /\
    map fst (Engine.Summary.ethnicity_distribution s) =
      map Engine.Ethnicity_value Engine.Ethnicity_members /\
    map snd (Engine.Summary.metabolizer_distribution s) =
      map (fun status =>
             Engine.count_if
               (fun ind => bool_decide (Engine.metabolizer_status ind = status))
               pop)
        Engine.MetabolizerStatus_members /\
    map fst (Engine.Summary.metabolizer_distribution s) =
      map Engine.MetabolizerStatus_value Engine.MetabolizerStatus_members /\
    Engine.Summary.age (Engine.Summary.demographics s) =
      {| Engine.Summary.mean := Np.mean (map IZR (map Engine.age pop));
         Engine.Summary.sd := Np.std (map IZR (map Engine.age pop));
         Engine.Summary.min :=
           fold_left Z.min (map Engine.age l) (Engine.age x);
         Engine.Summary.max :=
           fold_left Z.max (map Engine.age l) (Engine.age x) |} /\
    Engine.Summary.weight (Engine.Summary.demographics s) =
      {| Engine.Summary.mean := Np.mean (map Engine.weight pop);
         Engine.Summary.sd := Np.std (map Engine.weight pop);
         Engine.Summary.min :=
           fold_left Py.min (map Engine.weight l) (Engine.weight x);
         Engine.Summary.max :=
           fold_left Py.max (map Engine.weight l) (Engine.weight x) |} /\
    Engine.Summary.activity_score s =
      {| Engine.Summary.mean :=
           Np.mean (map Engine.combined_activity_score pop);
         Engine.Summary.sd :=
           Np.std (map Engine.combined_activity_score pop);
         Engine.Summary.min :=
           fold_left Py.min (map Engine.combined_activity_score l)
             (Engine.combined_activity_score x);
         Engine.Summary.max :=
           fold_left Py.max (map Engine.combined_activity_score l)
             (Engine.combined_activity_score x) |}.
Proof.
  intros pop n_male.
  assert (Hn : IZR (Z.of_nat (length pop)) <> 0).
  { rewrite <- INR_IZR_INZ. apply not_0_INR. discriminate. }
  unfold Engine.get_population_summary. fold pop. fold n_male.
  change (map Engine.age pop) with (Engine.age x :: map Engine.age l) at 1 2.
  change (map Engine.weight pop)
    with (Engine.weight x :: map Engine.weight l) at 1 2.
  change (map Engine.combined_activity_score pop)
    with (Engine.combined_activity_score x
          :: map Engine.combined_activity_score l) at 1 2.
  cbn [Py.min_list_int Py.max_list_int Py.min_list Py.max_list Py.bind].
  rewrite (div_ok _ _ Hn). cbn [Py.bind].
  eexists. split; [reflexivity |].
  cbn [Engine.Summary.n_subjects Engine.Summary.demographics
       Engine.Summary.gender Engine.Summary.age Engine.Summary.weight
       Engine.Summary.ethnicity_distribution
       Engine.Summary.metabolizer_distribution
       Engine.Summary.activity_score].
  rewrite !map_map. cbn [fst snd].
  rewrite <- INR_IZR_INZ.
  repeat split; reflexivity.
Qed.

(** X13: the counts of the summary partition the cohort.  The summary
    fails only on an empty cohort, with the [ValueError] of [min]; otherwise
    men and women add up to the cohort size, the male ratio is the share of
    men, and both the ethnicity counts (all five ethnicities are listed)
    and the metabolizer counts (all four phenotypes) add up to the cohort
    size. *)
Theorem population_summary_partition :
  forall population : list Engine.IndividualCharacteristics,
    match Engine.get_population_summary population with
    | Ok s =>
        let n := Engine.Summary.n_subjects s in
        let gd := Engine.Summary.gender (Engine.Summary.demographics s) in
        population <> [] /\
        n = Z.of_nat (length population) /\
        (Engine.Summary.male gd + Engine.Summary.female gd = n)%Z /\
        (0 <= Engine.Summary.male gd)%Z /\
        (0 <= Engine.Summary.female gd)%Z /\
        0 <= Engine.Summary.male_ratio gd <= 1 /\
        Engine.Summary.male_ratio gd * IZR n = IZR (Engine.Summary.male gd) /\
        map fst (Engine.Summary.ethnicity_distribution s) =
          ["East Asian"; "European"; "African"; "Latino";
           "Central/South Asian"]%string /\
        fold_right Z.add 0%Z
          (map snd (Engine.Summary.ethnicity_distribution s)) = n /\
        map fst (Engine.Summary.metabolizer_distribution s) =
          ["Poor Metabolizer (PM)"; "Intermediate Metabolizer (IM)";
           "Normal Metabolizer (NM)"; "Ultra-rapid Metabolizer (UM)"]%string /\
        fold_right Z.add 0%Z
          (map snd (Engine.Summary.metabolizer_distribution s)) = n
    | Raise e => population = [] /\ e = ValueError
    end.
Proof.
  intros [| x l]; [split; reflexivity |].
  destruct (get_population_summary_cons x l)
    as (s & -> & Hn & Hg & Heth & Hethk & Hmet & Hmetk & _).
  cbv zeta. rewrite Hn, Hg, Heth, Hethk, Hmet, Hmetk.
  cbn [Engine.Summary.male Engine.Summary.female Engine.Summary.male_ratio].
  rewrite ethnicity_counts_sum, metabolizer_counts_sum.
  set (pop := x :: l).
  pose proof (count_if_range
                (fun ind => String.eqb (Engine.gender ind) "M") pop) as Hm.
  set (n_male := Engine.count_if _ pop) in *.
  assert (HnR : 0 < INR (length pop)) by (apply length_pos_INR; discriminate).
  assert (Hinv : 0 < / INR (length pop)) by now apply Rinv_0_lt_compat.
  assert (Hone : INR (length pop) * / INR (length pop) = 1)
    by (apply Rinv_r; lra).
  assert (HmR : 0 <= IZR n_male <= INR (length pop)).
  { rewrite INR_IZR_INZ. split; apply IZR_le; lia. }
  split; [discriminate |]. split; [reflexivity |]. split; [lia |].
  split; [lia |]. split; [lia |].
  split; [unfold Rdiv; split; nra |].
  split; [rewrite <- INR_IZR_INZ; field; lra |].
  repeat split; reflexivity.
Qed.

Lemma fold_left_select {A : Type} (op : A -> A -> A) (le : A -> A -> Prop) :
  (forall a b, op a b = a \/ op a b = b) ->
  (forall a b, le (op a b) a /\ le (op a b) b) ->
  (forall a b c, le a b -> le b c -> le a c) ->
  forall (l : list A) (x : A),
    In (fold_left op l x) (x :: l) /\
    forall c, In c (x :: l) -> le (fold_left op l x) c.
Proof.
  intros Hsel Hle Htrans l.
  induction l as [| y l IH]; intros x.
  - split; [now left |]. intros c [Hc | []]. subst c. cbn [fold_left].
    destruct (Hle x x) as [H1 _]. destruct (Hsel x x) as [Hx | Hx];
      now rewrite Hx in H1.
  - cbn [fold_left]. destruct (IH (op x y)) as [Hin Hall]. split.
    + destruct Hin as [Hin | Hin]; [| right; now right].
      rewrite <- Hin.
      destruct (Hsel x y) as [-> | ->]; [now left | right; now left].
    + intros c [Hc | [Hc | Hc]]; [subst c | subst c |].
      * apply Htrans with (op x y); [apply Hall; now left | apply Hle].
      * apply Htrans with (op x y); [apply Hall; now left | apply Hle].
      * apply Hall. now right.
Qed.

Lemma py_min_list_spec (l : list R) (x : R) :
  In (fold_left Py.min l x) (x :: l) /\
  forall c, In c (x :: l) -> fold_left Py.min l x <= c.
Proof.
  apply (fold_left_select Py.min Rle).
  - intros a b. unfold Py.min. destruct (Rltb b a); auto.
  - apply py_min_le.
  - intros a b c. apply Rle_trans.
Qed.

Lemma py_max_list_spec (l : list R) (x : R) :
  In (fold_left Py.max l x) (x :: l) /\
  forall c, In c (x :: l) -> c <= fold_left Py.max l x.
Proof.
  apply (fold_left_select Py.max (fun a b => b <= a)).
  - intros a b. unfold Py.max. destruct (Rltb a b); auto.
  - apply py_max_ge.
  - intros a b c Hab Hbc. now apply Rle_trans with b.
Qed.

Lemma Z_min_list_spec (l : list Z) (x : Z) :
  In (fold_left Z.min l x) (x :: l) /\
  forall c, In c (x :: l) -> (fold_left Z.min l x <= c)%Z.
Proof.
  apply (fold_left_select Z.min Z.le); intros; lia.
Qed.

Lemma Z_max_list_spec (l : list Z) (x : Z) :
  In (fold_left Z.max l x) (x :: l) /\
  forall c, In c (x :: l) -> (c <= fold_left Z.max l x)%Z.
Proof.
  apply (fold_left_select Z.max (fun a b => (b <= a)%Z)); intros; lia.
Qed.

Lemma sum_bounds (l : list R) (lo hi : R) :
  (forall c, In c l -> lo <= c <= hi) ->
  INR (length l) * lo <= Py.sum l <= INR (length l) * hi.
Proof.
  induction l as [| x l IH]; intros Hb.
  - simpl. lra.
  - change (Py.sum (x :: l)) with (x + Py.sum l).
    change (length (x :: l)) with (S (length l)). rewrite S_INR.
    destruct (Hb x (or_introl eq_refl)) as [H1 H2].
    destruct IH as [H3 H4]; [intros c Hc; apply Hb; now right |].
    rewrite !Rmult_plus_distr_r. split; lra.
Qed.

Lemma mean_bounds (l : list R) (lo hi : R) :
  l <> [] ->
  (forall c, In c l -> lo <= c <= hi) ->
  lo <= Np.mean l <= hi.
Proof.
  intros Hne Hb. destruct (sum_bounds l lo hi Hb) as [H1 H2].
  pose proof (length_pos_INR l Hne) as Hn.
  assert (Hinv : 0 < / INR (length l)) by now apply Rinv_0_lt_compat.
  unfold Np.mean, Rdiv. split.
  - replace lo with (INR (length l) * lo * / INR (length l)) by (field; lra).
    apply Rmult_le_compat_r; lra.
  - replace hi with (INR (length l) * hi * / INR (length l)) by (field; lra).
    apply Rmult_le_compat_r; lra.
Qed.

Lemma In_map_witness {A B : Type} (f : A -> B) (l : list A) (b : B) :
  In b (map f l) -> exists a, In a l /\ f a = b.
Proof.
  intros Hb. apply in_map_iff in Hb as (a & Ha & Hin). eauto.
Qed.

(** X14: the ranges of the summary.  For each of age, weight and combined
    activity score, the reported minimum and maximum are values of members
    of the cohort, every member lies between them, so does the reported
    mean, and the reported standard deviation is not negative. *)
Theorem population_summary_ranges :
  forall (population : list Engine.IndividualCharacteristics)
         (s : Engine.Summary.PopulationSummary),
    Engine.get_population_summary population = Ok s ->
    let ages := Engine.Summary.age (Engine.Summary.demographics s) in
    let weights := Engine.Summary.weight (Engine.Summary.demographics s) in
    let scores := Engine.Summary.activity_score s in
    (forall ind, In ind population ->
       (Engine.Summary.min ages <= Engine.age ind
        <= Engine.Summary.max ages)%Z /\
       Engine.Summary.min weights <= Engine.weight ind
         <= Engine.Summary.max weights /\
       Engine.Summary.min scores <= Engine.combined_activity_score ind
         <= Engine.Summary.max scores) /\
    (exists young old, In young population /\ In old population /\
       Engine.age young = Engine.Summary.min ages /\
       Engine.age old = Engine.Summary.max ages) /\
    (exists light heavy, In light population /\ In heavy population /\
       Engine.weight light = Engine.Summary.min weights /\
       Engine.weight heavy = Engine.Summary.max weights) /\
    (exists slow fast, In slow population /\ In fast population /\
       Engine.combined_activity_score slow = Engine.Summary.min scores /\
       Engine.combined_activity_score fast = Engine.Summary.max scores) /\
    IZR (Engine.Summary.min ages) <= Engine.Summary.mean ages
      <= IZR (Engine.Summary.max ages) /\
    Engine.Summary.min weights <= Engine.Summary.mean weights
      <= Engine.Summary.max weights /\
    Engine.Summary.min scores <= Engine.Summary.mean scores
      <= Engine.Summary.max scores /\
    0 <= Engine.Summary.sd ages /\
    0 <= Engine.Summary.sd weights /\
    0 <= Engine.Summary.sd scores.
Proof.
  intros [| x l] s Hs; [discriminate |].
  destruct (get_population_summary_cons x l)
    as (s' & Hs' & _ & _ & _ & _ & _ & _ & Hage & Hweight & Hscore).
  assert (s' = s) by congruence. subst s'. clear Hs'.
  cbv zeta. rewrite Hage, Hweight, Hscore.
  cbn [Engine.Summary.min Engine.Summary.max Engine.Summary.mean
       Engine.Summary.sd].
  set (pop := x :: l).
  destruct (Z_min_list_spec (map Engine.age l) (Engine.age x)) as [Ha1 Ha2].
  destruct (Z_max_list_spec (map Engine.age l) (Engine.age x)) as [Ha3 Ha4].
  destruct (py_min_list_spec (map Engine.weight l) (Engine.weight x))
    as [Hw1 Hw2].
  destruct (py_max_list_spec (map Engine.weight l) (Engine.weight x))
    as [Hw3 Hw4].
  destruct (py_min_list_spec (map Engine.combined_activity_score l)
              (Engine.combined_activity_score x)) as [Hc1 Hc2].
  destruct (py_max_list_spec (map Engine.combined_activity_score l)
              (Engine.combined_activity_score x)) as [Hc3 Hc4].
  change (Engine.age x :: map Engine.age l) with (map Engine.age pop) in *.
  change (Engine.weight x :: map Engine.weight l)
    with (map Engine.weight pop) in *.
  change (Engine.combined_activity_score x
          :: map Engine.combined_activity_score l)
    with (map Engine.combined_activity_score pop) in *.
  assert (Hne : forall (B : Type) (f : Engine.IndividualCharacteristics -> B),
             map f pop <> []) by (intros B f; unfold pop; discriminate).
  split; [| split; [| split; [| split; [| split; [| split; [| split]]]]]].
  - intros ind Hin. repeat split.
    + apply Ha2. now apply in_map.
    + apply Ha4. now apply in_map.
    + apply Hw2. now apply in_map.
    + apply Hw4. now apply in_map.
    + apply Hc2. now apply in_map.
    + apply Hc4. now apply in_map.
  - apply In_map_witness in Ha1 as (i & Hi & Hia).
    apply In_map_witness in Ha3 as (j & Hj & Hja). exists i, j. auto.
  - apply In_map_witness in Hw1 as (i & Hi & Hia).
    apply In_map_witness in Hw3 as (j & Hj & Hja). exists i, j. auto.
  - apply In_map_witness in Hc1 as (i & Hi & Hia).
    apply In_map_witness in Hc3 as (j & Hj & Hja). exists i, j. auto.
  - apply mean_bounds; [unfold pop; discriminate |].
    intros c Hc. apply In_map_witness in Hc as (a & Ha & <-).
    split; apply IZR_le; [now apply Ha2 | now apply Ha4].
  - apply mean_bounds; [apply Hne |]. intros c Hc. split; auto.
  - apply mean_bounds; [apply Hne |]. intros c Hc. split; auto.
  - repeat split; apply sqrt_pos.
Qed.

Lemma population_summary_ranges_example :
  exists s : Engine.Summary.PopulationSummary,
    Engine.get_population_summary Concrete.cohort = Ok s /\
    let ages := Engine.Summary.age (Engine.Summary.demographics s) in
    let weights := Engine.Summary.weight (Engine.Summary.demographics s) in
    let scores := Engine.Summary.activity_score s in
    (forall ind, In ind Concrete.cohort ->
       (Engine.Summary.min ages <= Engine.age ind
        <= Engine.Summary.max ages)%Z /\
       Engine.Summary.min weights <= Engine.weight ind
         <= Engine.Summary.max weights /\
       Engine.Summary.min scores <= Engine.combined_activity_score ind
         <= Engine.Summary.max scores) /\
    (exists young old, In young Concrete.cohort /\ In old Concrete.cohort /\
       Engine.age young = Engine.Summary.min ages /\
       Engine.age old = Engine.Summary.max ages) /\
    (exists light heavy, In light Concrete.cohort /\ In heavy Concrete.cohort /\
       Engine.weight light = Engine.Summary.min weights /\
       Engine.weight heavy = Engine.Summary.max weights) /\
    (exists slow fast, In slow Concrete.cohort /\ In fast Concrete.cohort /\
       Engine.combined_activity_score slow = Engine.Summary.min scores /\
       Engine.combined_activity_score fast = Engine.Summary.max scores) /\
    IZR (Engine.Summary.min ages) <= Engine.Summary.mean ages
      <= IZR (Engine.Summary.max ages) /\
    Engine.Summary.min weights <= Engine.Summary.mean weights
      <= Engine.Summary.max weights /\
    Engine.Summary.min scores <= Engine.Summary.mean scores
      <= Engine.Summary.max scores /\
    0 <= Engine.Summary.sd ages /\
    0 <= Engine.Summary.sd weights /\
    0 <= Engine.Summary.sd scores.
Proof.
  destruct (get_population_summary_cons
              (Concrete.subject 1 30 "M" 80 Engine.EAST_ASIAN 2)
              [Concrete.subject 2 50 "F" 60 Engine.EUROPEAN 1])
    as (s & Hs & _).
  exists s. split; [exact Hs |].
  exact (population_summary_ranges Concrete.cohort s Hs).
Defined.

(** ** Demographics and physiology of a generated cohort *)

Section GeneratedFacts.
Context {G : Type} `{Np.Random G} `{!Np.RandomRangeLaws G}.
Variable st : Engine.ModuleState.
Variable self : Engine.PopulationGenerator.

(** The physiological parameters [_generate_physiological_params] derives
    for an individual, [v] being the lognormal draw. *)
Let physiology (ind : Engine.IndividualCharacteristics) (v : R)
    : Pbpk.PhysiologicalParameters :=
  {| Pbpk.body_weight := Engine.weight ind;
     Pbpk.v_plasma := 0.047 * Engine.weight ind;
     Pbpk.v_liver := 0.025 * Engine.weight ind;
     Pbpk.q_liver :=
       90 * Rpower (Engine.weight ind / 70) 0.75 *
       (1 - 0.1 * Py.max 0 (IZR (Engine.age ind - 60) / 20));
     Pbpk.cl_int :=
       Engine.base_cl_int self * Engine.combined_activity_score ind * v;
     Pbpk.cl_renal := 0;
     Pbpk.activity_score := Engine.combined_activity_score ind |}.

(** What one iteration of [generate] fixes of an individual beyond its
    genotypes. *)
Let drawn (ind : Engine.IndividualCharacteristics) : Prop :=
  (exists u, 0 <= u < 1 /\
     Engine.gender ind =
       if Rltb u (Engine.gender_ratio self) then "M"%string
       else "F"%string) /\
  (fst (Engine.age_range self) <= Engine.age ind
   <= snd (Engine.age_range self))%Z /\
  40 <= Engine.weight ind <= 150 /\
  140 <= Engine.height ind <= 200 /\
  Engine.bmi ind =
    Engine.weight ind /
    ((Engine.height ind / 100) * (Engine.height ind / 100)) /\
  0 <= Engine.combined_activity_score ind /\
  exists v, 0 < v /\ Engine.phys_params ind = Some (physiology ind v).

Lemma generate_body_drawn
    (population : list Engine.IndividualCharacteristics) (i : Z) (g g' : G)
    (population' : list Engine.IndividualCharacteristics) :
  Engine.generate_body st self population i g = Ok (population', g') ->
  exists ind,
    population' = population ++ [ind] /\
    Engine.subject_id ind = (i + 1)%Z /\
    drawn ind.
Proof.
  unfold Engine.generate_body. intros Hs.
  apply rbind_Ok in Hs as (eth & g1 & Heth & Hs).
  apply rbind_Ok in Hs as (u & g2 & Hu & Hs).
  apply rbind_Ok in Hs as (age & g3 & Hage & Hs).
  apply rbind_Ok in Hs as ([[w h] b] & g4 & Hwhb & Hs).
  apply rbind_Ok in Hs as (gt1 & g5 & Hgt1 & Hs).
  apply rbind_Ok in Hs as (gt2 & g6 & Hgt2 & Hs).
  apply rbind_Ok in Hs as (phys & g7 & Hphys & Hs).
  apply rret_Ok in Hs. injection Hs as -> ->.
  apply sample_anthropometrics_Ok in Hwhb as ((w0 & Hw) & (h0 & Hh) & Hb).
  apply Np.random_range in Hu.
  apply Np.randint_range in Hage.
  unfold Engine._generate_physiological_params in Hphys.
  apply rbind_Ok in Hphys as (v & g8 & Hv & Hphys).
  apply rret_Ok in Hphys. injection Hphys as -> _.
  apply Np.lognormal_pos in Hv.
  eexists. split; [reflexivity |]. split; [reflexivity |].
  unfold drawn, physiology.
  cbn [Engine.gender Engine.age Engine.weight Engine.height Engine.bmi
       Engine.combined_activity_score Engine.phys_params].
  split; [exists u; split; [exact Hu | reflexivity] |].
  split; [lia |].
  split; [rewrite Hw; apply clamp_range; lra |].
  split; [rewrite Hh; apply clamp_range; lra |].
  split; [exact Hb |].
  split; [apply sqrt_pos |].
  exists v. split; [exact Hv | reflexivity].
Qed.

Lemma rfor_each_generate_body_drawn (idx : list Z)
    (population population' : list Engine.IndividualCharacteristics)
    (g g' : G) :
  Np.rfor_each (Engine.generate_body st self) population idx g =
    Ok (population', g') ->
  exists new,
    population' = population ++ new /\
    map Engine.subject_id new = map (fun i => (i + 1)%Z) idx /\
    Forall drawn new.
Proof.
  revert population g.
  induction idx as [| i idx IH]; intros population g Hs; simpl in Hs.
  - apply rret_Ok in Hs. injection Hs as <- _.
    exists []. now rewrite app_nil_r.
  - apply rbind_Ok in Hs as (pop1 & g1 & Hbody & Hs).
    apply generate_body_drawn in Hbody as (ind & -> & Hid & Hgen).
    apply IH in Hs as (new & -> & Hids & Hnew).
    exists (ind :: new). rewrite <- app_assoc. simpl.
    split; [reflexivity |]. split; [now rewrite Hid, Hids |].
    now constructor.
Qed.

Lemma generate_drawn (g g' : G)
    (population : list Engine.IndividualCharacteristics) :
  Engine.generate st self g = Ok (population, g') ->
  map Engine.subject_id population =
    map (fun i => (i + 1)%Z) (Engine.range (Engine.n_subjects self)) /\
  forall ind, In ind population -> drawn ind.
Proof.
  unfold Engine.generate. intros Hs.
  apply rfor_each_generate_body_drawn in Hs as (new & -> & Hids & Hnew).
  split; [exact Hids |].
  intros ind Hin. rewrite Forall_forall in Hnew.
  now apply Hnew, list_elem_of_In.
Qed.

End GeneratedFacts.

Lemma counting_random_range_laws : Np.RandomRangeLaws nat.
Proof.
  constructor.
  - intros g g' u Hu. cbn [Np.random Concrete.counting_random] in Hu.
    injection Hu as <- _. lra.
  - intros low high g g' x Hx.
    cbn [Np.randint Concrete.counting_random] in Hx.
    destruct (low <? high)%Z eqn:Hlt; [| discriminate].
    apply Z.ltb_lt in Hlt. injection Hx as <- _. lia.
  - intros mu sigma g g' v Hv.
    cbn [Np.lognormal Concrete.counting_random] in Hv.
    injection Hv as <- _. lra.
Qed.

(** X15: the demographics of a generated cohort.  Every individual is
    "M" or "F" (all "F" when the male ratio is 0 or less, all "M" when it
    is 1 or more), has an age within the configured range, both ends
    included, and a body-mass index between 10 and 77. *)
Theorem generated_demographics
    {G : Type} `{Np.Random G} `{!Np.RandomRangeLaws G} :
  forall (st : Engine.ModuleState) (self : Engine.PopulationGenerator)
         (g g' : G) (population : list Engine.IndividualCharacteristics),
    Engine.generate st self g = Ok (population, g') ->
    forall ind, In ind population ->
      (Engine.gender ind = "M"%string \/ Engine.gender ind = "F"%string) /\
      (Engine.gender_ratio self <= 0 -> Engine.gender ind = "F"%string) /\
      (1 <= Engine.gender_ratio self -> Engine.gender ind = "M"%string) /\
      (fst (Engine.age_range self) <= Engine.age ind
       <= snd (Engine.age_range self))%Z /\
      10 <= Engine.bmi ind <= 77.
Proof.
  intros st self g g' population Hgen ind Hin.
  apply generate_drawn in Hgen as [_ Hall].
  destruct (Hall ind Hin)
    as ((u & Hu & Hgender) & Hage & Hw & Hh & Hbmi & _).
  rewrite Hgender. split; [destruct (Rltb u _); auto |].
  split; [intros Hr; now rewrite Rltb_false by lra |].
  split; [intros Hr; now rewrite Rltb_true by lra |].
  split; [exact Hage |].
  rewrite Hbmi.
  set (w := Engine.weight ind) in *. set (h := Engine.height ind) in *.
  assert (Hd : 1.96 <= h / 100 * (h / 100) <= 4) by nra.
  set (d := h / 100 * (h / 100)) in *.
  assert (Hinv : 0 <= / d) by (left; apply Rinv_0_lt_compat; lra).
  unfold Rdiv. split.
  - replace 10 with (10 * d * / d) by (field; lra).
    apply Rmult_le_compat_r; [exact Hinv | lra].
  - replace 77 with (77 * d * / d) by (field; lra).
    apply Rmult_le_compat_r; [exact Hinv | lra].
Qed.

Lemma generated_demographics_example :
  exists population g',
    Engine.generate Concrete.tables Concrete.two_subjects 0%nat =
      Ok (population, g') /\
    forall ind, In ind population ->
      (Engine.gender ind = "M"%string \/ Engine.gender ind = "F"%string) /\
      (Engine.gender_ratio Concrete.two_subjects <= 0 ->
       Engine.gender ind = "F"%string) /\
      (1 <= Engine.gender_ratio Concrete.two_subjects ->
       Engine.gender ind = "M"%string) /\
      (fst (Engine.age_range Concrete.two_subjects) <= Engine.age ind
       <= snd (Engine.age_range Concrete.two_subjects))%Z /\
      10 <= Engine.bmi ind <= 77.
Proof.
  destruct two_subjects_generate_Ok as (population & g' & Hgen & _).
  exists population, g'. split; [exact Hgen |].
  exact (@generated_demographics nat _ counting_random_range_laws
           Concrete.tables Concrete.two_subjects 0%nat g' population Hgen).
Defined.

(** X16: the physiology of a generated cohort.  Every individual carries
    physiological parameters whose body weight is its own weight, with
    plasma and liver volumes 4.7% and 2.5% of it (so both volumes and the
    central volume of any drug with a non-zero distribution volume are
    non-zero), no renal clearance, a hepatic blood flow that is positive up
    to the age of 259 and is the allometric 90 (w/70)^0.75 up to the age of
    60, and an intrinsic clearance that is not negative when the base
    clearance is not. *)
Theorem generated_physiology
    {G : Type} `{Np.Random G} `{!Np.RandomRangeLaws G} :
  forall (st : Engine.ModuleState) (self : Engine.PopulationGenerator)
         (g g' : G) (population : list Engine.IndividualCharacteristics),
    Engine.generate st self g = Ok (population, g') ->
    forall ind, In ind population ->
      exists p : Pbpk.PhysiologicalParameters,
        Engine.phys_params ind = Some p /\
        Pbpk.body_weight p = Engine.weight ind /\
        Pbpk.v_plasma p = 0.047 * Engine.weight ind /\
        Pbpk.v_liver p = 0.025 * Engine.weight ind /\
        Pbpk.cl_renal p = 0 /\
        Pbpk.activity_score p = Engine.combined_activity_score ind /\
        1 <= Pbpk.v_liver p <= 3.75 /\
        ((Engine.age ind <= 60)%Z ->
         Pbpk.q_liver p = 90 * Rpower (Engine.weight ind / 70) 0.75) /\
        ((Engine.age ind < 260)%Z -> 0 < Pbpk.q_liver p) /\
        (0 <= Engine.base_cl_int self -> 0 <= Pbpk.cl_int p) /\
        (forall drug, Pbpk.v_d drug <> 0 ->
           Pbpk.v_d drug * Pbpk.body_weight p <> 0 /\ Pbpk.v_liver p <> 0).
Proof.
  intros st self g g' population Hgen ind Hin.
  apply generate_drawn in Hgen as [_ Hall].
  destruct (Hall ind Hin)
    as (_ & _ & Hw & _ & _ & Hscore & (v & Hv & Hphys)).
  eexists. split; [exact Hphys |].
  cbn [Pbpk.body_weight Pbpk.v_plasma Pbpk.v_liver Pbpk.q_liver
       Pbpk.cl_int Pbpk.cl_renal Pbpk.activity_score].
  set (w := Engine.weight ind) in *.
  assert (Hpow : 0 < Rpower (w / 70) 0.75) by (unfold Rpower; apply exp_pos).
  repeat split; try lra.
  - intros Hage.
    assert (Hx : IZR (Engine.age ind - 60) / 20 <= 0).
    { apply IZR_le in Hage. rewrite minus_IZR. lra. }
    unfold Py.max. rewrite Rltb_false by exact Hx. ring.
  - intros Hage.
    assert (Hx : IZR (Engine.age ind - 60) / 20 < 10).
    { apply IZR_lt in Hage. rewrite minus_IZR. lra. }
    assert (Hmax : Py.max 0 (IZR (Engine.age ind - 60) / 20) < 10).
    { unfold Py.max. destruct (Rltb 0 _); lra. }
    apply Rmult_lt_0_compat; [lra | lra].
  - intros Hbase.
    apply Rmult_le_pos; [now apply Rmult_le_pos | lra].
  - apply Rmult_integral_contrapositive_currified; lra.
Qed.

Lemma generated_physiology_example :
  exists population g',
    Engine.generate Concrete.tables Concrete.two_subjects 0%nat =
      Ok (population, g') /\
    forall ind, In ind population ->
      exists p : Pbpk.PhysiologicalParameters,
        Engine.phys_params ind = Some p /\
        Pbpk.body_weight p = Engine.weight ind /\
        Pbpk.v_plasma p = 0.047 * Engine.weight ind /\
        Pbpk.v_liver p = 0.025 * Engine.weight ind /\
        Pbpk.cl_renal p = 0 /\
        Pbpk.activity_score p = Engine.combined_activity_score ind /\
        1 <= Pbpk.v_liver p <= 3.75 /\
        ((Engine.age ind <= 60)%Z ->
         Pbpk.q_liver p = 90 * Rpower (Engine.weight ind / 70) 0.75) /\
        ((Engine.age ind < 260)%Z -> 0 < Pbpk.q_liver p) /\
        (0 <= Engine.base_cl_int Concrete.two_subjects ->
         0 <= Pbpk.cl_int p) /\
        (forall drug, Pbpk.v_d drug <> 0 ->
           Pbpk.v_d drug * Pbpk.body_weight p <> 0 /\ Pbpk.v_liver p <> 0).
Proof.
  destruct two_subjects_generate_Ok as (population & g' & Hgen & _).
  exists population, g'. split; [exact Hgen |].
  exact (@generated_physiology nat _ counting_random_range_laws
           Concrete.tables Concrete.two_subjects 0%nat g' population Hgen).
Defined.

(** ** Size and numbering of the cohort *)

Lemma generate_body_append {G : Type} `{Np.Random G}
    (st : Engine.ModuleState) (self : Engine.PopulationGenerator)
    (population : list Engine.IndividualCharacteristics) (i : Z) (g g' : G)
    (population' : list Engine.IndividualCharacteristics) :
  Engine.generate_body st self population i g = Ok (population', g') ->
  exists ind,
    population' = population ++ [ind] /\ Engine.subject_id ind = (i + 1)%Z.
Proof.
  unfold Engine.generate_body. intros Hs.
  apply rbind_Ok in Hs as (eth & g1 & _ & Hs).
  apply rbind_Ok in Hs as (u & g2 & _ & Hs).
  apply rbind_Ok in Hs as (age & g3 & _ & Hs).
  apply rbind_Ok in Hs as ([[w h] b] & g4 & _ & Hs).
  apply rbind_Ok in Hs as (gt1 & g5 & _ & Hs).
  apply rbind_Ok in Hs as (gt2 & g6 & _ & Hs).
  apply rbind_Ok in Hs as (phys & g7 & _ & Hs).
  apply rret_Ok in Hs. injection Hs as -> ->.
  eexists. split; reflexivity.
Qed.

Lemma rfor_each_generate_body_ids {G : Type} `{Np.Random G}
    (st : Engine.ModuleState) (self : Engine.PopulationGenerator)
    (idx : list Z)
    (population population' : list Engine.IndividualCharacteristics)
    (g g' : G) :
  Np.rfor_each (Engine.generate_body st self) population idx g =
    Ok (population', g') ->
  exists new,
    population' = population ++ new /\
    map Engine.subject_id new = map (fun i => (i + 1)%Z) idx.
Proof.
  revert population g.
  induction idx as [| i idx IH]; intros population g Hs; simpl in Hs.
  - apply rret_Ok in Hs. injection Hs as <- _.
    exists []. now rewrite app_nil_r.
  - apply rbind_Ok in Hs as (pop1 & g1 & Hbody & Hs).
    apply generate_body_append in Hbody as (ind & -> & Hid).
    apply IH in Hs as (new & -> & Hids).
    exists (ind :: new). rewrite <- app_assoc. simpl.
    split; [reflexivity | now rewrite Hid, Hids].
Qed.

(** X17: size and numbering of the cohort.  A generator asked for zero or
    fewer subjects returns an empty cohort without drawing anything; a
    successful run returns exactly [n_subjects] individuals (none for a
    negative count), numbered 1, 2, ... in the order of the list, whatever
    the random draws were. *)
Theorem generate_numbering {G : Type} `{Np.Random G} :
  forall (st : Engine.ModuleState) (self : Engine.PopulationGenerator)
         (g : G),
    ((Engine.n_subjects self <= 0)%Z ->
     Engine.generate st self g = Ok ([], g)) /\
    forall (population : list Engine.IndividualCharacteristics) (g' : G),
      Engine.generate st self g = Ok (population, g') ->
      length population = Z.to_nat (Engine.n_subjects self) /\
      forall (k : nat) (ind : Engine.IndividualCharacteristics),
        population !! k = Some ind ->
        Engine.subject_id ind = (Z.of_nat k + 1)%Z.
Proof.
  intros st self g. split.
  - intros Hn. unfold Engine.generate, Engine.range.
    replace (Z.to_nat (Engine.n_subjects self)) with 0%nat by lia.
    reflexivity.
  - intros population g' Hgen. unfold Engine.generate in Hgen.
    apply rfor_each_generate_body_ids in Hgen as (new & -> & Hids).
    cbn [app]. unfold Engine.range in Hids. rewrite map_map in Hids.
    split.
    + apply (f_equal (@length Z)) in Hids.
      now rewrite !length_map, length_seq in Hids.
    + intros k ind Hk.
      assert (Hl : map Engine.subject_id new !! k =
                     Some (Engine.subject_id ind))
        by (now rewrite lookup_map, Hk).
      rewrite Hids, lookup_map in Hl.
      destruct (seq 0 (Z.to_nat (Engine.n_subjects self)) !! k)
        as [j |] eqn:Hj; [| discriminate].
      apply lookup_seq in Hj as [-> _]. cbn [option_map] in Hl.
      injection Hl as <-. f_equal.
Qed.

Lemma generate_numbering_example :
  exists (population : list Engine.IndividualCharacteristics) (g' : nat),
    Engine.generate Concrete.tables Concrete.two_subjects 0%nat =
      Ok (population, g') /\
    length population = Z.to_nat (Engine.n_subjects Concrete.two_subjects) /\
    forall (k : nat) (ind : Engine.IndividualCharacteristics),
      population !! k = Some ind ->
      Engine.subject_id ind = (Z.of_nat k + 1)%Z.
Proof.
  destruct two_subjects_generate_Ok as (population & g' & Hgen & _).
  exists population, g'. split; [exact Hgen |].
  exact (proj2 (generate_numbering Concrete.tables Concrete.two_subjects 0%nat)
           population g' Hgen).
Defined.

(** ** Lookups and their fallbacks *)

(** X18: what the import binds when both files are there.  For a data
    directory in which both files exist and hold JSON objects, the import
    prints nothing and binds each table to the entry under the file's key.
    A file whose object lacks its key gives an empty table, without any
    warning: every lookup in that table then answers with its default,
    the single allele "*1" with frequency 1, or the activity score 1. *)
Theorem module_import_loaded_tables :
  forall (fs : Engine.DataDir) (a : option Engine.AlleleFreqTable)
         (b : option Engine.ActivityScoreTable),
    Engine.allele_frequencies_json fs = Some a ->
    Engine.activity_scores_json fs = Some b ->
    exists st : Engine.ModuleState,
      Engine.module_import fs = Ok (st, []) /\
      Engine._ALLELE_FREQ_DATA st = default ∅ a /\
      Engine._ACTIVITY_SCORE_DATA st = default ∅ b /\
      (a = None ->
       forall eth gene,
         Engine.get_allele_frequencies st eth gene = [("*1"%string, 1)]) /\
      (b = None ->
       forall gene allele, Engine.get_activity_score st gene allele = 1).
Proof.
  intros fs a b Ha Hb.
  unfold Engine.module_import, Engine.load_allele_frequencies,
    Engine.load_activity_scores.
  rewrite Ha, Hb. cbn [Py.bind]. eexists. split; [reflexivity |].
  cbn [Engine._ALLELE_FREQ_DATA Engine._ACTIVITY_SCORE_DATA].
  split; [reflexivity |]. split; [reflexivity |]. split.
  - intros -> eth gene. unfold Engine.get_allele_frequencies.
    cbn [Engine._ALLELE_FREQ_DATA default].
    destruct (decide _) as [[x Hx] | _].
    + rewrite lookup_empty in Hx. discriminate.
    + rewrite lookup_empty. simpl. now rewrite lookup_empty.
  - intros -> gene allele. unfold Engine.get_activity_score.
    cbn [Engine._ACTIVITY_SCORE_DATA default]. now rewrite lookup_empty.
Qed.

Lemma module_import_loaded_tables_example :
  let fs :=
    {| Engine.get_data_dir := "prototype/data";
       Engine.allele_frequencies_json := Some None;
       Engine.activity_scores_json := Some (Some Concrete.score_table) |} in
  exists st : Engine.ModuleState,
    Engine.module_import fs = Ok (st, []) /\
    Engine._ALLELE_FREQ_DATA st = ∅ /\
    Engine._ACTIVITY_SCORE_DATA st = Concrete.score_table /\
    forall eth gene,
      Engine.get_allele_frequencies st eth gene = [("*1"%string, 1)].
Proof.
  intros fs.
  destruct (module_import_loaded_tables fs None (Some Concrete.score_table)
              eq_refl eq_refl) as (st & Himp & Ha & Hb & Hfreq & _).
  exists st. split; [exact Himp |]. split; [exact Ha |].
  split; [exact Hb |]. exact (Hfreq eq_refl).
Defined.

(** X19: which frequencies a lookup answers with.  For an ethnicity the
    table has, the answer is that ethnicity's entry for the gene, or the
    single wild-type allele "*1" with frequency 1 when it has none (the
    East Asian entry is not consulted); for an ethnicity the table lacks,
    the answer is whatever the lookup answers for East Asian. *)
Theorem allele_frequencies_fallback :
  forall (st : Engine.ModuleState) (eth : Engine.Ethnicity) (gene : string),
    (forall genes,
       Engine._ALLELE_FREQ_DATA st !! Engine.Ethnicity_value eth = Some genes ->
       Engine.get_allele_frequencies st eth gene =
         default [("*1"%string, 1)] (genes !! gene)) /\
    (Engine._ALLELE_FREQ_DATA st !! Engine.Ethnicity_value eth = None ->
     Engine.get_allele_frequencies st eth gene =
       Engine.get_allele_frequencies st Engine.EAST_ASIAN gene).
Proof.
  intros st eth gene. split.
  - intros genes Hg. unfold Engine.get_allele_frequencies.
    rewrite decide_True by (rewrite Hg; eauto).
    rewrite Hg. change (default ∅ (Some genes)) with genes.
    destruct (genes !! gene); reflexivity.
  - intros Hnone. unfold Engine.get_allele_frequencies.
    rewrite (decide_False (P := is_Some (_ !! Engine.Ethnicity_value eth)))
      by (rewrite Hnone; intros [x Hx]; discriminate).
    destruct (decide (is_Some (Engine._ALLELE_FREQ_DATA st
                                 !! Engine.Ethnicity_value Engine.EAST_ASIAN)));
      reflexivity.
Qed.

Lemma allele_frequencies_fallback_example :
  Engine.get_allele_frequencies Concrete.tables Engine.EUROPEAN "CYP3A4" =
    [("*1"%string, 1)] /\
  Engine.get_allele_frequencies Concrete.tables Engine.LATINO "CYP3A4" =
    Engine.get_allele_frequencies Concrete.tables Engine.EAST_ASIAN "CYP3A4".
Proof.
  destruct (allele_frequencies_fallback Concrete.tables Engine.EUROPEAN
              "CYP3A4") as [Hpresent _].
  destruct (allele_frequencies_fallback Concrete.tables Engine.LATINO
              "CYP3A4") as [_ Habsent].
  split.
  - rewrite (Hpresent {[ "CYP2C19"%string := Concrete.cyp2c19_freqs ]});
      reflexivity.
  - apply Habsent. reflexivity.
Defined.

Lemma classify_metabolizer_two : Engine._classify_metabolizer 2 = Engine.NORMAL.
Proof.
  unfold Engine._classify_metabolizer.
  rewrite (Rleb_false 2 0.25) by lra. rewrite (Rleb_false 2 1) by lra.
  now rewrite (Rleb_true 2 2) by lra.
Qed.

Lemma no_tables_generate_Ok :
  exists population g',
    Engine.generate Engine.no_tables Concrete.two_subjects 0%nat =
      Ok (population, g').
Proof.
  apply (rfor_each_Ok
           (Engine.generate_body Engine.no_tables Concrete.two_subjects)).
  intros s x g.
  apply counting_generate_body_Ok; [discriminate | simpl; lia |].
  intros eth gene _. now rewrite get_allele_frequencies_no_tables.
Qed.

(** X20: what the silent fallback does to a cohort.  When the module runs
    on the empty tables left by a failed import, every generated individual
    has the genotype *1/*1 for both genes, activity score 2 for each gene
    and combined, the Normal Metabolizer phenotype, and physiological
    parameters with activity score 2: the cohort has no pharmacogenetic
    variation at all. *)
Theorem fallback_cohort_is_uniform
    {G : Type} `{Np.Random G} `{!Np.RandomLaws G} :
  forall (self : Engine.PopulationGenerator) (g g' : G)
         (population : list Engine.IndividualCharacteristics),
    Engine.generate Engine.no_tables self g = Ok (population, g') ->
    forall ind, In ind population ->
      Engine.cyp2c19_genotype ind = ("*1", "*1")%string /\
      Engine.cyp3a4_genotype ind = ("*1", "*1")%string /\
      Engine.cyp2c19_activity_score ind = 2 /\
      Engine.cyp3a4_activity_score ind = 2 /\
      Engine.combined_activity_score ind = 2 /\
      Engine.metabolizer_status ind = Engine.NORMAL /\
      exists p, Engine.phys_params ind = Some p /\ Pbpk.activity_score p = 2.
Proof.
  intros self g g' population Hgen ind Hin.
  apply generate_Ok in Hgen as [Hall _].
  rewrite Forall_forall in Hall.
  destruct (Hall ind (proj2 (list_elem_of_In _ _) Hin))
    as [_ _ _ _ Hg1 Hg2 Hs1 Hs2 Hc Hst Hp].
  assert (Hscore : forall gene gt,
             Engine._calculate_activity_score Engine.no_tables gene gt = 2).
  { intros gene gt. unfold Engine._calculate_activity_score.
    rewrite !get_activity_score_no_tables. lra. }
  assert (Hgt : forall a1 a2 : string,
             In a1 ["*1"%string] -> In a2 ["*1"%string] ->
             Py.sorted2 a1 a2 = ("*1", "*1")%string).
  { intros a1 a2 [<- | []] [<- | []]. reflexivity. }
  rewrite Hscore in Hs1, Hs2.
  assert (Hc2 : Engine.combined_activity_score ind = 2).
  { rewrite Hc, Hs1, Hs2. apply sqrt_square. lra. }
  destruct Hg1 as (a1 & a2 & -> & H1 & H2).
  destruct Hg2 as (b1 & b2 & -> & H3 & H4).
  rewrite get_allele_frequencies_no_tables in H1, H2, H3, H4.
  split; [now apply Hgt |]. split; [now apply Hgt |].
  split; [exact Hs1 |]. split; [exact Hs2 |]. split; [exact Hc2 |].
  split; [rewrite Hst, Hc2; apply classify_metabolizer_two |].
  destruct Hp as (v & g1 & g2 & p & _ & Hp & _ & _ & Has).
  exists p. split; [exact Hp | now rewrite Has].
Qed.

Lemma fallback_cohort_is_uniform_example :
  exists population g',
    Engine.generate Engine.no_tables Concrete.two_subjects 0%nat =
      Ok (population, g') /\
    forall ind, In ind population ->
      Engine.cyp2c19_genotype ind = ("*1", "*1")%string /\
      Engine.cyp3a4_genotype ind = ("*1", "*1")%string /\
      Engine.cyp2c19_activity_score ind = 2 /\
      Engine.cyp3a4_activity_score ind = 2 /\
      Engine.combined_activity_score ind = 2 /\
      Engine.metabolizer_status ind = Engine.NORMAL /\
      exists p, Engine.phys_params ind = Some p /\ Pbpk.activity_score p = 2.
Proof.
  destruct no_tables_generate_Ok as (population & g' & Hgen).
  exists population, g'. split; [exact Hgen |].
  exact (@fallback_cohort_is_uniform nat _ counting_random_laws
           Concrete.two_subjects 0%nat g' population Hgen).
Defined.

(** ** Running the simulation on a cohort *)

Lemma run_population_simulation_Ok `{Np.OdeSolver} `{!Np.OdeSolverLaws}
    (drug : Pbpk.DrugParameters)
    (population : list Pbpk.PhysiologicalParameters)
    (cfg : Pbpk.SimulationConfig) :
  population <> [] ->
  (1 <= Pbpk.n_points cfg)%Z ->
  Forall (fun p => Pbpk.v_d drug * Pbpk.body_weight p <> 0 /\
                   Pbpk.v_liver p <> 0) population ->
  exists (r : Pbpk.SimulationResult) (rs : list Pbpk.SolveResult),
    Pbpk.run_population_simulation drug population cfg = Ok r /\
    length rs = length population /\
    Pbpk.individual_curves r = map Pbpk.c_plasma rs /\
    Pbpk.pk_metrics_list r = map Pbpk.pk_metrics rs /\
    Pbpk.cmax_distribution r = map Pbpk.cmax (map Pbpk.pk_metrics rs) /\
    Pbpk.auc_distribution r = map Pbpk.auc (map Pbpk.pk_metrics rs).
Proof.
  intros Hne Hpoints Hps.
  assert (Hgrid := linspace_ok 0 (Pbpk.t_max cfg) (Pbpk.n_points cfg)
                     ltac:(lia)).
  set (grid := map _ _) in Hgrid.
  set (N := length population).
  set (n := Z.to_nat (Pbpk.n_points cfg)).
  set (zero := replicate N (replicate n 0)).
  destruct (simulation_loop drug cfg Hpoints grid population Hgrid Hps
              0%nat None zero [])
    as (rs & Hrs & Hloop).
  { unfold zero. rewrite length_replicate. unfold N. lia. }
  assert (Hlen_rs : length rs = N)
    by (symmetry; eapply Forall2_length; exact Hrs).
  eexists. exists rs. split.
  - unfold Pbpk.run_population_simulation, Pbpk.zeros.
    destruct (Pbpk.n_points cfg <? 0)%Z eqn:Hneg;
      [apply Z.ltb_lt in Hneg; lia |].
    cbn [Py.bind]. unfold Py.enumerate. fold N n zero.
    change (length population) with N in Hloop. rewrite Hloop.
    cbn [Py.bind].
    rewrite take_0, drop_ge, app_nil_r
      by (unfold zero; rewrite length_replicate; unfold N; simpl; lia).
    destruct population; [congruence |].
    destruct rs; [discriminate Hlen_rs | reflexivity].
  - cbn [Pbpk.individual_curves Pbpk.pk_metrics_list Pbpk.cmax_distribution
         Pbpk.auc_distribution].
    split; [exact Hlen_rs |]. repeat split; reflexivity.
Qed.

(** X21: a generated cohort can always be simulated and analysed.  For a
    drug with a non-zero distribution volume and at least one time sample,
    the physiological parameters of a non-empty generated cohort run
    through the population simulation without an exception, giving one
    curve, one Cmax and one AUC per individual, and the safety analysis of
    those Cmax values then succeeds as well, counting every individual. *)
Theorem generated_cohort_simulates
    {G : Type} `{Np.Random G} `{!Np.RandomRangeLaws G}
    `{Np.OdeSolver} `{!Np.OdeSolverLaws} :
  forall (st : Engine.ModuleState) (self : Engine.PopulationGenerator)
         (g g' : G) (population : list Engine.IndividualCharacteristics)
         (drug : Pbpk.DrugParameters) (cfg : Pbpk.SimulationConfig)
         (toxic_threshold : R),
    Engine.generate st self g = Ok (population, g') ->
    population <> [] ->
    Pbpk.v_d drug <> 0 ->
    (1 <= Pbpk.n_points cfg)%Z ->
    exists (phys : list Pbpk.PhysiologicalParameters)
           (r : Pbpk.SimulationResult) (s : Engine.SafetyMargin),
      map Engine.phys_params population = map Some phys /\
      Pbpk.run_population_simulation drug phys cfg = Ok r /\
      length (Pbpk.individual_curves r) = length population /\
      length (Pbpk.cmax_distribution r) = length population /\
      length (Pbpk.auc_distribution r) = length population /\
      Engine.calculate_safety_margin (Pbpk.cmax_distribution r)
        toxic_threshold = Ok s /\
      Engine.n_total s = Z.of_nat (length population).
Proof.
  intros st self g g' population drug cfg thr Hgen Hne Hvd Hpoints.
  assert (Hphys : forall ind, In ind population ->
             exists p, Engine.phys_params ind = Some p /\
               Pbpk.v_d drug * Pbpk.body_weight p <> 0 /\
               Pbpk.v_liver p <> 0).
  { intros ind Hin.
    apply generate_drawn in Hgen as [_ Hall].
    destruct (Hall ind Hin) as (_ & _ & Hw & _ & _ & _ & (v & _ & Hp)).
    eexists. split; [exact Hp |].
    cbn [Pbpk.body_weight Pbpk.v_liver].
    split; [apply Rmult_integral_contrapositive_currified; lra | lra]. }
  clear Hgen.
  assert (Hlist : exists phys,
             map Engine.phys_params population = map Some phys /\
             Forall (fun p => Pbpk.v_d drug * Pbpk.body_weight p <> 0 /\
                              Pbpk.v_liver p <> 0) phys).
  { clear Hne. induction population as [| ind population IH].
    - exists []. split; [reflexivity | constructor].
    - destruct (Hphys ind (or_introl eq_refl)) as (p & Hp & Hok).
      destruct IH as (phys & Hmap & Hall);
        [intros i Hi; apply Hphys; now right |].
      exists (p :: phys). split; [cbn [map]; now rewrite Hp, Hmap |].
      now constructor. }
  destruct Hlist as (phys & Hmap & Hall).
  assert (Hlen : length phys = length population).
  { apply (f_equal (@length _)) in Hmap. now rewrite !length_map in Hmap. }
  assert (Hphys_ne : phys <> [])
    by (destruct phys; [destruct population; [congruence | discriminate] |
        discriminate]).
  destruct (run_population_simulation_Ok drug phys cfg Hphys_ne Hpoints Hall)
    as (r & rs & Hrun & Hrs & Hcurves & _ & Hcmax & Hauc).
  destruct (calculate_safety_margin_total
              (map Pbpk.cmax (map Pbpk.pk_metrics rs)) thr) as [s Hs].
  { intros Hnil. apply (f_equal (@length _)) in Hnil.
    rewrite !length_map, Hrs, Hlen in Hnil.
    destruct population; [congruence | discriminate]. }
  exists phys, r, s. split; [exact Hmap |]. split; [exact Hrun |].
  rewrite Hcurves, Hcmax, Hauc, !length_map, Hrs, Hlen.
  split; [reflexivity |]. split; [reflexivity |]. split; [reflexivity |].
  split; [exact Hs |].
  apply calculate_safety_margin_Ok in Hs as (_ & _ & Hn & _).
  now rewrite Hn, !length_map, Hrs, Hlen.
Qed.

Lemma generated_cohort_simulates_example :
  exists (population : list Engine.IndividualCharacteristics) (g' : nat)
         (phys : list Pbpk.PhysiologicalParameters)
         (r : Pbpk.SimulationResult) (s : Engine.SafetyMargin),
    Engine.generate Concrete.tables Concrete.two_subjects 0%nat =
      Ok (population, g') /\
    map Engine.phys_params population = map Some phys /\
    Pbpk.run_population_simulation Concrete.test_drug phys
      Concrete.test_config = Ok r /\
    length (Pbpk.individual_curves r) = length population /\
    length (Pbpk.cmax_distribution r) = length population /\
    length (Pbpk.auc_distribution r) = length population /\
    Engine.calculate_safety_margin (Pbpk.cmax_distribution r) 300 = Ok s /\
    Engine.n_total s = Z.of_nat (length population).
Proof.
  destruct two_subjects_generate_Ok as (population & g' & Hgen & Hlen).
  destruct (@generated_cohort_simulates nat _ counting_random_range_laws
              Concrete.euler euler_laws
              Concrete.tables Concrete.two_subjects 0%nat g' population
              Concrete.test_drug Concrete.test_config 300 Hgen)
    as (phys & r & s & Hres).
  - destruct population; [discriminate | discriminate].
  - simpl. lra.
  - simpl. lia.
  - exists population, g', phys, r, s. split; [exact Hgen | exact Hres].
Defined.

Lemma for_each_app {S X : Type} (body : S -> X -> result S) (xs ys : list X)
    (s : S) :
  Py.for_each body s (xs ++ ys) =
    Py.bind (Py.for_each body s xs) (fun s' => Py.for_each body s' ys).
Proof.
  revert s. induction xs as [| x xs IH]; intros s; [reflexivity |].
  cbn [app Py.for_each]. destruct (body s x) as [s' | e]; [apply IH |].
  reflexivity.
Qed.

(** X22: a negative grid size is rejected before anything is integrated.
    With a negative [n_points] the solve of any individual raises
    [ValueError] (from [np.linspace]) and so does the population run (from
    [np.zeros]), whatever the cohort, the drug and the solver. *)
Theorem negative_n_points_rejected `{Np.OdeSolver} :
  forall (drug : Pbpk.DrugParameters) (cfg : Pbpk.SimulationConfig),
    (Pbpk.n_points cfg < 0)%Z ->
    (forall population,
       Pbpk.run_population_simulation drug population cfg =
         Raise ValueError) /\
    (forall phys,
       Pbpk.solve (Pbpk.PBPKModel_init (Some drug) phys (Some cfg)) =
         Raise ValueError).
Proof.
  intros drug cfg Hneg. apply Z.ltb_lt in Hneg. split.
  - intros population.
    unfold Pbpk.run_population_simulation, Pbpk.zeros. now rewrite Hneg.
  - intros phys. unfold Pbpk.solve, Np.linspace.
    cbn [Pbpk.config Pbpk.PBPKModel_init default].
    change (Datatypes.id cfg) with cfg. now rewrite Hneg.
Qed.

Lemma negative_n_points_rejected_example :
  let cfg :=
    {| Pbpk.dose := 100; Pbpk.route := "oral"; Pbpk.t_max := 24;
       Pbpk.n_points := -1 |} in
  (forall population,
     @Pbpk.run_population_simulation Concrete.euler Concrete.test_drug
       population cfg = Raise ValueError) /\
  (forall phys,
     @Pbpk.solve Concrete.euler
       (Pbpk.PBPKModel_init (Some Concrete.test_drug) phys (Some cfg)) =
       Raise ValueError).
Proof.
  intros cfg.
  apply (@negative_n_points_rejected Concrete.euler Concrete.test_drug cfg).
  reflexivity.
Defined.

(** With a route other than oral and a central volume of zero, the
    initial plasma concentration cannot be computed. *)
Lemma solve_zero_central_volume `{Np.OdeSolver} (self : Pbpk.PBPKModel) :
  (0 <= Pbpk.n_points (Pbpk.config self))%Z ->
  String.eqb (Pbpk.route (Pbpk.config self)) "oral" = false ->
  Pbpk.v_d (Pbpk.drug self) * Pbpk.body_weight (Pbpk.phys self) = 0 ->
  Pbpk.solve self = Raise ZeroDivisionError.
Proof.
  intros Hn Hroute Hv. unfold Pbpk.solve.
  rewrite (linspace_ok 0 _ _ Hn). cbn [Py.bind].
  unfold Pbpk.solve_y0. rewrite Hroute.
  cbn [Pbpk.P_V_c Pbpk.solve_params]. unfold Py.div.
  now rewrite (Reqb_true _ _ Hv).
Qed.

(** X23: the simulation fails fast.  If the solve of some individual
    raises, and everyone before it in the cohort can be solved, the whole
    run raises that same exception: no partial result is returned and no
    later individual is looked at. *)
Theorem simulation_fails_fast `{Np.OdeSolver} `{!Np.OdeSolverLaws} :
  forall (drug : Pbpk.DrugParameters) (cfg : Pbpk.SimulationConfig)
         (before after : list Pbpk.PhysiologicalParameters)
         (p : Pbpk.PhysiologicalParameters) (e : PyExc),
    (1 <= Pbpk.n_points cfg)%Z ->
    Forall (fun q => Pbpk.v_d drug * Pbpk.body_weight q <> 0 /\
                     Pbpk.v_liver q <> 0) before ->
    Pbpk.solve (Pbpk.PBPKModel_init (Some drug) (Some p) (Some cfg)) =
      Raise e ->
    Pbpk.run_population_simulation drug (before ++ p :: after) cfg = Raise e.
Proof.
  intros drug cfg before after p e Hpoints Hbefore Hsolve.
  assert (Hgrid := linspace_ok 0 (Pbpk.t_max cfg) (Pbpk.n_points cfg)
                     ltac:(lia)).
  set (grid := map _ _) in Hgrid.
  set (N := length (before ++ p :: after)).
  set (n := Z.to_nat (Pbpk.n_points cfg)).
  set (zero := replicate N (replicate n 0)).
  assert (HN : N = (length before + S (length after))%nat)
    by (unfold N; now rewrite length_app).
  destruct (simulation_loop drug cfg Hpoints grid before Hgrid Hbefore
              0%nat None zero [])
    as (rs & _ & Hloop).
  { unfold zero. rewrite length_replicate. lia. }
  unfold Pbpk.run_population_simulation, Pbpk.zeros.
  destruct (Pbpk.n_points cfg <? 0)%Z eqn:Hneg;
    [apply Z.ltb_lt in Hneg; lia |].
  cbn [Py.bind]. unfold Py.enumerate. fold N n zero.
  rewrite HN, seq_app, zip_with_app by (now rewrite length_seq).
  rewrite for_each_app, Hloop. cbn [Py.bind].
  change (seq (0 + length before) (S (length after)))
    with ((0 + length before)%nat
          :: seq (S (0 + length before)) (length after)).
  cbn [zip_with Py.for_each].
  unfold Pbpk.simulation_body at 1. rewrite Hsolve. reflexivity.
Qed.

Lemma simulation_fails_fast_example :
  @Pbpk.run_population_simulation Concrete.euler Concrete.test_drug
    ([Concrete.test_phys] ++ Concrete.zero_weight_phys :: [Concrete.test_phys])
    Concrete.iv_config = Raise ZeroDivisionError.
Proof.
  apply (@simulation_fails_fast Concrete.euler euler_laws).
  - simpl. lia.
  - repeat constructor; simpl; lra.
  - apply solve_zero_central_volume.
    + simpl. lia.
    + reflexivity.
    + simpl. lra.
Defined.

(** ** Area under the curve *)

Lemma trapezoid_bounds (c t : list R) (lo hi : R) :
  StronglySorted Rle t ->
  length t = length c ->
  (forall x, In x c -> lo <= x <= hi) ->
  lo * (List.last t 0 - List.hd 0 t) <= Np.trapezoid c t
    <= hi * (List.last t 0 - List.hd 0 t).
Proof.
  intros Hs. revert c.
  induction Hs as [| x0 t Hs IH Hx0]; intros c Hlen Hb.
  - destruct c; [| discriminate]. simpl. lra.
  - destruct c as [| y0 c]; [discriminate |].
    destruct t as [| x1 t].
    + destruct c; [| discriminate]. simpl. lra.
    + destruct c as [| y1 c]; [discriminate |].
      change (Np.trapezoid (y0 :: y1 :: c) (x0 :: x1 :: t))
        with ((x1 - x0) * (y1 + y0) / 2 + Np.trapezoid (y1 :: c) (x1 :: t)).
      change (List.last (x0 :: x1 :: t) 0) with (List.last (x1 :: t) 0).
      change (List.hd 0 (x0 :: x1 :: t)) with x0.
      specialize (IH (y1 :: c)).
      change (List.hd 0 (x1 :: t)) with x1 in IH.
      destruct IH as [IH1 IH2].
      { simpl in Hlen |- *. lia. }
      { intros x Hx. apply Hb. now right. }
      assert (Hstep : x0 <= x1).
      { rewrite Forall_forall in Hx0. apply Hx0. left. }
      destruct (Hb y0 (or_introl eq_refl)) as [Hy0 Hy0'].
      destruct (Hb y1 (or_intror (or_introl eq_refl))) as [Hy1 Hy1'].
      split; nra.
Qed.

(** Peak, peak time and area of a series on an ascending time array. *)
Lemma auc_window (t c : list R) (m : Pbpk.PKMetrics) :
  Pbpk._calculate_pk_metrics t c = Ok m ->
  StronglySorted Rle t ->
  length t = length c ->
  In (Pbpk.tmax m) t /\
  In (Pbpk.cmax m) c /\
  (forall x, In x c -> x <= Pbpk.cmax m) /\
  List.hd 0 t <= Pbpk.tmax m <= List.last t 0 /\
  Pbpk.auc m <= Pbpk.cmax m * (List.last t 0 - List.hd 0 t).
Proof.
  intros Hm Hs Hlen.
  apply calculate_pk_metrics_Ok in Hm as (idx & Hidx & Ht & Hc & Hauc & _).
  apply argmax_first in Hidx as (Hlt & Hmax & _).
  assert (Hlast : List.last t 0 = nth (length t - 1) t 0).
  { destruct t as [| x t] using rev_ind; [reflexivity |].
    rewrite List.last_last, length_app. cbn [length].
    rewrite app_nth2 by lia.
    replace (length t + 1 - 1 - length t)%nat with 0%nat by lia.
    reflexivity. }
  assert (Hhd : List.hd 0 t = nth 0 t 0) by (destruct t; reflexivity).
  assert (Htm : Pbpk.tmax m = nth idx t 0).
  { apply nth_lookup_Some with (d := 0) in Ht. now rewrite <- Ht. }
  split; [apply list_elem_of_In, list_elem_of_lookup; eauto |].
  split; [rewrite Hc; now apply nth_In |].
  split; [rewrite Hc; exact Hmax |]. split.
  - rewrite Hhd, Hlast, Htm.
    split; apply sorted_nth_le; try assumption; lia.
  - rewrite Hauc, Hc.
    assert (Hlo : exists lo, forall x, In x c -> lo <= x).
    { clear. induction c as [| y c [lo IH]]; [exists 0; intros x [] |].
      exists (Rmin y lo). intros x [<- | Hx]; [apply Rmin_l |].
      apply Rle_trans with lo; [apply Rmin_r | now apply IH]. }
    destruct Hlo as [lo Hlo].
    apply (trapezoid_bounds c t lo (nth idx c 0) Hs Hlen).
    intros x Hx. split; [now apply Hlo | now apply Hmax].
Qed.

(** X24: the area under the curve against the peak.  On a time array in
    ascending order with one concentration per time, Tmax lies between the
    first and the last time, the AUC is at most Cmax times the length of
    the time window, and it is not negative when no concentration is. *)
Theorem auc_bounded_by_peak :
  forall (t c : list R) (m : Pbpk.PKMetrics),
    Pbpk._calculate_pk_metrics t c = Ok m ->
    StronglySorted Rle t ->
    length t = length c ->
    List.hd 0 t <= Pbpk.tmax m <= List.last t 0 /\
    Pbpk.auc m <= Pbpk.cmax m * (List.last t 0 - List.hd 0 t) /\
    ((forall x, In x c -> 0 <= x) -> 0 <= Pbpk.auc m).
Proof.
  intros t c m Hm Hs Hlen.
  destruct (auc_window t c m Hm Hs Hlen) as (_ & _ & Hmax & Htm & Hauc).
  split; [exact Htm |]. split; [exact Hauc |].
  intros Hpos.
  apply calculate_pk_metrics_Ok in Hm as (idx & _ & _ & _ & Ha & _).
  destruct (trapezoid_bounds c t 0 (Pbpk.cmax m) Hs Hlen) as [H0 _].
  { intros x Hx. split; [now apply Hpos | now apply Hmax]. }
  rewrite Ha. lra.
Qed.

Lemma auc_bounded_by_peak_example :
  exists m : Pbpk.PKMetrics,
    Pbpk._calculate_pk_metrics [0; 1; 2; 3] [8; 4; 2; 1] = Ok m /\
    List.hd 0 [0; 1; 2; 3] <= Pbpk.tmax m <= List.last [0; 1; 2; 3] 0 /\
    Pbpk.auc m
      <= Pbpk.cmax m * (List.last [0; 1; 2; 3] 0 - List.hd 0 [0; 1; 2; 3]) /\
    ((forall x, In x [8; 4; 2; 1] -> 0 <= x) -> 0 <= Pbpk.auc m).
Proof.
  eexists. split; [exact example_series_metrics |].
  apply (auc_bounded_by_peak [0; 1; 2; 3] [8; 4; 2; 1] _
           example_series_metrics); [| reflexivity].
  repeat (constructor; [| repeat (constructor; try lra)]). constructor.
Defined.

Lemma affine_seq_sorted (a s : R) (n k : nat) :
  0 <= s ->
  StronglySorted Rle (map (fun i => a + INR i * s) (seq k n)).
Proof.
  intros Hs. revert k. induction n as [| n IH]; intros k; [constructor |].
  cbn [seq map]. constructor; [apply IH |].
  apply Forall_forall. intros x Hx.
  apply list_elem_of_In, in_map_iff in Hx as (i & <- & Hi).
  apply in_seq in Hi. assert (Hki : INR k <= INR i) by (apply le_INR; lia).
  nra.
Qed.

Lemma linspace_ascending (start stop : R) (num : Z) (t : list R) :
  (2 <= num)%Z ->
  start <= stop ->
  Np.linspace start stop num = Ok t ->
  StronglySorted Rle t /\ List.hd 0 t = start /\ List.last t 0 = stop.
Proof.
  intros Hnum Hle Ht.
  rewrite linspace_ok in Ht by lia. injection Ht as <-.
  set (n := Z.to_nat num).
  assert (Hn : (2 <= n)%nat) by (unfold n; lia).
  assert (Hden : 0 < INR (n - 1)) by (apply lt_0_INR; lia).
  assert (Hstep : 0 <= (stop - start) / INR (n - 1)).
  { unfold Rdiv. apply Rmult_le_pos; [lra |].
    left. now apply Rinv_0_lt_compat. }
  split; [now apply affine_seq_sorted |]. split.
  - destruct n as [| n']; [lia |]. cbn [seq map List.hd INR]. lra.
  - pose proof (seq_S (n - 1) 0) as Hseq.
    replace (S (n - 1)) with n in Hseq by lia.
    rewrite Hseq, map_app. cbn [map]. rewrite List.last_last.
    cbn [Nat.add]. field. lra.
Qed.

(** X25: the metrics of a solve against its time window.  With at least
    two time samples, a non-negative end time and non-zero central and
    liver volumes, the solve returns plasma and liver curves with one value
    per time sample; Tmax is one of the samples of the grid and lies in
    [0, t_max], Cmax is the largest plasma concentration of the curve, and
    the AUC is at most Cmax times t_max. *)
Theorem solve_metrics_within_window `{Np.OdeSolver} `{!Np.OdeSolverLaws} :
  forall self : Pbpk.PBPKModel,
    (2 <= Pbpk.n_points (Pbpk.config self))%Z ->
    0 <= Pbpk.t_max (Pbpk.config self) ->
    Pbpk.v_d (Pbpk.drug self) * Pbpk.body_weight (Pbpk.phys self) <> 0 ->
    Pbpk.v_liver (Pbpk.phys self) <> 0 ->
    exists r : Pbpk.SolveResult,
      Pbpk.solve self = Ok r /\
      let n := Z.to_nat (Pbpk.n_points (Pbpk.config self)) in
      let m := Pbpk.pk_metrics r in
      length (Pbpk.time r) = n /\
      length (Pbpk.c_plasma r) = n /\
      length (Pbpk.c_liver r) = n /\
      In (Pbpk.tmax m) (Pbpk.time r) /\
      0 <= Pbpk.tmax m <= Pbpk.t_max (Pbpk.config self) /\
      In (Pbpk.cmax m) (Pbpk.c_plasma r) /\
      (forall c, In c (Pbpk.c_plasma r) -> c <= Pbpk.cmax m) /\
      Pbpk.auc m <= Pbpk.cmax m * Pbpk.t_max (Pbpk.config self).
Proof.
  intros self Hn Htmax Hc Hl.
  destruct (solve_spec self ltac:(lia) Hc Hl)
    as (t & y0 & sol & r & Ht & Hy0 & Hsol & Hr & Htime & Hcp & Hlen & Hm & _).
  exists r. split; [exact Hr |]. cbv zeta.
  assert (Hlt : length t = Z.to_nat (Pbpk.n_points (Pbpk.config self)))
    by (eapply linspace_length; exact Ht).
  destruct (linspace_ascending _ _ _ _ Hn Htmax Ht) as (Hsorted & Hhd & Hlast).
  assert (Hcl : Pbpk.c_liver r = map (fun y => snd y * 1000) sol).
  { unfold Pbpk.solve in Hr. rewrite Ht in Hr. cbn [Py.bind] in Hr.
    rewrite Hy0 in Hr. cbn [Py.bind] in Hr. rewrite Hsol in Hr.
    cbn [Py.bind] in Hr.
    destruct (Pbpk._calculate_pk_metrics t _) as [pk | e]; [| discriminate].
    cbn [Py.bind] in Hr. injection Hr as <-. reflexivity. }
  assert (Hls : length sol = length t).
  { rewrite Hcp, length_map in Hlen. rewrite Hlt. exact Hlen. }
  destruct (auc_window t (Pbpk.c_plasma r) (Pbpk.pk_metrics r) Hm Hsorted)
    as (Hin_t & Hin_c & Hmax & Htm & Hauc); [lia |].
  rewrite Hhd, Hlast in Htm, Hauc. rewrite Rminus_0_r in Hauc.
  rewrite Htime, Hcl, length_map.
  repeat split; try assumption; try lia; try lra.
  exact (eq_trans Hls Hlt).
Qed.

Lemma solve_metrics_within_window_example :
  exists r : Pbpk.SolveResult,
    @Pbpk.solve Concrete.euler
      (Pbpk.PBPKModel_init (Some Concrete.test_drug) (Some Concrete.test_phys)
         (Some Concrete.test_config)) = Ok r /\
    let m := Pbpk.pk_metrics r in
    length (Pbpk.time r) = 241%nat /\
    length (Pbpk.c_plasma r) = 241%nat /\
    length (Pbpk.c_liver r) = 241%nat /\
    In (Pbpk.tmax m) (Pbpk.time r) /\
    0 <= Pbpk.tmax m <= 24 /\
    In (Pbpk.cmax m) (Pbpk.c_plasma r) /\
    (forall c, In c (Pbpk.c_plasma r) -> c <= Pbpk.cmax m) /\
    Pbpk.auc m <= Pbpk.cmax m * 24.
Proof.
  apply (@solve_metrics_within_window Concrete.euler euler_laws
           (Pbpk.PBPKModel_init (Some Concrete.test_drug)
              (Some Concrete.test_phys) (Some Concrete.test_config)));
    simpl; lia || lra.
Defined.

(** ** The band around the mean curve *)

(** A higher percentile of the same array is not smaller. *)
Lemma percentile_mono (a : list R) (q1 q2 : R) :
  a <> [] ->
  0 <= q1 -> q1 <= q2 -> q2 <= 100 ->
  Np.percentile a q1 <= Np.percentile a q2.
Proof.
  intros Hne H0 H12 H100.
  destruct (percentile_between a q1 Hne ltac:(lra)) as (_ & Hhi1 & _ & Hup).
  destruct (percentile_between a q2 Hne ltac:(lra)) as (_ & Hhi2 & Hlow & _).
  destruct (percentile_rank (length a) q1 ltac:(lra)) as [Hlo1 Hg1].
  destruct (percentile_rank (length a) q2 ltac:(lra)) as [Hlo2 Hg2].
  cbv zeta in *.
  assert (Hlen : (0 < length a)%nat) by (destruct a; [congruence | simpl; lia]).
  assert (Hn : 0 <= INR (length a - 1)) by apply pos_INR.
  set (pos1 := q1 / 100 * INR (length a - 1)) in *.
  set (pos2 := q2 / 100 * INR (length a - 1)) in *.
  assert (Hpos : pos1 <= pos2) by (unfold pos1, pos2; nra).
  set (lo1 := Z.to_nat (Int_part pos1)) in *.
  set (lo2 := Z.to_nat (Int_part pos2)) in *.
  assert (Hlo : (lo1 <= lo2)%nat).
  { destruct (le_lt_dec lo1 lo2) as [Hle | Hlt]; [exact Hle |].
    assert (INR lo2 + 1 <= INR lo1)
      by (rewrite <- S_INR; apply le_INR; lia).
    lra. }
  assert (Hsorted := sort_sorted a).
  destruct (Nat.eq_dec lo1 lo2) as [Heq | Hneq].
  - unfold Np.percentile. fold pos1 pos2 lo1 lo2. rewrite <- Heq in *.
    assert (Hmono : nth lo1 (Np.sort a) 0
                    <= nth (Nat.min (lo1 + 1) (length a - 1)) (Np.sort a) 0).
    { apply sorted_nth_le; [exact Hsorted | lia |].
      rewrite sort_length. lia. }
    nra.
  - apply Rle_trans with (1 := Hup). apply Rle_trans with (2 := Hlow).
    apply sorted_nth_le; [exact Hsorted | lia |].
    rewrite sort_length. lia.
Qed.

Lemma run_population_simulation_stats `{Np.OdeSolver}
    (drug : Pbpk.DrugParameters)
    (population : list Pbpk.PhysiologicalParameters)
    (cfg : Pbpk.SimulationConfig) (r : Pbpk.SimulationResult) :
  Pbpk.run_population_simulation drug population cfg = Ok r ->
  let cols := Z.to_nat (Pbpk.n_points cfg) in
  Pbpk.mean_concentration r =
    Pbpk.along_axis0 Np.mean (Pbpk.individual_curves r) cols /\
  Pbpk.std_concentration r =
    Pbpk.along_axis0 Np.std (Pbpk.individual_curves r) cols /\
  Pbpk.ci_lower r =
    Pbpk.along_axis0 (fun a => Np.percentile a 5)
      (Pbpk.individual_curves r) cols /\
  Pbpk.ci_upper r =
    Pbpk.along_axis0 (fun a => Np.percentile a 95)
      (Pbpk.individual_curves r) cols /\
  Pbpk.cmax_distribution r = map Pbpk.cmax (Pbpk.pk_metrics_list r) /\
  Pbpk.auc_distribution r = map Pbpk.auc (Pbpk.pk_metrics_list r).
Proof.
  unfold Pbpk.run_population_simulation.
  destruct (Pbpk.zeros _ _) as [zero | e]; [| discriminate].
  cbn [Py.bind].
  destruct (Py.for_each _ _ _) as [[[time m] metrics] | e]; [| discriminate].
  cbn [Py.bind]. destruct m as [| row m]; [discriminate |].
  cbn [Pbpk.percentile_axis0 Py.bind]. intros [= <-]. cbv zeta.
  repeat split; reflexivity.
Qed.

(** X26: the band drawn around the mean curve is well formed.  Whenever
    the population simulation returns curves, at every time sample the 5th
    percentile is at most the 95th, both percentiles and the mean lie
    within any bounds that hold for all individual concentrations at that
    sample, and the standard deviation is not negative. *)
Theorem confidence_band_ordered `{Np.OdeSolver} :
  forall (drug : Pbpk.DrugParameters)
         (population : list Pbpk.PhysiologicalParameters)
         (cfg : Pbpk.SimulationConfig) (r : Pbpk.SimulationResult),
    Pbpk.run_population_simulation drug population cfg = Ok r ->
    Pbpk.individual_curves r <> [] ->
    forall j, (j < Z.to_nat (Pbpk.n_points cfg))%nat ->
      nth j (Pbpk.ci_lower r) 0 <= nth j (Pbpk.ci_upper r) 0 /\
      0 <= nth j (Pbpk.std_concentration r) 0 /\
      forall lo hi,
        (forall c, In c (Pbpk.column j (Pbpk.individual_curves r)) ->
           lo <= c <= hi) ->
        lo <= nth j (Pbpk.ci_lower r) 0 /\
        nth j (Pbpk.ci_upper r) 0 <= hi /\
        lo <= nth j (Pbpk.mean_concentration r) 0 <= hi.
Proof.
  intros drug population cfg r Hrun Hne j Hj.
  apply run_population_simulation_stats in Hrun
    as (Hmean & Hstd & Hlo & Hhi & _).
  rewrite Hmean, Hstd, Hlo, Hhi, !along_axis0_nth by exact Hj.
  assert (Hcol : Pbpk.column j (Pbpk.individual_curves r) <> []).
  { unfold Pbpk.column. destruct (Pbpk.individual_curves r);
      [congruence | discriminate]. }
  split; [apply percentile_mono; [exact Hcol | lra | lra | lra] |].
  split; [apply sqrt_pos |].
  intros lo hi Hb.
  destruct (percentile_bounds _ 5 lo hi Hcol ltac:(lra) Hb) as [H5 _].
  destruct (percentile_bounds _ 95 lo hi Hcol ltac:(lra) Hb) as [_ H95].
  split; [exact H5 |]. split; [exact H95 |].
  now apply mean_bounds.
Qed.

Lemma confidence_band_ordered_example :
  exists r : Pbpk.SimulationResult,
    @Pbpk.run_population_simulation Concrete.euler Concrete.test_drug
      [Concrete.test_phys; Concrete.test_phys] Concrete.test_config = Ok r /\
    forall j, (j < 241)%nat ->
      nth j (Pbpk.ci_lower r) 0 <= nth j (Pbpk.ci_upper r) 0 /\
      0 <= nth j (Pbpk.std_concentration r) 0 /\
      forall lo hi,
        (forall c, In c (Pbpk.column j (Pbpk.individual_curves r)) ->
           lo <= c <= hi) ->
        lo <= nth j (Pbpk.ci_lower r) 0 /\
        nth j (Pbpk.ci_upper r) 0 <= hi /\
        lo <= nth j (Pbpk.mean_concentration r) 0 <= hi.
Proof.
  destruct (@run_population_simulation_Ok Concrete.euler euler_laws
              Concrete.test_drug [Concrete.test_phys; Concrete.test_phys]
              Concrete.test_config)
    as (r & rs & Hrun & Hrs & Hcurves & _).
  - discriminate.
  - simpl. lia.
  - repeat constructor; simpl; lra.
  - exists r. split; [exact Hrun |].
    apply (@confidence_band_ordered Concrete.euler Concrete.test_drug
             [Concrete.test_phys; Concrete.test_phys] Concrete.test_config
             r Hrun).
    rewrite Hcurves. destruct rs; [discriminate | discriminate].
Defined.

(** ** The digital-twin icons *)

(** X27: the colour of an individual's icon follows its activity score.
    For every phenotype both dictionaries have an entry, so neither
    default is used for a stored individual, and the four phenotypes get
    four different colours: red up to a combined activity score of 0.25,
    orange up to 1, green up to 2 and blue above; an individual stored
    without a phenotype is drawn green. *)
Theorem twin_icon_color :
  forall score : R,
    let status := Engine._classify_metabolizer score in
    let color := App.icon_color (Some (App.stored_metabolizer status)) in
    is_Some (App.metabolizer_map !! Engine.MetabolizerStatus_value status) /\
    is_Some (App.color_map !! App.stored_metabolizer status) /\
    (score <= 0.25 -> color = "#E74C3C"%string) /\
    (0.25 < score <= 1 -> color = "#F39C12"%string) /\
    (1 < score <= 2 -> color = "#2ECC71"%string) /\
    (2 < score -> color = "#3498DB"%string) /\
    App.icon_color None = "#2ECC71"%string /\
    forall status' : Engine.MetabolizerStatus,
      App.icon_color (Some (App.stored_metabolizer status')) = color ->
      status' = status.
Proof.
  intros score status color.
  assert (Hcases :
            (score <= 0.25 /\ status = Engine.POOR) \/
            (0.25 < score <= 1 /\ status = Engine.INTERMEDIATE) \/
            (1 < score <= 2 /\ status = Engine.NORMAL) \/
            (2 < score /\ status = Engine.ULTRA_RAPID)).
  { unfold status, Engine._classify_metabolizer, Rleb.
    destruct (Rle_dec score 0.25); [left; split; [lra | reflexivity] |].
    destruct (Rle_dec score 1);
      [right; left; split; [lra | reflexivity] |].
    destruct (Rle_dec score 2);
      [right; right; left; split; [lra | reflexivity] |].
    right; right; right. split; [lra | reflexivity]. }
  assert (Hinj : forall s1 s2,
             App.icon_color (Some (App.stored_metabolizer s1)) =
               App.icon_color (Some (App.stored_metabolizer s2)) ->
             s1 = s2).
  { intros [] []; intros Heq; try reflexivity; vm_compute in Heq;
      discriminate. }
  unfold color.
  destruct Hcases as [[H ->] | [[H ->] | [[H ->] | [H ->]]]];
    (split; [vm_compute; eauto |]); (split; [vm_compute; eauto |]);
    (split; [intros; reflexivity || lra |]);
    (split; [intros; reflexivity || lra |]);
    (split; [intros; reflexivity || lra |]);
    (split; [intros; reflexivity || lra |]);
    (split; [reflexivity |]); intros s' Hs'; now apply Hinj.
Qed.

(** ** A simulation needs a cohort *)

Lemma simulation_body_time `{Np.OdeSolver} (drug : Pbpk.DrugParameters)
    (cfg : Pbpk.SimulationConfig) (st st' : Pbpk.LoopState)
    (ip : nat * Pbpk.PhysiologicalParameters) :
  Pbpk.simulation_body drug cfg st ip = Ok st' -> fst (fst st') <> None.
Proof.
  destruct st as [[time m] metrics]. destruct ip as [i p].
  unfold Pbpk.simulation_body. intros Hs.
  apply bind_Ok in Hs as (sr & _ & Hs).
  apply bind_Ok in Hs as (m' & _ & Hs).
  injection Hs as <-. cbn [fst]. destruct time; discriminate.
Qed.

Lemma simulation_loop_time `{Np.OdeSolver} (drug : Pbpk.DrugParameters)
    (cfg : Pbpk.SimulationConfig)
    (xs : list (nat * Pbpk.PhysiologicalParameters))
    (st st' : Pbpk.LoopState) :
  Py.for_each (Pbpk.simulation_body drug cfg) st xs = Ok st' ->
  fst (fst st) <> None \/ xs <> [] ->
  fst (fst st') <> None.
Proof.
  revert st. induction xs as [| x xs IH]; intros st Hs Hstart.
  - cbn [Py.for_each] in Hs. injection Hs as <-.
    destruct Hstart as [Hstart | Hstart]; [exact Hstart | congruence].
  - cbn [Py.for_each] in Hs.
    destruct (Pbpk.simulation_body drug cfg st x) as [s1 | e] eqn:Hbody;
      [| discriminate].
    apply (IH s1 Hs). left. exact (simulation_body_time _ _ _ _ _ Hbody).
Qed.

(** X28: a simulation needs a cohort.  With at least one time sample, the
    population simulation of an empty cohort raises [IndexError] (from
    [np.percentile] along the empty axis); whenever the simulation returns,
    the cohort was not empty, and the result has curves and a time grid
    (never [None]). *)
Theorem simulation_needs_a_cohort `{Np.OdeSolver} :
  forall (drug : Pbpk.DrugParameters) (cfg : Pbpk.SimulationConfig),
    (1 <= Pbpk.n_points cfg)%Z ->
    Pbpk.run_population_simulation drug [] cfg = Raise IndexError /\
    forall (population : list Pbpk.PhysiologicalParameters)
           (r : Pbpk.SimulationResult),
      Pbpk.run_population_simulation drug population cfg = Ok r ->
      population <> [] /\
      Pbpk.individual_curves r <> [] /\
      Pbpk.sim_time r <> None.
Proof.
  intros drug cfg Hn.
  assert (Hneg : (Pbpk.n_points cfg <? 0)%Z = false) by (apply Z.ltb_ge; lia).
  assert (Hempty :
            Pbpk.run_population_simulation drug [] cfg = Raise IndexError).
  { unfold Pbpk.run_population_simulation, Pbpk.zeros. rewrite Hneg.
    reflexivity. }
  split; [exact Hempty |].
  intros population r Hrun.
  assert (Hpop : population <> []).
  { intros ->. rewrite Hempty in Hrun. discriminate. }
  split; [exact Hpop |].
  unfold Pbpk.run_population_simulation, Pbpk.zeros in Hrun.
  rewrite Hneg in Hrun. cbn [Py.bind] in Hrun.
  destruct (Py.for_each _ _ _) as [[[time m] metrics] | e] eqn:Hloop;
    [| discriminate].
  cbn [Py.bind] in Hrun. destruct m as [| row m]; [discriminate |].
  cbn [Pbpk.percentile_axis0 Py.bind] in Hrun. injection Hrun as <-.
  cbn [Pbpk.individual_curves Pbpk.sim_time].
  split; [discriminate |].
  apply simulation_loop_time in Hloop; [exact Hloop |].
  right. unfold Py.enumerate. destruct population; [congruence | discriminate].
Qed.

Lemma simulation_needs_a_cohort_example :
  @Pbpk.run_population_simulation Concrete.euler Concrete.test_drug []
    Concrete.test_config = Raise IndexError /\
  forall (population : list Pbpk.PhysiologicalParameters)
         (r : Pbpk.SimulationResult),
    @Pbpk.run_population_simulation Concrete.euler Concrete.test_drug
      population Concrete.test_config = Ok r ->
    population <> [] /\
    Pbpk.individual_curves r <> [] /\
    Pbpk.sim_time r <> None.
Proof.
  apply (@simulation_needs_a_cohort Concrete.euler Concrete.test_drug
           Concrete.test_config).
  simpl. lia.
Defined.
